(** * Arduino Cursor extension: cache-and-fetch layer, command runner, configuration

    A shallow embedding of the classes [ArduinoManager], [LibraryManager]
    and [ConfigManager] of the extension, followed by the properties of the
    specification that concern them.

    Conventions of the embedding.
      - Run-time data are JavaScript values ([value]); numbers are the
        integral ones (millisecond clocks, exit codes, baud rates).
      - A text (file contents, standard output of the external tool) is
        represented by what [JSON.parse] makes of it ([text]).
      - Synchronous code that may throw returns a [Completion]; code that
        touches the file system, the clock, the notification area or the
        external tool is a computation over [World] ([M]), an [async]
        function being a computation whose [Throw] is a rejected promise.
      - The external tool is an oracle: a command line determines how long
        the subprocess runs and how it ends.  The clock advances while a
        subprocess runs and stands still otherwise.
      - Of the file system, a write, an unlink or a mkdir may fail (a
        read-only store, a missing directory); an existing file can be read. *)

From Stdlib Require Import ZArith List String Ascii Bool Lia DecimalString.
Import ListNotations.

Local Open Scope string_scope.
Local Open Scope Z_scope.
Set Warnings "-register-all".

(** ** JavaScript values *)

Inductive value : Type :=
| VUndefined
| VNull
| VBool (b : bool)
| VNum (n : Z)
| VStr (s : string)
| VArr (elts : list value)
| VObj (props : list (string * value)).

(** Errors are [Error] objects: a constructor name and a message. *)
Record JsError : Type := mkError { errName : string; errMessage : string }.

Inductive Completion (A : Type) : Type :=
| Normal (a : A)
| Throw (e : JsError).
Arguments Normal {A} a.
Arguments Throw {A} e.

Definition cbind {A B} (c : Completion A) (k : A -> Completion B) : Completion B :=
  match c with
  | Normal a => k a
  | Throw e => Throw e
  end.

Declare Scope completion_scope.
Delimit Scope completion_scope with completion.
Notation "x <~ c ;; k" := (cbind c (fun x => k))
  (at level 61, c at next level, right associativity) : completion_scope.

Definition dquote : string := String (ascii_of_nat 34) EmptyString.
Definition squote : string := String (ascii_of_nat 39) EmptyString.
Definition newline : string := String (ascii_of_nat 10) EmptyString.

Definition showZ (n : Z) : string := NilZero.string_of_int (Z.to_int n).
Definition showNat (n : nat) : string := showZ (Z.of_nat n).

Definition Error (msg : string) : JsError := mkError "Error" msg.
Definition TypeError (msg : string) : JsError := mkError "TypeError" msg.
Definition SyntaxError (msg : string) : JsError := mkError "SyntaxError" msg.

(** [`${error}`] for an error object. *)
Definition errToString (e : JsError) : string :=
  errName e ++ ": " ++ errMessage e.

(** ToBoolean. *)
Definition truthy (v : value) : bool :=
  match v with
  | VUndefined | VNull => false
  | VBool b => b
  | VNum n => negb (n =? 0)
  | VStr s => negb (s =? EmptyString)%string
  | VArr _ | VObj _ => true
  end.

(** [a || b] *)
Definition js_or (a b : value) : value := if truthy a then a else b.

Fixpoint lookupProp (k : string) (ps : list (string * value)) : value :=
  match ps with
  | [] => VUndefined
  | (k', v) :: rest => if (k =? k')%string then v else lookupProp k rest
  end.

(** [v.k] for a property name [k] that no built-in prototype defines
    (all the names the sources read are such). *)
Definition getProp (v : value) (k : string) : Completion value :=
  match v with
  | VUndefined =>
      Throw (TypeError ("Cannot read properties of undefined (reading "
                          ++ squote ++ k ++ squote ++ ")"))
  | VNull =>
      Throw (TypeError ("Cannot read properties of null (reading "
                          ++ squote ++ k ++ squote ++ ")"))
  | VObj ps => Normal (lookupProp k ps)
  | _ => Normal VUndefined
  end.

(** [v?.k] *)
Definition getPropOpt (v : value) (k : string) : Completion value :=
  match v with
  | VUndefined | VNull => Normal VUndefined
  | _ => getProp v k
  end.

Definition isArray (v : value) : bool :=
  match v with VArr _ => true | _ => false end.

Fixpoint chars (s : string) : list value :=
  match s with
  | EmptyString => []
  | String c rest => VStr (String c EmptyString) :: chars rest
  end.

(** The elements [for (const x of v)] visits. *)
Definition iterate (v : value) : Completion (list value) :=
  match v with
  | VArr l => Normal l
  | VStr s => Normal (chars s)
  | _ => Throw (TypeError "value is not iterable")
  end.

(** The receiver of [v.map(...)] or [v.filter(...)]. *)
Definition asArray (method : string) (v : value) : Completion (list value) :=
  match v with
  | VArr l => Normal l
  | _ => Throw (TypeError (method ++ " is not a function"))
  end.

(** [`${v}`] *)
Fixpoint toStr (v : value) : string :=
  match v with
  | VUndefined => "undefined"
  | VNull => "null"
  | VBool true => "true"
  | VBool false => "false"
  | VNum n => showZ n
  | VStr s => s
  | VArr l =>
      (fix join (l : list value) : string :=
         match l with
         | [] => EmptyString
         | [x] => match x with VUndefined | VNull => EmptyString | _ => toStr x end
         | x :: rest =>
             (match x with VUndefined | VNull => EmptyString | _ => toStr x end)
               ++ "," ++ join rest
         end) l
  | VObj _ => "[object Object]"
  end.

(** ** Texts, seen through JSON *)

Inductive text : Type :=
| Garbled (raw : string)     (* not a JSON document *)
| Json (v : value).          (* the JSON document denoting [v] *)

Definition JSON_parse (t : text) : Completion value :=
  match t with
  | Garbled _ => Throw (SyntaxError "Unexpected token in JSON")
  | Json v => Normal v
  end.

(** What [JSON.stringify] keeps of a value: properties holding [undefined]
    are dropped, [undefined] array elements become [null]. *)
Fixpoint jsonView (v : value) : value :=
  match v with
  | VArr l =>
      VArr (map (fun x => match x with VUndefined => VNull | _ => jsonView x end) l)
  | VObj ps =>
      VObj ((fix props (ps : list (string * value)) : list (string * value) :=
               match ps with
               | [] => []
               | (k, VUndefined) :: rest => props rest
               | (k, x) :: rest => (k, jsonView x) :: props rest
               end) ps)
  | _ => v
  end.

Definition JSON_stringify (v : value) : text := Json (jsonView v).

(** ** The world the extension runs in *)

Inductive path : Type :=
| BoardsCachePath     (* <globalStorage>/boards_cache.json *)
| LibsCachePath       (* <globalStorage>/libs_cache.json *)
| ConfigPath.         (* <workspace>/.arduino_config.json *)

Inductive dir : Type :=
| StorageDir          (* the extension's global storage directory *)
| WorkspaceDir.       (* the first workspace folder *)

Definition dirname (p : path) : dir :=
  match p with
  | BoardsCachePath | LibsCachePath => StorageDir
  | ConfigPath => WorkspaceDir
  end.

Definition path_eqb (p q : path) : bool :=
  match p, q with
  | BoardsCachePath, BoardsCachePath
  | LibsCachePath, LibsCachePath
  | ConfigPath, ConfigPath => true
  | _, _ => false
  end.

Definition dir_eqb (d e : dir) : bool :=
  match d, e with
  | StorageDir, StorageDir | WorkspaceDir, WorkspaceDir => true
  | _, _ => false
  end.

Record File : Type := mkFile { mtime : Z; data : text }.

(** [interface ArduinoConfig]; at run time the fields hold whatever
    [loadConfig] has put there. *)
Record ArduinoConfig : Type := mkConfig {
  board : value;
  port : value;
  baudrate : value
}.

Inductive Event : Type :=
| InfoMsg (s : string)                       (* vscode.window.showInformationMessage *)
| ErrorMsg (s : string)                      (* vscode.window.showErrorMessage *)
| ConsoleError (label : string) (e : JsError)
| OutClear                                   (* outputChannel.clear() *)
| OutShow                                    (* outputChannel.show() *)
| OutAppend (s : string)                     (* outputChannel.append / appendLine *)
| Exec (command : string)                    (* child_process.exec started *)
| Spawn (command cwd : string).              (* child_process.spawn started *)

Record World : Type := mkWorld {
  now : Z;                          (* the clock, in milliseconds *)
  files : path -> option File;
  dirs : dir -> bool;
  readOnly : bool;                  (* every write, unlink and mkdir fails *)
  config : ArduinoConfig;           (* ConfigManager.config *)
  events : list Event               (* what has been shown and started, oldest first *)
}.

Definition setNow (t : Z) (w : World) : World :=
  mkWorld t (files w) (dirs w) (readOnly w) (config w) (events w).
Definition setFiles (f : path -> option File) (w : World) : World :=
  mkWorld (now w) f (dirs w) (readOnly w) (config w) (events w).
Definition setDirs (d : dir -> bool) (w : World) : World :=
  mkWorld (now w) (files w) d (readOnly w) (config w) (events w).
Definition setConfig (c : ArduinoConfig) (w : World) : World :=
  mkWorld (now w) (files w) (dirs w) (readOnly w) c (events w).
Definition emit (e : Event) (w : World) : World :=
  mkWorld (now w) (files w) (dirs w) (readOnly w) (config w) (events w ++ [e]).

Definition updFile (p : path) (f : option File) (fs : path -> option File)
  : path -> option File :=
  fun q => if path_eqb p q then f else fs q.

Definition updDir (d : dir) (b : bool) (ds : dir -> bool) : dir -> bool :=
  fun e => if dir_eqb d e then b else ds e.

(** ** Computations *)

Definition M (A : Type) : Type := World -> Completion A * World.

Definition ret {A} (a : A) : M A := fun w => (Normal a, w).
Definition throw {A} (e : JsError) : M A := fun w => (Throw e, w).

Definition bind {A B} (m : M A) (k : A -> M B) : M B :=
  fun w =>
    match m w with
    | (Normal a, w') => k a w'
    | (Throw e, w') => (Throw e, w')
    end.

(** [try { body } catch (error) { handler }] *)
Definition tryCatch {A} (body : M A) (handler : JsError -> M A) : M A :=
  fun w =>
    match body w with
    | (Normal a, w') => (Normal a, w')
    | (Throw e, w') => handler e w'
    end.

Definition lift {A} (c : Completion A) : M A := fun w => (c, w).

Declare Scope m_scope.
Delimit Scope m_scope with m.
Notation "x <- c ;; k" := (bind c (fun x => k))
  (at level 61, c at next level, right associativity) : m_scope.
Notation "c ;; k" := (bind c (fun _ => k))
  (at level 61, right associativity) : m_scope.

Definition result {A} (r : Completion A * World) : Completion A := fst r.
Definition after {A} (r : Completion A * World) : World := snd r.

Definition resolves {A} (r : Completion A * World) : bool :=
  match fst r with Normal _ => true | Throw _ => false end.

Local Open Scope m_scope.

Definition tell (e : Event) : M unit := fun w => (Normal tt, emit e w).
Definition showInformationMessage (s : string) : M unit := tell (InfoMsg s).
Definition showErrorMessage (s : string) : M unit := tell (ErrorMsg s).
Definition console_error (label : string) (e : JsError) : M unit :=
  tell (ConsoleError label e).

Definition Date_now : M Z := fun w => (Normal (now w), w).

(** *** The [fs] module *)

Definition existsSync (p : path) : M bool :=
  fun w => (Normal (match files w p with Some _ => true | None => false end), w).

Definition existsSyncDir (d : dir) : M bool :=
  fun w => (Normal (dirs w d), w).

Definition statSync (p : path) : M Z :=
  fun w =>
    match files w p with
    | Some f => (Normal (mtime f), w)
    | None => (Throw (Error "ENOENT: no such file or directory, stat"), w)
    end.

Definition readFileSync (p : path) : M text :=
  fun w =>
    match files w p with
    | Some f => (Normal (data f), w)
    | None => (Throw (Error "ENOENT: no such file or directory, open"), w)
    end.

Definition mkdirSync (d : dir) : M unit :=
  fun w =>
    if readOnly w then (Throw (Error "EROFS: read-only file system, mkdir"), w)
    else (Normal tt, setDirs (updDir d true (dirs w)) w).

Definition writeFileSync (p : path) (t : text) : M unit :=
  fun w =>
    if readOnly w then (Throw (Error "EROFS: read-only file system, open"), w)
    else if dirs w (dirname p)
    then (Normal tt, setFiles (updFile p (Some (mkFile (now w) t)) (files w)) w)
    else (Throw (Error "ENOENT: no such file or directory, open"), w).

Definition unlinkSync (p : path) : M unit :=
  fun w =>
    match files w p with
    | None => (Throw (Error "ENOENT: no such file or directory, unlink"), w)
    | Some _ =>
        if readOnly w then (Throw (Error "EROFS: read-only file system, unlink"), w)
        else (Normal tt, setFiles (updFile p None (files w)) w)
    end.

(** *** The external tool *)

(** How one [exec] ends: how long it ran, and the callback's [error] or its
    [stdout]. *)
Record ExecOutcome : Type := mkExec {
  execElapsed : Z;
  execResult : Completion text
}.

(** How a spawned child ends: the first of its [close] (with the exit code,
    [null] when a signal ended it) and [error] events settles the promise. *)
Inductive ChildEnd : Type :=
| Closed (code : option Z)
| Failed (error : JsError).

Record SpawnOutcome : Type := mkSpawn {
  spawnElapsed : Z;
  spawnOutput : list string;        (* stdout and stderr chunks, in order *)
  spawnEnd : ChildEnd
}.

(** ** The three classes *)

Section Extension.

(** Settings and surroundings that no operation changes. *)
Variable arduinoCliPath : string.       (* ConfigManager.getArduinoCliPath() *)
Variable currentDirectory : string.     (* ConfigManager.getCurrentDirectory() *)
Variable configFileName : string.       (* ConfigManager.configFile *)
Variable exec : string -> ExecOutcome.
Variable spawn : string -> string -> SpawnOutcome.

Definition getArduinoCliPath : M string := ret arduinoCliPath.
Definition getCurrentDirectory : M string := ret currentDirectory.
Definition getConfig : M ArduinoConfig := fun w => (Normal (config w), w).

(** [exec(command, options, callback)]: the arguments the callback gets. *)
Definition runExec (command : string) : M (Completion text) :=
  fun w =>
    let o := exec command in
    (Normal (execResult o), setNow (now w + execElapsed o) (emit (Exec command) w)).

(** [Promise.all([a, b])] of two promises that each run one subprocess:
    both are started at once, and the result is settled when both have
    resolved or as soon as one has rejected. *)
Definition promiseAll2 {A B} (a : M A) (b : M B) : M (A * B) :=
  fun w =>
    let (ra, wa) := a w in
    let (rb, wb) := b (setNow (now w) wa) in
    match ra, rb with
    | Normal x, Normal y => (Normal (x, y), setNow (Z.max (now wa) (now wb)) wb)
    | Throw e, Normal _ => (Throw e, setNow (now wa) wb)
    | Normal _, Throw e => (Throw e, wb)
    | Throw e, Throw e' =>
        if now wa <=? now wb then (Throw e, setNow (now wa) wb) else (Throw e', wb)
    end.

(** *** ArduinoManager *)

Definition cacheExpiration : Z := 7 * 24 * 60 * 60 * 1000.

Definition mkBoard (label fqbn name : value) : value :=
  VObj [("label", label); ("fqbn", fqbn); ("name", name)].

Definition getCommonBoards : list value :=
  [ mkBoard (VStr "Arduino Uno") (VStr "arduino:avr:uno") (VStr "Arduino Uno");
    mkBoard (VStr "Arduino Nano") (VStr "arduino:avr:nano") (VStr "Arduino Nano");
    mkBoard (VStr "Arduino Mega") (VStr "arduino:avr:mega") (VStr "Arduino Mega");
    mkBoard (VStr "Arduino Leonardo") (VStr "arduino:avr:leonardo") (VStr "Arduino Leonardo");
    mkBoard (VStr "Arduino Micro") (VStr "arduino:avr:micro") (VStr "Arduino Micro");
    mkBoard (VStr "Arduino Pro Mini") (VStr "arduino:avr:pro") (VStr "Arduino Pro Mini");
    mkBoard (VStr "ESP32 Dev Module") (VStr "esp32:esp32:esp32") (VStr "ESP32 Dev Module");
    mkBoard (VStr "ESP32-S3 Dev Module") (VStr "esp32:esp32:esp32s3") (VStr "ESP32-S3 Dev Module");
    mkBoard (VStr "ESP8266 NodeMCU") (VStr "esp8266:esp8266:nodemcuv2") (VStr "ESP8266 NodeMCU");
    mkBoard (VStr "ESP8266 Generic") (VStr "esp8266:esp8266:generic") (VStr "ESP8266 Generic");
    mkBoard (VStr "Teensy 3.2") (VStr "teensy:avr:teensy32") (VStr "Teensy 3.2");
    mkBoard (VStr "Teensy 4.0") (VStr "teensy:avr:teensy40") (VStr "Teensy 4.0") ].

(** [cached && cached.<field> && Array.isArray(cached.<field>)], and the
    array when the test passes. *)
Definition validCache (field : string) (cached : value) : Completion (option (list value)) :=
  (if truthy cached then
     arr <~ getProp cached field ;;
     if truthy arr then
       match arr with
       | VArr l => Normal (Some l)
       | _ => Normal None
       end
     else Normal None
   else Normal None)%completion.

Definition loadBoardsFromCache : M (option (list value)) :=
  tryCatch
    (present <- existsSync BoardsCachePath ;;
     if negb present then ret None
     else
       stats <- statSync BoardsCachePath ;;
       now <- Date_now ;;
       if now - stats >? cacheExpiration then ret None   (* Cache expired *)
       else
         data <- readFileSync BoardsCachePath ;;
         cached <- lift (JSON_parse data) ;;
         boards <- lift (validCache "boards" cached) ;;
         match boards with
         | Some l =>
             showInformationMessage
               ("Loading " ++ showNat (List.length l) ++ " boards from cache...") ;;
             ret (Some l)
         | None => ret None
         end)
    (fun error =>
       console_error "Error loading boards cache:" error ;;
       ret None).

(** [boards.filter(board => board.fqbn && board.name)] *)
Fixpoint filterBoards (boards : list value) : Completion (list value) :=
  match boards with
  | [] => Normal []
  | board :: rest =>
      (fqbn <~ getProp board "fqbn" ;;
       keep <~ (if truthy fqbn then
                  name <~ getProp board "name" ;; Normal (truthy name)
                else Normal false) ;;
       rest' <~ filterBoards rest ;;
       Normal (if keep then board :: rest' else rest'))%completion
  end.

(** [.map(board => ({label: board.name, fqbn: board.fqbn, name: board.name}))] *)
Fixpoint mapBoards (boards : list value) : Completion (list value) :=
  match boards with
  | [] => Normal []
  | board :: rest =>
      (label <~ getProp board "name" ;;
       fqbn <~ getProp board "fqbn" ;;
       name <~ getProp board "name" ;;
       rest' <~ mapBoards rest ;;
       Normal (mkBoard label fqbn name :: rest'))%completion
  end.

(** The body of the [try] in the callback of [getAvailableBoardsStreaming]. *)
Definition parseBoards (stdout : text) : Completion (list value) :=
  (data <~ JSON_parse stdout ;;
   field <~ getProp data "boards" ;;
   boards <~ asArray "boards.filter" (js_or field (VArr [])) ;;
   kept <~ filterBoards boards ;;
   mapBoards kept)%completion.

Definition getAvailableBoardsStreaming (arduinoCli : string) : M (list value) :=
  r <- runExec (arduinoCli ++ " board listall --format json") ;;
  match r with
  | Throw error => throw error
  | Normal stdout =>
      match parseBoards stdout with
      | Normal boardList => ret boardList
      | Throw parseError => throw parseError
      end
  end.

Definition saveBoardsToCache (boards : list value) : M unit :=
  tryCatch
    (present <- existsSyncDir (dirname BoardsCachePath) ;;
     (if negb present then mkdirSync (dirname BoardsCachePath) else ret tt) ;;
     timestamp <- Date_now ;;
     writeFileSync BoardsCachePath
       (JSON_stringify (VObj [("boards", VArr boards); ("timestamp", VNum timestamp)])))
    (fun error => console_error "Error saving boards cache:" error).

Definition fetchBoards : M (list value) :=
  tryCatch
    (showInformationMessage "Fetching boards from arduino-cli..." ;;
     arduinoCli <- getArduinoCliPath ;;
     boards <- getAvailableBoardsStreaming arduinoCli ;;
     saveBoardsToCache boards ;;
     ret boards)
    (fun error =>
       showErrorMessage ("Error fetching boards: " ++ errToString error) ;;
       (* Try to load from cache as fallback *)
       cached <- loadBoardsFromCache ;;
       match cached with
       | Some l =>
           showInformationMessage "Using cached board data..." ;;
           ret l
       | None => ret getCommonBoards     (* Final fallback to common boards *)
       end).

Definition getAvailableBoards : M (list value) :=
  cachedBoards <- loadBoardsFromCache ;;
  match cachedBoards with
  | Some l => ret l
  | None => fetchBoards
  end.

Definition refreshBoardsCache : M unit :=
  tryCatch
    (showInformationMessage "Refreshing boards cache..." ;;
     present <- existsSync BoardsCachePath ;;
     (if present then unlinkSync BoardsCachePath else ret tt) ;;
     fetchBoards ;;
     showInformationMessage "Boards cache refreshed successfully!")
    (fun error =>
       showErrorMessage ("Error refreshing boards cache: " ++ errToString error)).

Definition showCode (code : option Z) : string :=
  match code with
  | Some c => showZ c
  | None => "null"
  end.

Fixpoint appendAll (chunks : list string) : M unit :=
  match chunks with
  | [] => ret tt
  | c :: rest => tell (OutAppend c) ;; appendAll rest
  end.

Definition runCommand (command cwd : string) : M unit :=
  fun w =>
    let o := spawn command cwd in
    let w1 := setNow (now w + spawnElapsed o) (emit (Spawn command cwd) w) in
    match appendAll (spawnOutput o) w1 with
    | (_, w2) =>
        match spawnEnd o with
        | Closed code =>
            match code with
            | Some 0 => (Normal tt, w2)
            | _ => (Throw (Error ("Command failed with exit code " ++ showCode code)), w2)
            end
        | Failed error => (Throw error, w2)
        end
    end.

Definition compileCommand (arduinoCli : string) (cfg : ArduinoConfig) (currentDir : string)
  : string :=
  arduinoCli ++ " compile --fqbn " ++ toStr (board cfg) ++ " "
    ++ dquote ++ currentDir ++ dquote.

Definition uploadCommand (arduinoCli : string) (cfg : ArduinoConfig) (currentDir : string)
  : string :=
  arduinoCli ++ " upload -p " ++ toStr (port cfg) ++ " --fqbn " ++ toStr (board cfg) ++ " "
    ++ dquote ++ currentDir ++ dquote.

Definition upload : M unit :=
  config <- getConfig ;;
  currentDir <- getCurrentDirectory ;;
  arduinoCli <- getArduinoCliPath ;;
  if (currentDir =? EmptyString)%string then
    showErrorMessage "No workspace folder found. Please open a folder first."
  else
    tell OutClear ;;
    tell OutShow ;;
    tryCatch
      ((* First compile *)
       tell (OutAppend ("--- Compiling Arduino sketch ---" ++ newline)) ;;
       runCommand (compileCommand arduinoCli config currentDir) currentDir ;;
       (* Then upload *)
       tell (OutAppend ("--- Uploading to Arduino ---" ++ newline)) ;;
       runCommand (uploadCommand arduinoCli config currentDir) currentDir ;;
       tell (OutAppend ("--- Upload Complete ---" ++ newline)) ;;
       showInformationMessage "Arduino upload completed successfully!")
      (fun error =>
         tell (OutAppend ("Error: " ++ errToString error ++ newline)) ;;
         showErrorMessage ("Upload failed: " ++ errToString error)).

(** *** LibraryManager *)

(** [Map<string, string>]: the entries in insertion order.  Keys are
    compared by SameValueZero; an object or array key is a fresh
    allocation of [JSON.parse], identical to no other key. *)
Definition JsMap : Type := list (value * value).

Definition sameValueZero (a b : value) : bool :=
  match a, b with
  | VUndefined, VUndefined | VNull, VNull => true
  | VBool x, VBool y => Bool.eqb x y
  | VNum x, VNum y => x =? y
  | VStr x, VStr y => (x =? y)%string
  | _, _ => false
  end.

Fixpoint mapSet (k v : value) (m : JsMap) : JsMap :=
  match m with
  | [] => [(k, v)]
  | (k', v') :: rest =>
      if sameValueZero k' k then (k', v) :: rest else (k', v') :: mapSet k v rest
  end.

Fixpoint mapHas (k : value) (m : JsMap) : bool :=
  match m with
  | [] => false
  | (k', _) :: rest => if sameValueZero k' k then true else mapHas k rest
  end.

Fixpoint mapGet (k : value) (m : JsMap) : value :=
  match m with
  | [] => VUndefined
  | (k', v) :: rest => if sameValueZero k' k then v else mapGet k rest
  end.

(** An element of the array [getAvailableLibrariesStreaming] resolves to. *)
Record AvailableLib : Type := mkAvailable { name : value; version : value }.

(** [interface Library], as the object literal [fetchLibraries] builds. *)
Definition mkLibrary (name version : value) (installed hasUpdate : bool)
    (latestVersion : value) : value :=
  VObj [("name", name); ("version", version); ("installed", VBool installed);
        ("hasUpdate", VBool hasUpdate); ("latestVersion", latestVersion)].

Definition loadFromCache : M (option (list value)) :=
  tryCatch
    (present <- existsSync LibsCachePath ;;
     if negb present then ret None
     else
       stats <- statSync LibsCachePath ;;
       now <- Date_now ;;
       if now - stats >? cacheExpiration then ret None   (* Cache expired *)
       else
         data <- readFileSync LibsCachePath ;;
         cached <- lift (JSON_parse data) ;;
         libraries <- lift (validCache "libraries" cached) ;;
         match libraries with
         | Some l =>
             showInformationMessage
               ("Loading " ++ showNat (List.length l) ++ " libraries from cache...") ;;
             ret (Some l)
         | None => ret None
         end)
    (fun error =>
       console_error "Error loading cache:" error ;;
       ret None).

(** [libraries.map(lib => ({name: lib.name, version: lib.version}))] *)
Fixpoint mapAvailable (libraries : list value) : Completion (list AvailableLib) :=
  match libraries with
  | [] => Normal []
  | lib :: rest =>
      (name <~ getProp lib "name" ;;
       version <~ getProp lib "version" ;;
       rest' <~ mapAvailable rest ;;
       Normal (mkAvailable name version :: rest'))%completion
  end.

Definition parseAvailable (stdout : text) : Completion (list AvailableLib) :=
  (data <~ JSON_parse stdout ;;
   field <~ getProp data "libraries" ;;
   libraries <~ asArray "libraries.map" (js_or field (VArr [])) ;;
   mapAvailable libraries)%completion.

Definition getAvailableLibrariesStreaming (arduinoCli : string) : M (list AvailableLib) :=
  r <- runExec (arduinoCli ++ " lib search --format json") ;;
  match r with
  | Throw error => throw error
  | Normal stdout =>
      match parseAvailable stdout with
      | Normal libraries => ret libraries
      | Throw parseError => throw parseError
      end
  end.

(** The [for] loop of [getInstalledLibraries]. *)
Fixpoint collectInstalled (entries : list value) (installed : JsMap) : Completion JsMap :=
  match entries with
  | [] => Normal installed
  | entry :: rest =>
      (library <~ getProp entry "library" ;;
       if truthy library then
         name <~ getProp library "name" ;;
         if truthy name then
           version <~ getProp library "version" ;;
           collectInstalled rest (mapSet name version installed)
         else collectInstalled rest installed
       else collectInstalled rest installed)%completion
  end.

Definition parseInstalled (stdout : text) : Completion JsMap :=
  (data <~ JSON_parse stdout ;;
   field <~ getProp data "installed_libraries" ;;
   if truthy field then
     entries <~ iterate field ;;
     collectInstalled entries []
   else Normal [])%completion.

Definition getInstalledLibraries (arduinoCli : string) : M JsMap :=
  r <- runExec (arduinoCli ++ " lib list --format json") ;;
  match r with
  | Throw error => throw error
  | Normal stdout =>
      match parseInstalled stdout with
      | Normal installed => ret installed
      | Throw parseError => throw parseError
      end
  end.

(** The [for] loop of [getOutdatedLibraries]. *)
Fixpoint collectOutdated (entries : list value) (outdated : JsMap) : Completion JsMap :=
  match entries with
  | [] => Normal outdated
  | libEntry :: rest =>
      (libInfo <~ getProp libEntry "library" ;;
       libName <~ getPropOpt libInfo "name" ;;
       release <~ getProp libEntry "release" ;;
       latestVersion <~ getPropOpt release "version" ;;
       if truthy libName && truthy latestVersion
       then collectOutdated rest (mapSet libName latestVersion outdated)
       else collectOutdated rest outdated)%completion
  end.

Definition parseOutdated (stdout : text) : Completion JsMap :=
  (data <~ JSON_parse stdout ;;
   field <~ getProp data "libraries" ;;
   if truthy field then
     entries <~ iterate field ;;
     collectOutdated entries []
   else Normal [])%completion.

Definition getOutdatedLibraries (arduinoCli : string) : M JsMap :=
  r <- runExec (arduinoCli ++ " lib outdated --format json") ;;
  match r with
  | Throw error =>
      (* It's okay if this fails - just means no outdated libraries *)
      ret []
  | Normal stdout =>
      match parseOutdated stdout with
      | Normal outdated => ret outdated
      | Throw parseError => ret []
      end
  end.

Definition saveToCache (libraries : list value) : M unit :=
  tryCatch
    (present <- existsSyncDir (dirname LibsCachePath) ;;
     (if negb present then mkdirSync (dirname LibsCachePath) else ret tt) ;;
     timestamp <- Date_now ;;
     writeFileSync LibsCachePath
       (JSON_stringify (VObj [("libraries", VArr libraries); ("timestamp", VNum timestamp)])))
    (fun error => console_error "Error saving cache:" error).

(** The join of the three fetch results. *)
Definition joinLibrary (installedLibs outdatedLibs : JsMap) (lib : AvailableLib) : value :=
  mkLibrary (name lib) (version lib)
    (mapHas (name lib) installedLibs)
    (mapHas (name lib) outdatedLibs)
    (mapGet (name lib) outdatedLibs).

Definition joinLibraries (availableLibs : list AvailableLib)
    (installedLibs outdatedLibs : JsMap) : list value :=
  map (joinLibrary installedLibs outdatedLibs) availableLibs.

Definition fetchLibraries : M (list value) :=
  tryCatch
    (showInformationMessage "Fetching libraries from arduino-cli..." ;;
     arduinoCli <- getArduinoCliPath ;;
     (* First, try to get installed and outdated libraries *)
     both <- promiseAll2 (getInstalledLibraries arduinoCli)
                         (getOutdatedLibraries arduinoCli) ;;
     let (installedLibs, outdatedLibs) := (both : JsMap * JsMap) in
     availableLibs <- getAvailableLibrariesStreaming arduinoCli ;;
     let libraries := joinLibraries availableLibs installedLibs outdatedLibs in
     saveToCache libraries ;;
     ret libraries)
    (fun error =>
       showErrorMessage ("Error fetching libraries: " ++ errToString error) ;;
       (* Try to load from cache as fallback *)
       cached <- loadFromCache ;;
       match cached with
       | Some l =>
           showInformationMessage "Using cached library data..." ;;
           ret l
       | None => ret []
       end).

Definition getLibraries : M (list value) :=
  cachedLibraries <- loadFromCache ;;
  match cachedLibraries with
  | Some l => ret l
  | None => fetchLibraries
  end.

Definition refreshCache : M unit :=
  tryCatch
    (showInformationMessage "Refreshing library cache..." ;;
     present <- existsSync LibsCachePath ;;
     (if present then unlinkSync LibsCachePath else ret tt) ;;
     fetchLibraries ;;
     showInformationMessage "Library cache refreshed successfully!")
    (fun error =>
       showErrorMessage ("Error refreshing cache: " ++ errToString error)).

(** *** ConfigManager *)

Definition configToValue (c : ArduinoConfig) : value :=
  VObj [("board", board c); ("port", port c); ("baudrate", baudrate c)].

Definition saveConfig : M unit :=
  tryCatch
    (present <- existsSyncDir (dirname ConfigPath) ;;
     (if negb present then mkdirSync (dirname ConfigPath) else ret tt) ;;
     config <- getConfig ;;
     writeFileSync ConfigPath (JSON_stringify (configToValue config)))
    (fun error => showErrorMessage ("Error saving config: " ++ errToString error)).

Definition createDefaultConfig : M unit :=
  showInformationMessage "Config file not found. Creating with default settings." ;;
  saveConfig.

Definition modifyConfig (f : ArduinoConfig -> ArduinoConfig) : M unit :=
  fun w => (Normal tt, setConfig (f (config w)) w).

Definition loadConfig : M unit :=
  tryCatch
    (present <- existsSync ConfigPath ;;
     if present then
       data <- readFileSync ConfigPath ;;
       loadedConfig <- lift (JSON_parse data) ;;
       b <- lift (getProp loadedConfig "board") ;;
       modifyConfig (fun c => mkConfig (js_or b (board c)) (port c) (baudrate c)) ;;
       p <- lift (getProp loadedConfig "port") ;;
       modifyConfig (fun c => mkConfig (board c) (js_or p (port c)) (baudrate c)) ;;
       r <- lift (getProp loadedConfig "baudrate") ;;
       modifyConfig (fun c => mkConfig (board c) (port c) (js_or r (baudrate c))) ;;
       showInformationMessage ("Config loaded from: " ++ configFileName)
     else createDefaultConfig)
    (fun error =>
       showErrorMessage ("Error loading config: " ++ errToString error) ;;
       createDefaultConfig).

(** *** Strings

    A string is read as a sequence of code units below 256; among these the
    white space of [String.prototype.trim] and of the regular expression
    class [\s] is TAB, LF, VT, FF, CR, SP and NBSP. *)

Definition isWhite (c : ascii) : bool :=
  let n := nat_of_ascii c in
  ((n =? 9) || (n =? 10) || (n =? 11) || (n =? 12) || (n =? 13) || (n =? 32) || (n =? 160))%nat.

Fixpoint trimStart (s : string) : string :=
  match s with
  | EmptyString => EmptyString
  | String c rest => if isWhite c then trimStart rest else s
  end.

Fixpoint trimEnd (s : string) : string :=
  match s with
  | EmptyString => EmptyString
  | String c rest =>
      match trimEnd rest with
      | EmptyString => if isWhite c then EmptyString else String c EmptyString
      | rest' => String c rest'
      end
  end.

(** [s.trim()] *)
Definition trim (s : string) : string := trimEnd (trimStart s).

(** [v.trim()] for a value that need not be a string. *)
Definition js_trim (v : value) : Completion value :=
  match v with
  | VStr s => Normal (VStr (trim s))
  | VUndefined | VNull => getProp v "trim"
  | _ => Throw (TypeError "trim is not a function")
  end.

(** *** ConfigManager, continued *)

(** What [getConfiguration('arduino-cursor').get(key, fallback)] returns for
    the three default settings. *)
Variable defaultBoard : value.
Variable defaultPort : value.
Variable defaultBaudrate : value.

Definition setBoard (board : value) : M unit :=
  trimmed <- lift (js_trim board) ;;
  modifyConfig (fun c => mkConfig trimmed (port c) (baudrate c)) ;;
  saveConfig ;;
  showInformationMessage ("Board set to: " ++ toStr board).

Definition setPort (port : value) : M unit :=
  trimmed <- lift (js_trim port) ;;
  modifyConfig (fun c => mkConfig (board c) trimmed (baudrate c)) ;;
  saveConfig ;;
  showInformationMessage ("Port set to: " ++ toStr port).

Definition setBaudrate (baudrate : value) : M unit :=
  modifyConfig (fun c => mkConfig (board c) (port c) baudrate) ;;
  saveConfig ;;
  showInformationMessage ("Baudrate set to: " ++ toStr baudrate).

(** The constructor of [ConfigManager]: the defaults, then the project file. *)
Definition newConfigManager : M unit :=
  modifyConfig (fun _ => mkConfig defaultBoard defaultPort defaultBaudrate) ;;
  loadConfig.

(** *** ArduinoManager, continued *)

(** [vscode.window.showQuickPick(items)]: the user picks the item at a
    position, or dismisses the list ([None], or a position outside it). *)
Definition showQuickPick {A} (items : list A) (choice : option nat) : M (option A) :=
  ret (match choice with
       | Some i => nth_error items i
       | None => None
       end).

Definition check : M unit :=
  config <- getConfig ;;
  currentDir <- getCurrentDirectory ;;
  arduinoCli <- getArduinoCliPath ;;
  if (currentDir =? EmptyString)%string then
    showErrorMessage "No workspace folder found. Please open a folder first."
  else
    tell OutClear ;;
    tell OutShow ;;
    tryCatch
      (tell (OutAppend ("--- Checking Arduino code ---" ++ newline)) ;;
       runCommand (compileCommand arduinoCli config currentDir) currentDir ;;
       tell (OutAppend ("--- Code checked successfully ---" ++ newline)) ;;
       showInformationMessage "Arduino code check completed successfully!")
      (fun error =>
         tell (OutAppend ("Error: " ++ errToString error ++ newline)) ;;
         showErrorMessage ("Code check failed: " ++ errToString error)).

Definition status : M unit :=
  config <- getConfig ;;
  showInformationMessage
    ("Board: " ++ toStr (board config) ++ newline ++
     "Port: " ++ toStr (port config) ++ newline ++
     "Baudrate: " ++ toStr (baudrate config)).

Definition selectBoard (choice : option nat) : M unit :=
  tryCatch
    (boards <- getAvailableBoards ;;
     if (List.length boards =? 0)%nat then
       showErrorMessage "No Arduino boards found. Try refreshing the cache."
     else
       selectedBoard <- showQuickPick boards choice ;;
       match selectedBoard with
       | Some selected =>
           if truthy selected then
             fqbn <- lift (getProp selected "fqbn") ;;
             setBoard fqbn
           else ret tt
       | None => ret tt
       end)
    (fun error => showErrorMessage ("Error selecting board: " ++ errToString error)).

(** How one [exec] whose output is read as plain text ends. *)
Record PlainOutcome : Type := mkPlain {
  plainElapsed : Z;
  plainResult : Completion string
}.

(** The external tool, for the command whose output is not read as JSON. *)
Variable execPlain : string -> PlainOutcome.

Definition getCommonPorts : list string :=
  [ "COM1"; "COM3"; "COM4"; "COM5"; "COM6"; "COM7"; "COM8"; "COM9"; "COM10";
    "/dev/ttyACM0"; "/dev/ttyACM1"; "/dev/ttyUSB0"; "/dev/ttyUSB1";
    "/dev/cu.usbmodem*"; "/dev/cu.usbserial*" ].

(** [stdout.split('\n')] *)
Fixpoint splitLines (s : string) : list string :=
  match s with
  | EmptyString => [EmptyString]
  | String c rest =>
      if (nat_of_ascii c =? 10)%nat then EmptyString :: splitLines rest
      else match splitLines rest with
           | line :: lines => String c line :: lines
           | [] => [String c EmptyString]
           end
  end.

(** The text [/^(\S+)/] captures at the start of a line ([EmptyString] when
    the expression does not match). *)
Fixpoint takeNonWhite (s : string) : string :=
  match s with
  | EmptyString => EmptyString
  | String c rest => if isWhite c then EmptyString else String c (takeNonWhite rest)
  end.

(** The body of the [for] loop over the lines of [board list]. *)
Fixpoint parsePorts (lines : list string) : list string :=
  match lines with
  | [] => []
  | line :: rest =>
      if (prefix "/dev/tty" line || prefix "COM" line)%bool then
        let port := takeNonWhite line in
        if (port =? EmptyString)%string then parsePorts rest
        else port :: parsePorts rest
      else parsePorts rest
  end.

(** The promise settles with the first of the 10 second timer and the
    callback of [exec]; the timer wins when both are due. *)
Definition getAvailablePorts : M (list string) :=
  arduinoCli <- getArduinoCliPath ;;
  fun w =>
    let command := arduinoCli ++ " board list" in
    let o := execPlain command in
    let w1 := emit (Exec command) w in
    if 10000 <=? plainElapsed o then
      (Throw (Error "Port detection timeout - arduino-cli took too long to respond"),
       setNow (now w + 10000) w1)
    else
      let w2 := setNow (now w + plainElapsed o) w1 in
      match plainResult o with
      | Throw error =>
          (* If arduino-cli fails, try to get common ports as fallback *)
          let commonPorts := getCommonPorts in
          if (0 <? List.length commonPorts)%nat then (Normal commonPorts, w2)
          else (Throw error, w2)
      | Normal stdout =>
          let ports := parsePorts (splitLines stdout) in
          (* If no ports found, try common ports as fallback *)
          if (List.length ports =? 0)%nat then (Normal getCommonPorts, w2)
          else (Normal ports, w2)
      end.

Definition selectPort (choice : option nat) : M unit :=
  tryCatch
    (showInformationMessage "Detecting Arduino ports..." ;;
     ports <- getAvailablePorts ;;
     if (List.length ports =? 0)%nat then
       showErrorMessage "No connected COM ports found."
     else
       selectedPort <- showQuickPick ports choice ;;
       match selectedPort with
       | Some selected =>
           if truthy (VStr selected) then setPort (VStr selected) else ret tt
       | None => ret tt
       end)
    (fun error => showErrorMessage ("Error getting ports: " ++ errToString error)).

(** First select board, then port. *)
Definition gui (boardChoice portChoice : option nat) : M unit :=
  selectBoard boardChoice ;;
  selectPort portChoice.

(** [boards.map(board => `${board.name} (${board.fqbn})`)] *)
Fixpoint boardLines (boards : list value) : Completion (list string) :=
  match boards with
  | [] => Normal []
  | board :: rest =>
      (name <~ getProp board "name" ;;
       fqbn <~ getProp board "fqbn" ;;
       rest' <~ boardLines rest ;;
       Normal ((toStr name ++ " (" ++ toStr fqbn ++ ")") :: rest'))%completion
  end.

(** [lines.join(sep)] *)
Fixpoint join (sep : string) (lines : list string) : string :=
  match lines with
  | [] => EmptyString
  | [line] => line
  | line :: rest => line ++ sep ++ join sep rest
  end.

Definition listBoards : M unit :=
  tryCatch
    (boards <- getAvailableBoards ;;
     lines <- lift (boardLines boards) ;;
     let boardList := join newline lines in
     tell OutClear ;;
     tell (OutAppend ("Available Arduino Boards (" ++ showNat (List.length boards)
                        ++ " total):" ++ newline)) ;;
     tell (OutAppend (boardList ++ newline)) ;;
     tell OutShow)
    (fun error => showErrorMessage ("Error listing boards: " ++ errToString error)).

(** *** LibraryManager, continued *)

(** [LibraryManager.runCommand]: resolves unless [exec] reports an error. *)
Definition libRunCommand (command : string) : M unit :=
  r <- runExec command ;;
  match r with
  | Throw error => throw error
  | Normal _ => ret tt
  end.

(** The three status marks of the pick list and the arrow of its
    descriptions are symbols outside the alphabet of the model. *)
Variable installedMark : string.
Variable updateMark : string.
Variable availableMark : string.
Variable arrow : string.

Record PickItem : Type := mkItem {
  itemLabel : string;
  itemDescription : string;
  itemLibrary : value
}.

(** The callback of [libraries.map] in [openLibraryManager]. *)
Definition libraryItem (lib : value) : Completion PickItem :=
  (name <~ getProp lib "name" ;;
   installed <~ getProp lib "installed" ;;
   if truthy installed then
     hasUpdate <~ getProp lib "hasUpdate" ;;
     if truthy hasUpdate then
       version <~ getProp lib "version" ;;
       latestVersion <~ getProp lib "latestVersion" ;;
       Normal (mkItem (updateMark ++ " " ++ toStr name)
                 ("Installed: " ++ toStr version ++ " " ++ arrow ++ " Latest: "
                    ++ toStr latestVersion)
                 lib)
     else
       version <~ getProp lib "version" ;;
       Normal (mkItem (installedMark ++ " " ++ toStr name)
                 ("Installed: " ++ toStr version) lib)
   else
     Normal (mkItem (availableMark ++ " " ++ toStr name) "Not installed" lib))%completion.

Fixpoint libraryItems (libraries : list value) : Completion (list PickItem) :=
  match libraries with
  | [] => Normal []
  | lib :: rest =>
      (item <~ libraryItem lib ;;
       items <~ libraryItems rest ;;
       Normal (item :: items))%completion
  end.

(** [library.installed ? (library.hasUpdate ? 'update' : 'reinstall') : 'install'] *)
Definition libraryAction (library : value) : Completion string :=
  (installed <~ getProp library "installed" ;;
   if truthy installed then
     hasUpdate <~ getProp library "hasUpdate" ;;
     Normal (if truthy hasUpdate then "update" else "reinstall")
   else Normal "install")%completion.

(** [reopen] is the call [this.openLibraryManager()] that ends the [try]
    block; it is not awaited, so its outcome is dropped. *)
Definition handleLibraryAction (library : value) (reopen : M unit) : M unit :=
  arduinoCli <- getArduinoCliPath ;;
  action <- lift (libraryAction library) ;;
  tryCatch
    (name <- lift (getProp library "name") ;;
     showInformationMessage
       ((if (action =? "update")%string then "Updating" else "Installing")
          ++ " library: " ++ toStr name) ;;
     libRunCommand (arduinoCli ++ " lib install " ++ dquote ++ toStr name ++ dquote) ;;
     hasUpdate <- lift (getProp library "hasUpdate") ;;
     showInformationMessage
       (if truthy hasUpdate
        then "Library " ++ dquote ++ toStr name ++ dquote ++ " updated successfully!"
        else "Library " ++ dquote ++ toStr name ++ dquote ++ " installed successfully!") ;;
     (* Refresh the library manager *)
     fun w => (Normal tt, snd (reopen w)))
    (fun error =>
       name <- lift (getProp library "name") ;;
       showErrorMessage
         ("Failed to " ++ action ++ " library " ++ dquote ++ toStr name ++ dquote ++ ": "
            ++ errToString error)).

(** One round of the library manager: list, pick, act. *)
Definition openLibraryManagerOnce (choice : option nat) (reopen : M unit) : M unit :=
  tryCatch
    (libraries <- getLibraries ;;
     if (List.length libraries =? 0)%nat then
       showErrorMessage "No libraries found. Try refreshing the cache."
     else
       items <- lift (libraryItems libraries) ;;
       selected <- showQuickPick items choice ;;
       match selected with
       | Some item => handleLibraryAction (itemLibrary item) reopen
       | None => ret tt
       end)
    (fun error => showErrorMessage ("Error opening library manager: " ++ errToString error)).

(** [openLibraryManager], driven by the picks the user makes in the
    successive pick lists; when they are used up the list is dismissed. *)
Fixpoint openLibraryManager (picks : list (option nat)) : M unit :=
  match picks with
  | [] => openLibraryManagerOnce None (ret tt)
  | choice :: rest => openLibraryManagerOnce choice (openLibraryManager rest)
  end.

End Extension.

(** ** The contract of the cache-and-fetch layer, per dataset *)

Inductive kind : Type := Boards | Libraries.

Definition cachePath (k : kind) : path :=
  match k with Boards => BoardsCachePath | Libraries => LibsCachePath end.

Definition cacheField (k : kind) : string :=
  match k with Boards => "boards" | Libraries => "libraries" end.

Definition loadCache (k : kind) : M (option (list value)) :=
  match k with Boards => loadBoardsFromCache | Libraries => loadFromCache end.

Definition fetch (cli : string) (exec : string -> ExecOutcome) (k : kind) : M (list value) :=
  match k with Boards => fetchBoards cli exec | Libraries => fetchLibraries cli exec end.

Definition getList (cli : string) (exec : string -> ExecOutcome) (k : kind) : M (list value) :=
  match k with Boards => getAvailableBoards cli exec | Libraries => getLibraries cli exec end.

Definition refresh (cli : string) (exec : string -> ExecOutcome) (k : kind) : M unit :=
  match k with Boards => refreshBoardsCache cli exec | Libraries => refreshCache cli exec end.

(** What the last step of the fallback chain returns. *)
Definition staticList (k : kind) : list value :=
  match k with Boards => getCommonBoards | Libraries => [] end.

(** The world with the cache file of [k] removed. *)
Definition withoutCache (k : kind) (w : World) : World :=
  setFiles (updFile (cachePath k) None (files w)) w.

(** The content of a cache file is corrupt: it is not JSON, or it is JSON
    that is not an object holding an array in the field of [k].  This is read
    off the content alone, not off what the loaders make of it. *)
Definition corrupt (k : kind) (f : File) : bool :=
  match data f with
  | Garbled _ => true
  | Json (VObj props) =>
      match lookupProp (cacheField k) props with
      | VArr _ => false
      | _ => true
      end
  | Json _ => true
  end.

(** What the external tool delivers, read off the oracle. *)
Definition boardsOutcome (cli : string) (exec : string -> ExecOutcome)
  : Completion (list value) :=
  cbind (execResult (exec (cli ++ " board listall --format json"))) parseBoards.

Definition installedOutcome (cli : string) (exec : string -> ExecOutcome) : Completion JsMap :=
  cbind (execResult (exec (cli ++ " lib list --format json"))) parseInstalled.

Definition availableOutcome (cli : string) (exec : string -> ExecOutcome)
  : Completion (list AvailableLib) :=
  cbind (execResult (exec (cli ++ " lib search --format json"))) parseAvailable.

Definition outdatedOutcome (cli : string) (exec : string -> ExecOutcome) : JsMap :=
  match cbind (execResult (exec (cli ++ " lib outdated --format json"))) parseOutdated with
  | Normal outdated => outdated
  | Throw _ => []
  end.

Definition liveOutcome (cli : string) (exec : string -> ExecOutcome) (k : kind)
  : Completion (list value) :=
  match k with
  | Boards => boardsOutcome cli exec
  | Libraries =>
      (installed <~ installedOutcome cli exec ;;
       available <~ availableOutcome cli exec ;;
       Normal (joinLibraries available installed (outdatedOutcome cli exec)))%completion
  end.

Definition save (k : kind) (l : list value) : M unit :=
  match k with Boards => saveBoardsToCache l | Libraries => saveToCache l end.

Definition fetchErrorText (k : kind) (e : JsError) : string :=
  match k with
  | Boards => "Error fetching boards: " ++ errToString e
  | Libraries => "Error fetching libraries: " ++ errToString e
  end.

Definition usingCacheText (k : kind) : string :=
  match k with
  | Boards => "Using cached board data..."
  | Libraries => "Using cached library data..."
  end.

(** The [catch] block of the two fetch functions. *)
Definition fallback (k : kind) (e : JsError) : M (list value) :=
  showErrorMessage (fetchErrorText k e) ;;
  cached <- loadCache k ;;
  match cached with
  | Some l => showInformationMessage (usingCacheText k) ;; ret l
  | None => ret (staticList k)
  end.

(** Two worlds that differ only by the clock and by what has been shown. *)
Definition sameStore (w w1 : World) : Prop :=
  files w1 = files w /\ dirs w1 = dirs w /\ readOnly w1 = readOnly w /\ config w1 = config w.

Definition nonnegative (exec : string -> ExecOutcome) : Prop :=
  forall command, 0 <= execElapsed (exec command).

(** The error notifications among some events. *)
Fixpoint errorsShown (evs : list Event) : list string :=
  match evs with
  | [] => []
  | ErrorMsg s :: rest => s :: errorsShown rest
  | _ :: rest => errorsShown rest
  end.

(** The live fetch fails: the invocation of the external tool rejects. *)
Definition liveFetchFails (cli : string) (exec : string -> ExecOutcome) (k : kind) (w : World)
  : Prop :=
  match k with
  | Boards => exists e, result (getAvailableBoardsStreaming exec cli w) = Throw e
  | Libraries =>
      (exists e, result (getInstalledLibraries exec cli w) = Throw e) \/
      (exists e, result (getAvailableLibrariesStreaming exec cli w) = Throw e)
  end.

(** From [w] on the cache of [k] cannot be loaded: it is absent, corrupt or
    expired, and stays so while only the clock advances. *)
Definition unusableFrom (exec : string -> ExecOutcome) (k : kind) (w : World) : Prop :=
  forall w1,
    sameStore w w1 -> (nonnegative exec -> now w <= now w1) ->
    result (loadCache k w1) = Normal None.

(** The value of property [k] of an object. *)
Definition propOf (k : string) (v : value) : value :=
  match getProp v k with
  | Normal x => x
  | Throw _ => VUndefined
  end.

Definition refreshingText (k : kind) : string :=
  match k with
  | Boards => "Refreshing boards cache..."
  | Libraries => "Refreshing library cache..."
  end.

(** The world once the refresh has removed the cache file, if there was one. *)
Definition deleteCache (k : kind) (w : World) : World :=
  match files w (cachePath k) with
  | Some _ => withoutCache k w
  | None => w
  end.

Definition contains (sub s : string) : Prop :=
  exists pre post, s = pre ++ sub ++ post.

(** The commands of the subprocesses spawned so far, oldest first. *)
Fixpoint spawned (evs : list Event) : list string :=
  match evs with
  | [] => []
  | Spawn command _ :: rest => command :: spawned rest
  | _ :: rest => spawned rest
  end.

Definition exitsZero (o : SpawnOutcome) : bool :=
  match spawnEnd o with
  | Closed (Some 0) => true
  | _ => false
  end.


(** An element of the outdated [libraries] that records an update under key
    [k]: [libName && latestVersion], the name being [k]. *)
Definition namesOutdated (k libEntry : value) : bool :=
  match
    (libInfo <~ getProp libEntry "library" ;;
     libName <~ getPropOpt libInfo "name" ;;
     release <~ getProp libEntry "release" ;;
     latestVersion <~ getPropOpt release "version" ;;
     Normal (truthy libName && truthy latestVersion && sameValueZero libName k))%completion
  with
  | Normal b => b
  | Throw _ => false
  end.

(** The query fails: the command errors, or its output is not JSON. *)
Definition outdatedQueryFails (cli : string) (exec : string -> ExecOutcome) : Prop :=
  match execResult (exec (cli ++ " lib outdated --format json")) with
  | Throw _ => True
  | Normal (Garbled _) => True
  | Normal (Json _) => False
  end.

(** How a query of the external tool fails, read off the oracle: the
    command errors, or its output is not JSON; [None] when it does neither. *)
Definition queryFailure (o : ExecOutcome) : option JsError :=
  match execResult o with
  | Throw error => Some error
  | Normal (Garbled raw) =>
      match JSON_parse (Garbled raw) with
      | Throw parseError => Some parseError
      | Normal _ => None
      end
  | Normal (Json _) => None
  end.

(** The fetch of the libraries enters its [catch] block with the error [e]. *)
Definition fetchFallsBack (cli : string) (exec : string -> ExecOutcome) (w : World)
    (e : JsError) : Prop :=
  exists w1,
    sameStore w w1 /\
    fetchLibraries cli exec w = fallback Libraries e w1 /\
    In ("Error fetching libraries: " ++ errToString e)
       (errorsShown (events (after (fetchLibraries cli exec w)))).

(** ** Sample data *)

Definition demoConfig : ArduinoConfig :=
  mkConfig (VStr "arduino:avr:uno") (VStr "/dev/ttyACM0") (VNum 115200).

Definition cachedBoard : value :=
  mkBoard (VStr "Custom Board") (VStr "vendor:arch:custom") (VStr "Custom Board").

Definition cachedLibrary : value :=
  mkLibrary (VStr "Servo") (VStr "1.2.1") true false VUndefined.

(** A cache file as [saveBoardsToCache] / [saveToCache] wrote it at time [t]. *)
Definition cacheFileAt (k : kind) (t : Z) : File :=
  mkFile t
    (JSON_stringify
       (VObj [(cacheField k,
               VArr [match k with Boards => cachedBoard | Libraries => cachedLibrary end]);
              ("timestamp", VNum t)])).

Definition demoWorld (t : Z) (boards libs : option File) : World :=
  mkWorld t
    (fun p => match p with
              | BoardsCachePath => boards
              | LibsCachePath => libs
              | ConfigPath => None
              end)
    (fun _ => true) false demoConfig [].

(** The external tool is not installed: every invocation fails. *)
Definition toolDown : string -> ExecOutcome :=
  fun _ => mkExec 250 (Throw (Error "Command failed: arduino-cli: not found")).

(** A compiler run that ends with exit code 1. *)
Definition compileFails : string -> string -> SpawnOutcome :=
  fun _ _ => mkSpawn 1200 ["sketch.ino:3: error: expected ';'" ++ newline] (Closed (Some 1)).

(** The external tool answers the three library queries and the board query. *)
Definition toolUp : string -> ExecOutcome :=
  fun command =>
    if (command =? "arduino-cli lib list --format json")%string then
      mkExec 300 (Normal (Json (VObj
        [("installed_libraries",
          VArr [VObj [("library", VObj [("name", VStr "Servo"); ("version", VStr "1.2.1")])]])])))
    else if (command =? "arduino-cli lib outdated --format json")%string then
      mkExec 400 (Normal (Json (VObj
        [("libraries",
          VArr [VObj [("library", VObj [("name", VStr "Servo"); ("version", VStr "1.2.1")]);
                      ("release", VObj [("version", VStr "1.2.2")])]])])))
    else if (command =? "arduino-cli lib search --format json")%string then
      mkExec 900 (Normal (Json (VObj
        [("libraries",
          VArr [VObj [("name", VStr "Servo"); ("version", VStr "1.2.2")];
                VObj [("name", VStr "Stepper"); ("version", VStr "1.1.3")]])])))
    else if (command =? "arduino-cli board listall --format json")%string then
      mkExec 500 (Normal (Json (VObj
        [("boards",
          VArr [VObj [("name", VStr "Arduino Uno"); ("fqbn", VStr "arduino:avr:uno")];
                VObj [("name", VStr "Unnamed")]])])))
    else mkExec 10 (Throw (Error "Command failed: unknown command")).

(** The outdated query fails; the other queries answer. *)
Definition toolWithoutOutdated : string -> ExecOutcome :=
  fun command =>
    if (command =? "arduino-cli lib outdated --format json")%string
    then mkExec 50 (Throw (Error "Command failed: arduino-cli lib outdated"))
    else toolUp command.

(** The search query answers with text that is not JSON; the other queries
    answer. *)
Definition toolWithoutSearch : string -> ExecOutcome :=
  fun command =>
    if (command =? "arduino-cli lib search --format json")%string
    then mkExec 60 (Normal (Garbled "Error: context deadline exceeded"))
    else toolUp command.

(** ** Vocabulary for the remaining operations *)

(** A JSON value: no [undefined] anywhere inside. *)
Fixpoint isJson (v : value) : bool :=
  match v with
  | VUndefined => false
  | VArr l => forallb isJson l
  | VObj ps => forallb (fun kv => isJson (snd kv)) ps
  | _ => true
  end.

(** The project file [saveConfig] writes for configuration [c] at time [t]. *)
Definition configFileOf (c : ArduinoConfig) (t : Z) : File :=
  mkFile t (JSON_stringify (configToValue c)).

Definition allTruthy (c : ArduinoConfig) : bool :=
  truthy (board c) && truthy (port c) && truthy (baudrate c).

(** The configuration a project file holding [loaded] leaves, loaded over
    the configuration [c]. *)
Definition overridden (loaded : value) (c : ArduinoConfig) : ArduinoConfig :=
  mkConfig (js_or (propOf "board" loaded) (board c))
           (js_or (propOf "port" loaded) (port c))
           (js_or (propOf "baudrate" loaded) (baudrate c)).

(** The project file cannot be used: it is not JSON, or it is the JSON
    [null]. *)
Definition unreadableConfig (f : File) : bool :=
  match data f with
  | Garbled _ => true
  | Json VNull | Json VUndefined => true
  | Json _ => false
  end.

(** The properties [JSON.stringify] keeps of an object. *)
Definition jsonProps (ps : list (string * value)) : list (string * value) :=
  match jsonView (VObj ps) with
  | VObj qs => qs
  | _ => []
  end.

(** An element of an array, as [JSON.stringify] keeps it. *)
Definition jsonElem (x : value) : value :=
  match x with
  | VUndefined => VNull
  | _ => jsonView x
  end.

(** A property of an object, as it reads after [JSON.stringify] and
    [JSON.parse]. *)
Definition readBack (x : value) : value :=
  match x with
  | VUndefined => VUndefined
  | _ => jsonView x
  end.

(** The live fetch succeeds with the list [l]. *)
Definition liveFetchYields (cli : string) (exec : string -> ExecOutcome) (k : kind)
    (w : World) (l : list value) : Prop :=
  match k with
  | Boards => result (getAvailableBoardsStreaming exec cli w) = Normal l
  | Libraries =>
      exists available installed outdated,
        result (getInstalledLibraries exec cli w) = Normal installed /\
        result (getOutdatedLibraries exec cli w) = Normal outdated /\
        result (getAvailableLibrariesStreaming exec cli w) = Normal available /\
        l = joinLibraries available installed outdated
  end.

(** The cache file [save] writes for the list [l] at time [t]. *)
Definition cacheFileOf (k : kind) (l : list value) (t : Z) : File :=
  mkFile t (JSON_stringify (VObj [(cacheField k, VArr l); ("timestamp", VNum t)])).

(** The commands handed to [exec] so far, oldest first. *)
Fixpoint execs (evs : list Event) : list string :=
  match evs with
  | [] => []
  | Exec command :: rest => command :: execs rest
  | _ :: rest => execs rest
  end.

(** A value read out of a JSON document: a JSON value, or [undefined] for
    what the document does not hold. *)
Definition jsonOrUndefined (x : value) : bool :=
  match x with
  | VUndefined => true
  | _ => isJson x
  end.

(** [JSON.parse] yields JSON values: no output of the tool denotes a value
    with [undefined] inside. *)
Definition parsesToJson (exec : string -> ExecOutcome) : Prop :=
  forall command data, execResult (exec command) = Normal (Json data) -> isJson data = true.

(** [null] or [undefined]: reading a property of it throws. *)
Definition isNullish (v : value) : bool :=
  match v with
  | VUndefined | VNull => true
  | _ => false
  end.

(** An element of the tool's [boards] array that the listing keeps, and the
    entry made of it. *)
Definition wantedBoard (b : value) : bool :=
  truthy (propOf "fqbn" b) && truthy (propOf "name" b).

Definition toBoard (b : value) : value :=
  mkBoard (propOf "name" b) (propOf "fqbn" b) (propOf "name" b).

Definition toAvailable (lib : value) : AvailableLib :=
  mkAvailable (propOf "name" lib) (propOf "version" lib).



Definition recordOutdated (k acc libEntry : value) : value :=
  if namesOutdated k libEntry then propOf "version" (propOf "release" libEntry) else acc.

(** The version the outdated map records under key [k]: the release version
    of the last element recorded under [k]. *)
Definition latestVersionOf (k : value) (entries : list value) : value :=
  fold_left (recordOutdated k) entries VUndefined.

(** A port name as the listing of the tool shows it: it starts like a
    serial device and holds no white space. *)
Definition looksLikePort (p : string) : bool :=
  ((prefix "/dev/tty" p || prefix "COM" p) && (takeNonWhite p =? p)%string)%bool.

Definition portTimeout : JsError :=
  Error "Port detection timeout - arduino-cli took too long to respond".

(** The information notifications among some events. *)
Fixpoint infosShown (evs : list Event) : list string :=
  match evs with
  | [] => []
  | InfoMsg s :: rest => s :: infosShown rest
  | _ :: rest => infosShown rest
  end.

(** A plain-text [board list] output with two ports, and a tool that hangs. *)
Definition boardListOutput : string :=
  "Port         Protocol Type" ++ newline ++
  "/dev/ttyACM0 serial   Serial Port (USB)" ++ newline ++
  "COM3" ++ String (ascii_of_nat 13) EmptyString ++ newline ++
  newline.

Definition portsUp : string -> PlainOutcome :=
  fun _ => mkPlain 700 (Normal boardListOutput).

Definition portsHang : string -> PlainOutcome :=
  fun _ => mkPlain 12000 (Throw (Error "Command failed: killed")).

(** The ports a listing of the tool names: of every line that starts like
    a serial device, in the order of the listing, the text up to the first
    white space. *)
Definition startsLikeDevice (line : string) : bool :=
  (prefix "/dev/tty" line || prefix "COM" line)%bool.

Definition listedPorts (stdout : string) : list string :=
  map takeNonWhite (filter startsLikeDevice (splitLines stdout)).

(** What port detection settles with, read off the oracle, and the world it
    leaves. *)
Definition portsOutcome (cli : string) (execPlain : string -> PlainOutcome)
  : Completion (list string) :=
  let o := execPlain (cli ++ " board list") in
  if 10000 <=? plainElapsed o then Throw portTimeout
  else match plainResult o with
       | Throw _ => Normal getCommonPorts
       | Normal stdout =>
           match parsePorts (splitLines stdout) with
           | [] => Normal getCommonPorts
           | ports => Normal ports
           end
       end.

Definition afterPorts (cli : string) (execPlain : string -> PlainOutcome) (w : World) : World :=
  setNow (now w + Z.min 10000 (plainElapsed (execPlain (cli ++ " board list"))))
    (emit (Exec (cli ++ " board list")) w).

Definition portsDown : string -> PlainOutcome :=
  fun _ => mkPlain 300 (Throw (Error "Command failed: arduino-cli: not found")).

(** The notification of a step that ended with exit code [c]. *)
Definition exitCodeText (c : Z) : string :=
  errToString (Error ("Command failed with exit code " ++ showZ c)).

(** An upload tool whose compile step passes and whose upload step ends with
    exit code 2. *)
Definition uploadFails : string -> string -> SpawnOutcome :=
  fun command _ =>
    if prefix "arduino-cli compile" command
    then mkSpawn 900 ["Sketch uses 924 bytes" ++ newline] (Closed (Some 0))
    else mkSpawn 400 ["avrdude: ser_open(): can't open device" ++ newline] (Closed (Some 2)).

(** The notice [loadFromCache] shows when it serves the list [l]. *)
Definition loadingNotice (l : list value) : string :=
  "Loading " ++ showNat (List.length l) ++ " libraries from cache...".

(** The command [handleLibraryAction] runs for [library], whatever the
    action is called. *)
Definition installCommand (cli : string) (library : value) : string :=
  cli ++ " lib install " ++ dquote ++ toStr (propOf "name" library) ++ dquote.

(** The two notices around a successful install. *)
Definition startNotice (library : value) : string :=
  (if truthy (propOf "installed" library) && truthy (propOf "hasUpdate" library)
   then "Updating" else "Installing")
    ++ " library: " ++ toStr (propOf "name" library).

Definition doneNotice (library : value) : string :=
  "Library " ++ dquote ++ toStr (propOf "name" library) ++ dquote
    ++ (if truthy (propOf "hasUpdate" library)
        then " updated successfully!" else " installed successfully!").

(** The world when the install command has come back. *)
Definition installed_world (cli : string) (exec : string -> ExecOutcome) (library : value)
    (w : World) : World :=
  setNow (now w + execElapsed (exec (installCommand cli library)))
    (emit (Exec (installCommand cli library)) (emit (InfoMsg (startNotice library)) w)).

(** The error shown when the install command fails. *)
Definition failedNotice (library : value) (e : JsError) : string :=
  "Failed to "
    ++ (if truthy (propOf "installed" library)
        then if truthy (propOf "hasUpdate" library) then "update" else "reinstall"
        else "install")
    ++ " library " ++ dquote ++ toStr (propOf "name" library) ++ dquote ++ ": "
    ++ errToString e.

(** The library cache holds the list [l] and is fresh at time [t]. *)
Definition cacheServes (w : World) (t : Z) (l : list value) : Prop :=
  exists f cached,
    files w LibsCachePath = Some f /\
    t - mtime f <= cacheExpiration /\
    data f = Json cached /\
    validCache "libraries" cached = Normal (Some l).

(** The external tool installs the Servo library and knows no other command. *)
Definition toolInstalls : string -> ExecOutcome :=
  fun command =>
    if (command =? "arduino-cli lib install " ++ dquote ++ "Servo" ++ dquote)%string
    then mkExec 4000 (Normal (Garbled "Downloading Servo@1.2.1..."))
    else toolDown command.

(** [cachedLibrary] as it is read back from the cache file. *)
Definition servoEntry : value :=
  VObj [("name", VStr "Servo"); ("version", VStr "1.2.1");
        ("installed", VBool true); ("hasUpdate", VBool false)].

(** ** Proof support *)

Ltac unfold_fs :=
  unfold existsSync, existsSyncDir, statSync, readFileSync, mkdirSync, writeFileSync,
    unlinkSync, Date_now, showInformationMessage, showErrorMessage, console_error, tell.

Ltac unfold_m := unfold tryCatch, bind, ret, throw, lift.

Ltac case_age :=
  match goal with
  | |- context [?a >? ?b] => destruct (a >? b) eqn:?
  end.

Lemma validCache_total (field : string) (cached : value) :
  exists r, validCache field cached = Normal r.
Proof.
  unfold validCache.
  destruct cached as [| | b | n | s | l | ps]; simpl; eauto.
  - destruct b; simpl; eauto.
  - destruct (negb (n =? 0)); simpl; eauto.
  - destruct (negb (s =? EmptyString)%string); simpl; eauto.
  - destruct (lookupProp field ps) as [| | b | n | s | l | qs]; simpl; eauto.
    + destruct b; eauto.
    + destruct (negb (n =? 0)); eauto.
    + destruct (negb (s =? EmptyString)%string); eauto.
Qed.

(** Run a computation symbolically, using what is known of the world. *)
Ltac known :=
  match goal with
  | H : files ?w ?p = _ |- context [files ?w ?p] => rewrite H
  | H : dirs ?w ?d = _ |- context [dirs ?w ?d] => rewrite H
  | H : readOnly ?w = _ |- context [readOnly ?w] => rewrite H
  | H : (?a >? ?b) = _ |- context [?a >? ?b] => rewrite H
  | H : data ?f = _ |- context [data ?f] => rewrite H
  | H : validCache ?k ?c = _ |- context [validCache ?k ?c] => rewrite H
  | H : execResult ?o = _ |- context [execResult ?o] => rewrite H
  end.

Ltac run := repeat (simpl; try known).

(** Split on the next test whose outcome the world decides. *)
Ltac branch :=
  match goal with
  | |- context [files ?w ?p] => destruct (files w p) eqn:?
  | |- context [dirs ?w ?d] => destruct (dirs w d) eqn:?
  | |- context [readOnly ?w] => destruct (readOnly w) eqn:?
  | |- context [?a >? ?b] => destruct (a >? b) eqn:?
  end.

Ltac case_valid :=
  match goal with
  | |- context [validCache ?k ?c] =>
      let Hv := fresh "Hv" in
      destruct (validCache_total k c) as [[?|] Hv]
  end.

(** The loaders never throw, whatever the cache file holds. *)
Lemma loadCache_resolves (k : kind) (w : World) :
  exists r w', loadCache k w = (Normal r, w').
Proof.
  destruct k; simpl; unfold loadBoardsFromCache, loadFromCache;
    unfold_m; unfold_fs;
    (destruct (files w _) as [f|] eqn:Hf; run; [| eauto]);
    (case_age; run; [eauto |]);
    (destruct (data f) as [raw | cached] eqn:Hd; run; [eauto |]);
    (case_valid; run; eauto).
Qed.

Lemma loadCache_absent (k : kind) (w : World) :
  files w (cachePath k) = None -> loadCache k w = (Normal None, w).
Proof.
  intros H. destruct k; simpl in *; unfold loadBoardsFromCache, loadFromCache;
    unfold_m; unfold_fs; run; reflexivity.
Qed.

Lemma loadCache_expired (k : kind) (w : World) (f : File) :
  files w (cachePath k) = Some f ->
  now w - mtime f > cacheExpiration ->
  loadCache k w = (Normal None, w).
Proof.
  intros H Hage. apply Z.gt_lt, Z.gtb_lt in Hage.
  destruct k; simpl in *; unfold loadBoardsFromCache, loadFromCache;
    unfold_m; unfold_fs; run; reflexivity.
Qed.

Lemma loadCache_hit (k : kind) (w : World) (f : File) (cached : value) (l : list value) :
  files w (cachePath k) = Some f ->
  now w - mtime f <= cacheExpiration ->
  data f = Json cached ->
  validCache (cacheField k) cached = Normal (Some l) ->
  result (loadCache k w) = Normal (Some l).
Proof.
  intros H Hage Hd Hv.
  assert ((now w - mtime f >? cacheExpiration) = false) as Hb
    by (apply not_true_is_false; intros E; apply Z.gtb_lt in E; lia).
  destruct k; simpl in *; unfold loadBoardsFromCache, loadFromCache;
    unfold_m; unfold_fs; run; reflexivity.
Qed.

(** What the validity test of the loaders accepts, read off the content. *)
Lemma validCache_content (field : string) (cached : value) :
  validCache field cached =
    match cached with
    | VObj props =>
        match lookupProp field props with
        | VArr l => Normal (Some l)
        | _ => Normal None
        end
    | _ => Normal None
    end.
Proof.
  unfold validCache.
  destruct cached as [| | b | n | s | elts | props]; try reflexivity;
    try (destruct (truthy _); reflexivity).
  cbn [truthy getProp cbind].
  destruct (lookupProp field props) as [| | b | n | s | l | ps]; try reflexivity;
    destruct (truthy _); reflexivity.
Qed.

Lemma loadCache_corrupt (k : kind) (w : World) (f : File) :
  files w (cachePath k) = Some f ->
  corrupt k f = true ->
  result (loadCache k w) = Normal None.
Proof.
  intros H Hc. unfold corrupt in Hc.
  destruct k; simpl in *; unfold loadBoardsFromCache, loadFromCache;
    unfold_m; unfold_fs; run;
    (case_age; run; [reflexivity |]);
    (destruct (data f) as [raw | cached] eqn:Hd; run; [reflexivity |]);
    (rewrite validCache_content;
     destruct cached as [| | b | n | s | elts | props]; try reflexivity;
     destruct (lookupProp _ props); try reflexivity; discriminate).
Qed.

Lemma getAvailableBoardsStreaming_result cli exec w :
  result (getAvailableBoardsStreaming exec cli w) = boardsOutcome cli exec.
Proof.
  unfold getAvailableBoardsStreaming, boardsOutcome, runExec, bind, result; simpl.
  destruct (execResult (exec _)) as [out | e]; simpl; [| reflexivity].
  destruct (parseBoards out); reflexivity.
Qed.

Lemma save_resolves k l w : exists w', save k l w = (Normal tt, w').
Proof.
  destruct k; simpl; unfold saveBoardsToCache, saveToCache; unfold_m; unfold_fs;
    repeat (run; try branch); eauto.
Qed.

Arguments saveBoardsToCache : simpl never.
Arguments saveToCache : simpl never.
Arguments loadBoardsFromCache : simpl never.
Arguments loadFromCache : simpl never.
Arguments fetchBoards : simpl never.
Arguments fetchLibraries : simpl never.

Lemma errorsShown_app (xs ys : list Event) :
  errorsShown (xs ++ ys) = (errorsShown xs ++ errorsShown ys)%list.
Proof.
  induction xs as [| x xs IH]; simpl; [reflexivity |].
  destruct x; simpl; rewrite ?IH; reflexivity.
Qed.

Lemma save_events k l w :
  exists shown,
    events (after (save k l w)) = (events w ++ shown)%list /\ errorsShown shown = [].
Proof.
  destruct k; simpl; unfold saveBoardsToCache, saveToCache; unfold_m; unfold_fs;
    repeat (run; try branch);
    first [ exists []; split; [symmetry; apply app_nil_r | reflexivity]
          | eexists; split; reflexivity ].
Qed.

Ltac world_facts exec :=
  split; [repeat split |
  split; [intros Hn; simpl;
          repeat match goal with
                 | |- context [execElapsed (exec ?c)] =>
                     lazymatch goal with
                     | _ : 0 <= execElapsed (exec c) |- _ => fail
                     | _ => pose proof (Hn c)
                     end
                 end; lia |
  split; [eexists; split; [simpl; rewrite <- ?app_assoc; reflexivity | reflexivity] |]]].

Lemma fetch_unfold cli exec k w :
  exists w1,
    sameStore w w1 /\
    (nonnegative exec -> now w <= now w1) /\
    (exists shown, events w1 = (events w ++ shown)%list /\ errorsShown shown = []) /\
    fetch cli exec k w =
      match liveOutcome cli exec k with
      | Normal l => (Normal l, after (save k l w1))
      | Throw e => fallback k e w1
      end.
Proof.
  destruct k; simpl.
  - unfold fetchBoards, boardsOutcome, getAvailableBoardsStreaming, getArduinoCliPath,
      runExec, fallback.
    unfold_m; unfold_fs; simpl.
    destruct (execResult (exec _)) as [out | e] eqn:Hout; simpl.
    + destruct (parseBoards out) as [l | e] eqn:Hparse; simpl.
      * match goal with |- context [saveBoardsToCache l ?w1] => exists w1 end.
        world_facts exec.
        match goal with
        | |- context [saveBoardsToCache l ?w1] =>
            destruct (save_resolves Boards l w1) as [w' Hs]
        end.
        simpl in Hs. rewrite Hs. reflexivity.
      * match goal with |- context [loadBoardsFromCache (emit _ ?w1)] => exists w1 end.
        world_facts exec. reflexivity.
    + match goal with |- context [loadBoardsFromCache (emit _ ?w1)] => exists w1 end.
      world_facts exec. reflexivity.
  - unfold fetchLibraries, installedOutcome, availableOutcome, outdatedOutcome,
      getArduinoCliPath, fallback.
    unfold promiseAll2, getInstalledLibraries, getOutdatedLibraries,
      getAvailableLibrariesStreaming, runExec.
    unfold_m; unfold_fs; simpl.
    destruct (execResult (exec (cli ++ " lib list --format json"))) as [out1 | e1]; simpl;
      [destruct (parseInstalled out1) as [installed | e1]; simpl |];
      (destruct (execResult (exec (cli ++ " lib outdated --format json"))) as [out2 | e2]; simpl;
       [destruct (parseOutdated out2) as [outdated | e2]; simpl |]);
      try (destruct (execResult (exec (cli ++ " lib search --format json"))) as [out3 | e3]; simpl;
           [destruct (parseAvailable out3) as [available | e3]; simpl |]);
      first
        [ match goal with
          | |- context [saveToCache ?l ?w1] =>
              exists w1; world_facts exec;
              destruct (save_resolves Libraries l w1) as [w' Hs]; simpl in Hs; rewrite Hs;
              reflexivity
          end
        | match goal with
          | |- context [loadFromCache (emit _ ?w1)] =>
              exists w1; world_facts exec; reflexivity
          end ].
Qed.

Lemma getInstalledLibraries_result cli exec w :
  result (getInstalledLibraries exec cli w) = installedOutcome cli exec.
Proof.
  unfold getInstalledLibraries, installedOutcome, runExec, bind, result; simpl.
  destruct (execResult (exec _)) as [out | e]; simpl; [| reflexivity].
  destruct (parseInstalled out); reflexivity.
Qed.

Lemma getAvailableLibrariesStreaming_result cli exec w :
  result (getAvailableLibrariesStreaming exec cli w) = availableOutcome cli exec.
Proof.
  unfold getAvailableLibrariesStreaming, availableOutcome, runExec, bind, result; simpl.
  destruct (execResult (exec _)) as [out | e]; simpl; [| reflexivity].
  destruct (parseAvailable out); reflexivity.
Qed.

(** The outdated-libraries query resolves whatever the tool does. *)
Lemma getOutdatedLibraries_result cli exec w :
  result (getOutdatedLibraries exec cli w) = Normal (outdatedOutcome cli exec).
Proof.
  unfold getOutdatedLibraries, outdatedOutcome, runExec, bind, result; simpl.
  destruct (execResult (exec _)) as [out | e]; simpl; [| reflexivity].
  destruct (parseOutdated out); reflexivity.
Qed.

Lemma liveFetchFails_outcome cli exec k w :
  liveFetchFails cli exec k w <-> exists e, liveOutcome cli exec k = Throw e.
Proof.
  destruct k; simpl.
  - rewrite getAvailableBoardsStreaming_result. tauto.
  - rewrite getInstalledLibraries_result, getAvailableLibrariesStreaming_result.
    destruct (installedOutcome cli exec) as [inst | e1]; simpl.
    + destruct (availableOutcome cli exec) as [av | e2]; simpl.
      * split; [intros [[e H] | [e H]]; discriminate | intros [e H]; discriminate].
      * split; eauto.
    + split; eauto.
Qed.

Lemma loadCache_store (k : kind) (w : World) :
  sameStore w (after (loadCache k w)) /\ now (after (loadCache k w)) = now w.
Proof.
  unfold sameStore.
  destruct k; simpl; unfold loadBoardsFromCache, loadFromCache; unfold_m; unfold_fs;
    (destruct (files w _) as [f|] eqn:Hf; run; [| repeat split]);
    (case_age; run; [repeat split |]);
    (destruct (data f) as [raw | cached] eqn:Hd; run; [repeat split |]);
    (case_valid; run; repeat split).
Qed.

Lemma getList_unfold cli exec k w :
  getList cli exec k w =
    match loadCache k w with
    | (Normal (Some l), w') => (Normal l, w')
    | (Normal None, w') => fetch cli exec k w'
    | (Throw e, w') => (Throw e, w')
    end.
Proof.
  destruct k; simpl; unfold getAvailableBoards, getLibraries, bind;
    match goal with |- context [match ?x with _ => _ end] => destruct x as [[[l|]|e] w'] end;
    reflexivity.
Qed.

Lemma fallback_miss k e w1 :
  result (loadCache k (emit (ErrorMsg (fetchErrorText k e)) w1)) = Normal None ->
  result (fallback k e w1) = Normal (staticList k).
Proof.
  unfold fallback, showErrorMessage, tell, bind, result; simpl.
  destruct (loadCache k _) as [[[l|]|e'] w']; simpl; intros H; try discriminate.
  reflexivity.
Qed.

Lemma fallback_resolves k e w1 :
  exists l w', fallback k e w1 = (Normal l, w').
Proof.
  unfold fallback, showErrorMessage, showInformationMessage, tell, bind, ret; simpl.
  destruct (loadCache_resolves k (emit (ErrorMsg (fetchErrorText k e)) w1)) as (r & w' & H).
  rewrite H. destruct r; eauto.
Qed.

(** The fetch functions never reject: their [catch] block cannot throw. *)
Lemma fetch_resolves cli exec k w :
  exists l w', fetch cli exec k w = (Normal l, w').
Proof.
  destruct (fetch_unfold cli exec k w) as (w1 & _ & _ & _ & H). rewrite H.
  destruct (liveOutcome cli exec k) as [l | e]; [eauto | apply fallback_resolves].
Qed.

Lemma getList_resolves cli exec k w :
  exists l w', getList cli exec k w = (Normal l, w').
Proof.
  rewrite getList_unfold.
  destruct (loadCache_resolves k w) as (r & w' & H). rewrite H.
  destruct r; [eauto | apply fetch_resolves].
Qed.

(** ** The model at work *)

(** A first listing fetches the boards and writes the cache; a second one,
    with the tool gone, is served from the cache and shows no error. *)
Example fresh_fetch_is_cached_and_reused :
  let uno := mkBoard (VStr "Arduino Uno") (VStr "arduino:avr:uno") (VStr "Arduino Uno") in
  let w1 := after (getAvailableBoards "arduino-cli" toolUp (demoWorld 0 None None)) in
  result (getAvailableBoards "arduino-cli" toolUp (demoWorld 0 None None)) = Normal [uno] /\
  now w1 = 500 /\
  files w1 BoardsCachePath
    = Some (mkFile 500 (Json (VObj [("boards", VArr [uno]); ("timestamp", VNum 500)]))) /\
  result (getAvailableBoards "arduino-cli" toolDown w1) = Normal [uno] /\
  errorsShown (events (after (getAvailableBoards "arduino-cli" toolDown w1))) = [].
Proof. repeat split. Qed.

(** The three library queries are started in the order installed, outdated,
    search, and the joined list is what the listing returns. *)
Example library_listing_runs_three_queries :
  let r := getLibraries "arduino-cli" toolUp (demoWorld 0 None None) in
  events (after r)
    = [InfoMsg "Fetching libraries from arduino-cli...";
       Exec "arduino-cli lib list --format json";
       Exec "arduino-cli lib outdated --format json";
       Exec "arduino-cli lib search --format json"] /\
  now (after r) = 1300.
Proof. split; reflexivity. Qed.

(** ** Cache expiration *)

(** C3. A cache file whose modification time lies more than 7 days
    (7*24*60*60*1000 ms) before the current time is a miss for the cache-load
    step, so [getList] goes on to fetch instead of returning it; a parseable
    file aged 7 days or less is returned as a hit. *)
Theorem cache_older_than_seven_days_is_a_miss :
  forall (cli : string) (exec : string -> ExecOutcome) (k : kind) (w : World) (f : File),
    files w (cachePath k) = Some f ->
    (now w - mtime f > 7 * 24 * 60 * 60 * 1000 ->
       loadCache k w = (Normal None, w) /\
       getList cli exec k w = fetch cli exec k w) /\
    (now w - mtime f <= 7 * 24 * 60 * 60 * 1000 ->
       forall props l,
         data f = Json (VObj props) ->
         lookupProp (cacheField k) props = VArr l ->
         result (loadCache k w) = Normal (Some l) /\
         result (getList cli exec k w) = Normal l).
Proof.
  intros cli exec k w f Hf. split.
  - intros Hage.
    assert (loadCache k w = (Normal None, w)) as Hmiss
      by (apply loadCache_expired with f; assumption).
    split; [assumption |].
    rewrite getList_unfold, Hmiss. reflexivity.
  - intros Hage props l Hd Hl.
    assert (result (loadCache k w) = Normal (Some l)) as Hhit.
    { apply loadCache_hit with f (VObj props); try assumption.
      unfold validCache; simpl. rewrite Hl. reflexivity. }
    split; [assumption |].
    rewrite getList_unfold. unfold result in *.
    destruct (loadCache k w) as [[[l'|]|e] w']; simpl in *; congruence.
Qed.

Lemma cache_older_than_seven_days_is_a_miss_witness :
  (loadCache Boards (demoWorld 604800001 (Some (cacheFileAt Boards 0)) None)
     = (Normal None, demoWorld 604800001 (Some (cacheFileAt Boards 0)) None)) /\
  result (getList "arduino-cli" toolDown Libraries
            (demoWorld 604800000 None (Some (cacheFileAt Libraries 0))))
    = Normal [VObj [("name", VStr "Servo"); ("version", VStr "1.2.1");
                    ("installed", VBool true); ("hasUpdate", VBool false)]].
Proof.
  split.
  - apply (cache_older_than_seven_days_is_a_miss "arduino-cli" toolDown Boards
             (demoWorld 604800001 (Some (cacheFileAt Boards 0)) None)
             (cacheFileAt Boards 0) eq_refl).
    simpl. lia.
  - eapply (cache_older_than_seven_days_is_a_miss "arduino-cli" toolDown Libraries
              (demoWorld 604800000 None (Some (cacheFileAt Libraries 0)))
              (cacheFileAt Libraries 0) eq_refl).
    + simpl. lia.
    + reflexivity.
    + reflexivity.
Defined.

(** ** The fallback chain *)

Lemma sameStore_emit (e : Event) (w w1 : World) :
  sameStore w w1 -> sameStore w (emit e w1).
Proof. unfold sameStore. simpl. tauto. Qed.

Lemma sameStore_trans (w w1 w2 : World) :
  sameStore w w1 -> sameStore w1 w2 -> sameStore w w2.
Proof. unfold sameStore. intuition congruence. Qed.

Lemma fetch_result_miss cli exec k w :
  unusableFrom exec k w ->
  result (fetch cli exec k w) =
    match liveOutcome cli exec k with
    | Normal l => Normal l
    | Throw _ => Normal (staticList k)
    end.
Proof.
  intros Hmiss.
  destruct (fetch_unfold cli exec k w) as (w1 & Hstore & Hnow & _ & H). rewrite H.
  destruct (liveOutcome cli exec k) as [l | e]; [reflexivity |].
  apply fallback_miss, Hmiss; [apply sameStore_emit, Hstore | exact Hnow].
Qed.

Lemma getList_result_miss cli exec k w :
  unusableFrom exec k w ->
  result (getList cli exec k w) =
    match liveOutcome cli exec k with
    | Normal l => Normal l
    | Throw _ => Normal (staticList k)
    end.
Proof.
  intros Hmiss. rewrite getList_unfold.
  pose proof (Hmiss w (conj eq_refl (conj eq_refl (conj eq_refl eq_refl)))
                (fun _ => Z.le_refl _)) as H0.
  destruct (loadCache_store k w) as [Hstore Hnow].
  unfold result, after in *.
  destruct (loadCache k w) as [[[l|]|e] w']; simpl in *; try discriminate.
  apply fetch_result_miss.
  intros w1 Hs1 Hn1. apply Hmiss.
  - apply sameStore_trans with w'; assumption.
  - intros Hn. rewrite <- Hnow. auto.
Qed.

Lemma absent_unusable exec k w :
  files w (cachePath k) = None -> unusableFrom exec k w.
Proof.
  intros H w1 (Hf & _) _. rewrite loadCache_absent; [reflexivity | congruence].
Qed.

Lemma corrupt_unusable exec k w f :
  files w (cachePath k) = Some f -> corrupt k f = true -> unusableFrom exec k w.
Proof.
  intros H Hc w1 (Hf & _) _. apply loadCache_corrupt with f; congruence.
Qed.

Lemma expired_unusable exec k w f :
  nonnegative exec ->
  files w (cachePath k) = Some f -> now w - mtime f > cacheExpiration ->
  unusableFrom exec k w.
Proof.
  intros Hn H Hage w1 (Hf & _) Hnow. specialize (Hnow Hn).
  rewrite loadCache_expired with (f := f); [reflexivity | congruence | lia].
Qed.

Lemma loadCache_events (k : kind) (w : World) :
  exists shown,
    events (after (loadCache k w)) = (events w ++ shown)%list /\ errorsShown shown = [].
Proof.
  destruct k; simpl; unfold loadBoardsFromCache, loadFromCache; unfold_m; unfold_fs;
    (destruct (files w _) as [f|] eqn:Hf; run;
     [| exists []; split; [symmetry; apply app_nil_r | reflexivity]]);
    (case_age; run; [exists []; split; [symmetry; apply app_nil_r | reflexivity] |]);
    (destruct (data f) as [raw | cached] eqn:Hd; run; [eexists; split; reflexivity |]);
    (case_valid; run;
     [eexists; split; reflexivity
     | exists []; split; [symmetry; apply app_nil_r | reflexivity]]).
Qed.

(** The only error a fetch shows is the failure of the live fetch. *)
Lemma fetch_errors cli exec k w :
  errorsShown (events (after (fetch cli exec k w))) =
    (errorsShown (events w) ++
     match liveOutcome cli exec k with
     | Normal _ => []
     | Throw e => [fetchErrorText k e]
     end)%list.
Proof.
  destruct (fetch_unfold cli exec k w) as (w1 & _ & _ & (shown & Hev & Hno) & H).
  rewrite H. destruct (liveOutcome cli exec k) as [l | e].
  - destruct (save_events k l w1) as (shown' & Hev' & Hno').
    unfold after in *. simpl. rewrite Hev', Hev, !errorsShown_app, Hno, Hno', !app_nil_r.
    reflexivity.
  - unfold fallback, showErrorMessage, showInformationMessage, tell, bind, ret; simpl.
    set (w2 := emit (ErrorMsg (fetchErrorText k e)) w1).
    destruct (loadCache_events k w2) as (shown' & Hev' & Hno').
    unfold after in *.
    destruct (loadCache k w2) as [[[l|]|e'] w']; simpl in *;
      rewrite Hev'; subst w2; simpl; rewrite !errorsShown_app, Hev, !errorsShown_app, Hno, Hno';
      simpl; rewrite ?app_nil_r; reflexivity.
Qed.

Lemma getList_errors_miss cli exec k w :
  result (loadCache k w) = Normal None ->
  errorsShown (events (after (getList cli exec k w))) =
    (errorsShown (events w) ++
     match liveOutcome cli exec k with
     | Normal _ => []
     | Throw e => [fetchErrorText k e]
     end)%list.
Proof.
  intros Hmiss. rewrite getList_unfold.
  destruct (loadCache_events k w) as (shown & Hev & Hno).
  unfold result, after in *.
  destruct (loadCache k w) as [[[l|]|e] w']; simpl in *; try discriminate.
  pose proof (fetch_errors cli exec k w') as H. unfold after in H.
  rewrite H, Hev, errorsShown_app, Hno, app_nil_r. reflexivity.
Qed.

(** C4. A cache file that holds unparseable JSON, or JSON without an array
    in the expected field (the content is [corrupt], whatever its age), makes
    [getList] return exactly what it returns when the cache file is absent;
    the call resolves, and it shows the same error notifications as with the
    file absent: the corruption is not surfaced. *)
Theorem corrupt_cache_is_a_cache_miss :
  forall (cli : string) (exec : string -> ExecOutcome) (k : kind) (w : World) (f : File),
    files w (cachePath k) = Some f ->
    corrupt k f = true ->
    result (getList cli exec k w) = result (getList cli exec k (withoutCache k w)) /\
    resolves (getList cli exec k w) = true /\
    errorsShown (events (after (getList cli exec k w))) =
      errorsShown (events (after (getList cli exec k (withoutCache k w)))).
Proof.
  intros cli exec k w f Hf Hc.
  assert (files (withoutCache k w) (cachePath k) = None) as Hnone
    by (unfold withoutCache, updFile; simpl; destruct k; reflexivity).
  split; [| split].
  - rewrite (getList_result_miss cli exec k w) by (apply corrupt_unusable with f; assumption).
    rewrite (getList_result_miss cli exec k (withoutCache k w)); [reflexivity |].
    apply absent_unusable, Hnone.
  - destruct (getList_resolves cli exec k w) as (l & w' & H). rewrite H. reflexivity.
  - rewrite !getList_errors_miss; [reflexivity | |].
    + rewrite loadCache_absent by exact Hnone. reflexivity.
    + apply loadCache_corrupt with f; assumption.
Qed.

Lemma corrupt_cache_is_a_cache_miss_witness :
  result (getList "arduino-cli" toolDown Boards
            (demoWorld 1000 (Some (mkFile 0 (Garbled "{ boards: ["))) None))
    = result (getList "arduino-cli" toolDown Boards (demoWorld 1000 None None)) /\
  result (getList "arduino-cli" toolDown Libraries
            (demoWorld 1000 None (Some (mkFile 0 (Json (VObj [("timestamp", VNum 0)]))))))
    = result (getList "arduino-cli" toolDown Libraries (demoWorld 1000 None None)) /\
  result (getList "arduino-cli" toolUp Boards
            (demoWorld 1000 (Some (mkFile 0 (Json (VObj [("boards", VStr "oops");
                                                         ("timestamp", VNum 0)])))) None))
    = result (getList "arduino-cli" toolUp Boards (demoWorld 1000 None None)).
Proof.
  split; [| split].
  - exact (proj1 (corrupt_cache_is_a_cache_miss "arduino-cli" toolDown Boards
                    (demoWorld 1000 (Some (mkFile 0 (Garbled "{ boards: ["))) None)
                    (mkFile 0 (Garbled "{ boards: [")) eq_refl eq_refl)).
  - exact (proj1 (corrupt_cache_is_a_cache_miss "arduino-cli" toolDown Libraries
                    (demoWorld 1000 None (Some (mkFile 0 (Json (VObj [("timestamp", VNum 0)])))))
                    (mkFile 0 (Json (VObj [("timestamp", VNum 0)]))) eq_refl eq_refl)).
  - exact (proj1 (corrupt_cache_is_a_cache_miss "arduino-cli" toolUp Boards
                    (demoWorld 1000 (Some (mkFile 0 (Json (VObj [("boards", VStr "oops");
                                                                 ("timestamp", VNum 0)]))))
                       None)
                    (mkFile 0 (Json (VObj [("boards", VStr "oops"); ("timestamp", VNum 0)])))
                    eq_refl eq_refl)).
Defined.

(** C6. With no cache file and every invocation of the external tool
    failing, the board listing returns exactly the 12 hardcoded default boards
    and the library listing returns the empty list. *)
Theorem no_tool_no_cache_gives_static_defaults :
  forall (cli : string) (exec : string -> ExecOutcome) (w : World),
    files w BoardsCachePath = None ->
    files w LibsCachePath = None ->
    (forall command, exists e, execResult (exec command) = Throw e) ->
    result (getAvailableBoards cli exec w) = Normal getCommonBoards /\
    result (getLibraries cli exec w) = Normal [] /\
    List.length getCommonBoards = 12%nat /\
    map (propOf "name") getCommonBoards =
      [VStr "Arduino Uno"; VStr "Arduino Nano"; VStr "Arduino Mega"; VStr "Arduino Leonardo";
       VStr "Arduino Micro"; VStr "Arduino Pro Mini"; VStr "ESP32 Dev Module";
       VStr "ESP32-S3 Dev Module"; VStr "ESP8266 NodeMCU"; VStr "ESP8266 Generic";
       VStr "Teensy 3.2"; VStr "Teensy 4.0"] /\
    map (propOf "fqbn") getCommonBoards =
      [VStr "arduino:avr:uno"; VStr "arduino:avr:nano"; VStr "arduino:avr:mega";
       VStr "arduino:avr:leonardo"; VStr "arduino:avr:micro"; VStr "arduino:avr:pro";
       VStr "esp32:esp32:esp32"; VStr "esp32:esp32:esp32s3"; VStr "esp8266:esp8266:nodemcuv2";
       VStr "esp8266:esp8266:generic"; VStr "teensy:avr:teensy32"; VStr "teensy:avr:teensy40"] /\
    map (propOf "label") getCommonBoards = map (propOf "name") getCommonBoards.
Proof.
  intros cli exec w Hb Hl Hdown.
  split; [| split; [| repeat split]].
  - change (result (getList cli exec Boards w) = Normal (staticList Boards)).
    rewrite getList_result_miss by (apply absent_unusable; exact Hb).
    simpl. unfold boardsOutcome.
    destruct (Hdown (cli ++ " board listall --format json")) as [e ->]. reflexivity.
  - change (result (getList cli exec Libraries w) = Normal (staticList Libraries)).
    rewrite getList_result_miss by (apply absent_unusable; exact Hl).
    simpl. unfold installedOutcome.
    destruct (Hdown (cli ++ " lib list --format json")) as [e ->]. reflexivity.
Qed.

Lemma no_tool_no_cache_gives_static_defaults_witness :
  result (getAvailableBoards "arduino-cli" toolDown (demoWorld 1000 None None))
    = Normal getCommonBoards /\
  result (getLibraries "arduino-cli" toolDown (demoWorld 1000 None None)) = Normal [].
Proof.
  pose proof (no_tool_no_cache_gives_static_defaults "arduino-cli" toolDown
                (demoWorld 1000 None None) eq_refl eq_refl
                (fun _ => ex_intro _ _ eq_refl)) as H.
  split; [exact (proj1 H) | exact (proj1 (proj2 H))].
Defined.

(** C1 (what the code does). When the live fetch fails and the cache file is
    older than 7 days, the fallback step reloads the cache through the same
    age-checking loader and so does not return it: the result is the static
    list, whatever the file holds. *)
Lemma expired_cache_is_not_a_fallback :
  forall (cli : string) (exec : string -> ExecOutcome) (k : kind) (w : World) (f : File),
    nonnegative exec ->
    files w (cachePath k) = Some f ->
    now w - mtime f > cacheExpiration ->
    liveFetchFails cli exec k w ->
    result (getList cli exec k w) = Normal (staticList k).
Proof.
  intros cli exec k w f Hn Hf Hage Hfail.
  rewrite getList_result_miss by (apply expired_unusable with f; assumption).
  apply liveFetchFails_outcome in Hfail. destruct Hfail as [e ->]. reflexivity.
Qed.

(** In [getList] the fallback step can never produce cached data: a cache
    that was usable would already have been returned by the first step. *)
Lemma fallback_after_a_miss_is_vain :
  forall (cli : string) (exec : string -> ExecOutcome) (k : kind) (w : World),
    nonnegative exec ->
    result (loadCache k w) = Normal None ->
    liveFetchFails cli exec k w ->
    result (getList cli exec k w) = Normal (staticList k).
Proof.
  intros cli exec k w Hn Hmiss Hfail.
  assert (unusableFrom exec k w) as Hun.
  { destruct (files w (cachePath k)) as [f|] eqn:Hf; [| apply absent_unusable; assumption].
    destruct (Z_gt_le_dec (now w - mtime f) cacheExpiration) as [Hage | Hage];
      [apply expired_unusable with f; assumption |].
    apply corrupt_unusable with f; [assumption |].
    unfold corrupt.
    destruct (data f) as [raw | cached] eqn:Hd; simpl; [reflexivity |].
    destruct cached as [| | b | n | s | elts | props]; try reflexivity.
    destruct (lookupProp (cacheField k) props) as [| | b | n | s | l | ps] eqn:Hl;
      try reflexivity.
    rewrite (loadCache_hit k w f (VObj props) l) in Hmiss; try assumption;
      [discriminate | rewrite validCache_content, Hl; reflexivity]. }
  rewrite getList_result_miss by assumption.
  apply liveFetchFails_outcome in Hfail. destruct Hfail as [e ->]. reflexivity.
Qed.

(** C1 (failing input). The cache files hold one parseable entry each and
    were written 8 days ago; the external tool fails.  The listing returns
    the static list, not the cached entry. *)
Theorem stale_cache_is_skipped_when_fetch_fails :
  let w := demoWorld 691200000 (Some (cacheFileAt Boards 0)) (Some (cacheFileAt Libraries 0)) in
  liveFetchFails "arduino-cli" toolDown Boards w /\
  liveFetchFails "arduino-cli" toolDown Libraries w /\
  result (getAvailableBoards "arduino-cli" toolDown w) = Normal getCommonBoards /\
  result (getAvailableBoards "arduino-cli" toolDown w) <> Normal [cachedBoard] /\
  result (getLibraries "arduino-cli" toolDown w) = Normal [] /\
  result (loadFromCache (setNow 1000 w)) = Normal (Some [jsonView cachedLibrary]) /\
  result (loadBoardsFromCache (setNow 1000 w)) = Normal (Some [cachedBoard]).
Proof.
  simpl. repeat split.
  - eexists. reflexivity.
  - left. eexists. reflexivity.
  - discriminate.
Qed.

(** ** Manual refresh *)

Lemma deleteCache_absent k w : files (deleteCache k w) (cachePath k) = None.
Proof.
  unfold deleteCache. destruct (files w (cachePath k)) eqn:H; [| exact H].
  unfold withoutCache, updFile; simpl. destruct k; reflexivity.
Qed.

Lemma fallback_after k e w1 :
  sameStore w1 (after (fallback k e w1)) /\
  In (ErrorMsg (fetchErrorText k e)) (events (after (fallback k e w1))).
Proof.
  unfold fallback, showErrorMessage, showInformationMessage, tell, bind, ret; simpl.
  set (w2 := emit (ErrorMsg (fetchErrorText k e)) w1).
  destruct (loadCache_store k w2) as [Hs _].
  destruct (loadCache_events k w2) as (shown & Hev & _).
  unfold after in *.
  destruct (loadCache k w2) as [[[l|]|e'] w']; simpl in *;
    (split; [unfold sameStore in *; simpl; tauto |]);
    rewrite ?Hev; subst w2; simpl; rewrite ?in_app_iff; simpl; tauto.
Qed.

(** What an explicit refresh does, for every store and every behaviour of
    the tool: it deletes the cache file and then re-fetches, the fetch
    running on the store without the cache file.  Since the fetch catches
    its own failure, the [catch] block of the refresh is out of reach of a
    failed re-fetch: the refresh resolves all the same. *)
Lemma refresh_deletes_then_refetches_and_resolves :
  forall (cli : string) (exec : string -> ExecOutcome) (k : kind) (w : World),
    result (refresh cli exec k w) = Normal tt /\
    (readOnly w = false ->
       let w0 := deleteCache k (emit (InfoMsg (refreshingText k)) w) in
       let w' := after (refresh cli exec k w) in
       files w0 (cachePath k) = None /\
       files w' = files (after (fetch cli exec k w0)) /\
       (exists shown, events w' = (events (after (fetch cli exec k w0)) ++ shown)%list) /\
       (liveFetchFails cli exec k w ->
          files w' (cachePath k) = None /\
          exists e, In (ErrorMsg (fetchErrorText k e)) (events w'))).
Proof.
  intros cli exec k w.
  assert (forall w0, exists l w1,
             (match k with
              | Boards => fetchBoards cli exec
              | Libraries => fetchLibraries cli exec
              end) w0 = (Normal l, w1)) as Hfetch
    by (intros w0; apply (fetch_resolves cli exec k w0)).
  split.
  - destruct k; simpl; unfold refreshBoardsCache, refreshCache; unfold_m; unfold_fs;
      simpl; (destruct (files w _) as [f|] eqn:Hf; run;
       [destruct (readOnly w) eqn:Hro; run; [reflexivity |] |]);
      match goal with
      | |- context [fetchBoards cli exec ?w0] =>
          destruct (Hfetch w0) as (l & w1 & ->)
      | |- context [fetchLibraries cli exec ?w0] =>
          destruct (Hfetch w0) as (l & w1 & ->)
      end; reflexivity.
  - intros Hro w0 w'. split; [apply deleteCache_absent |].
    assert (w' = emit (InfoMsg (match k with
                                | Boards => "Boards cache refreshed successfully!"
                                | Libraries => "Library cache refreshed successfully!"
                                end)) (after (fetch cli exec k w0))) as Hw'.
    { subst w' w0. unfold deleteCache, withoutCache. simpl.
      destruct k; simpl; unfold refreshBoardsCache, refreshCache; unfold_m; unfold_fs;
        simpl; (destruct (files w _) as [f|] eqn:Hf; run);
        match goal with
        | |- context [fetchBoards cli exec ?w0] =>
            destruct (Hfetch w0) as (l & w1 & ->)
        | |- context [fetchLibraries cli exec ?w0] =>
            destruct (Hfetch w0) as (l & w1 & ->)
        end; reflexivity. }
    split; [rewrite Hw'; reflexivity |].
    split; [rewrite Hw'; simpl; eauto |].
    intros Hfail. apply liveFetchFails_outcome in Hfail. destruct Hfail as [e He].
    destruct (fetch_unfold cli exec k w0) as (w1 & Hs1 & _ & _ & H).
    rewrite He in H.
    destruct (fallback_after k e w1) as [Hs2 Hin].
    rewrite Hw', H. simpl. split.
    + destruct Hs1 as [Hf1 _]. destruct Hs2 as [Hf2 _].
      rewrite Hf2, Hf1. apply deleteCache_absent.
    + exists e. rewrite in_app_iff. left. exact Hin.
Qed.

(** C2 (failing input). The cache files are 8 days old and the external tool
    fails.  The refresh deletes the cache file and runs the fetch, which
    shows its own error; the failure never reaches the refresh, which goes on
    to announce success and resolves.  Its own [catch] block, meant to report
    a failed refresh, is not entered: the failure is not raised to the
    caller. *)
Theorem refresh_announces_success_after_a_failed_fetch :
  let w := demoWorld 691200000 (Some (cacheFileAt Boards 0)) (Some (cacheFileAt Libraries 0)) in
  let failure := "Error: Command failed: arduino-cli: not found" in
  liveFetchFails "arduino-cli" toolDown Boards w /\
  liveFetchFails "arduino-cli" toolDown Libraries w /\
  result (refresh "arduino-cli" toolDown Boards w) = Normal tt /\
  result (refresh "arduino-cli" toolDown Libraries w) = Normal tt /\
  files (after (refresh "arduino-cli" toolDown Boards w)) BoardsCachePath = None /\
  files (after (refresh "arduino-cli" toolDown Libraries w)) LibsCachePath = None /\
  events (after (refresh "arduino-cli" toolDown Boards w))
    = [InfoMsg "Refreshing boards cache...";
       InfoMsg "Fetching boards from arduino-cli...";
       Exec "arduino-cli board listall --format json";
       ErrorMsg ("Error fetching boards: " ++ failure);
       InfoMsg "Boards cache refreshed successfully!"] /\
  events (after (refresh "arduino-cli" toolDown Libraries w))
    = [InfoMsg "Refreshing library cache...";
       InfoMsg "Fetching libraries from arduino-cli...";
       Exec "arduino-cli lib list --format json";
       Exec "arduino-cli lib outdated --format json";
       ErrorMsg ("Error fetching libraries: " ++ failure);
       InfoMsg "Library cache refreshed successfully!"].
Proof.
  simpl. repeat split.
  - eexists. reflexivity.
  - left. eexists. reflexivity.
Qed.

(** ** The command runner *)

Lemma append_nil_r (s : string) : s ++ EmptyString = s.
Proof. induction s as [| a s IH]; simpl; [reflexivity | now rewrite IH]. Qed.

Lemma spawned_app (xs ys : list Event) :
  spawned (xs ++ ys) = (spawned xs ++ spawned ys)%list.
Proof.
  induction xs as [| x xs IH]; simpl; [reflexivity |].
  destruct x; simpl; rewrite ?IH; reflexivity.
Qed.

Lemma execs_app (xs ys : list Event) : execs (xs ++ ys) = (execs xs ++ execs ys)%list.
Proof.
  induction xs as [| x xs IH]; simpl; [reflexivity |].
  destruct x; simpl; rewrite ?IH; reflexivity.
Qed.

Lemma appendAll_spec (chunks : list string) (w : World) :
  exists w',
    appendAll chunks w = (Normal tt, w') /\
    spawned (events w') = spawned (events w).
Proof.
  revert w. induction chunks as [| c rest IH]; intros w; simpl.
  - exists w. split; reflexivity.
  - unfold bind, tell. simpl.
    destruct (IH (emit (OutAppend c) w)) as (w' & H & Hsp).
    exists w'. split; [exact H |].
    rewrite Hsp. simpl. rewrite spawned_app. simpl. apply app_nil_r.
Qed.

Lemma runCommand_spec spawn (command cwd : string) (w : World) :
  exists w',
    runCommand spawn command cwd w =
      (match spawnEnd (spawn command cwd) with
       | Closed (Some 0) => Normal tt
       | Closed code => Throw (Error ("Command failed with exit code " ++ showCode code))
       | Failed error => Throw error
       end, w') /\
    spawned (events w') = (spawned (events w) ++ [command])%list.
Proof.
  unfold runCommand.
  match goal with
  | |- context [appendAll ?cs ?w1] => destruct (appendAll_spec cs w1) as (w2 & -> & Hsp)
  end.
  exists w2. split.
  - destruct (spawnEnd (spawn command cwd)) as [[[| p | p]|] | e]; reflexivity.
  - rewrite Hsp. simpl. rewrite spawned_app. reflexivity.
Qed.

(** C8. The command runner resolves iff the subprocess exits with code 0;
    for every non-zero exit code [c] it rejects with an error whose message
    contains [c]. *)
Theorem runCommand_resolves_iff_exit_code_zero :
  forall (spawn : string -> string -> SpawnOutcome) (command cwd : string) (w : World),
    (result (runCommand spawn command cwd w) = Normal tt <->
     spawnEnd (spawn command cwd) = Closed (Some 0)) /\
    (forall c : Z,
       c <> 0 ->
       spawnEnd (spawn command cwd) = Closed (Some c) ->
       result (runCommand spawn command cwd w)
         = Throw (Error ("Command failed with exit code " ++ showZ c)) /\
       contains (showZ c) (errMessage (Error ("Command failed with exit code " ++ showZ c)))).
Proof.
  intros spawn command cwd w.
  destruct (runCommand_spec spawn command cwd w) as (w' & H & _).
  rewrite H. unfold result; simpl. split.
  - destruct (spawnEnd (spawn command cwd)) as [[[| p | p]|] | e]; simpl;
      split; intros E; try reflexivity; try discriminate.
    (* a spawn error is an error object, never the unit result *)
  - intros c Hc Hend. rewrite Hend. split.
    + destruct c as [| p | p]; [contradiction | reflexivity | reflexivity].
    + exists "Command failed with exit code ", EmptyString.
      rewrite append_nil_r. reflexivity.
Qed.

Lemma runCommand_resolves_iff_exit_code_zero_witness :
  result (runCommand compileFails "arduino-cli compile" "/home/me/sketch" (demoWorld 0 None None))
    = Throw (Error "Command failed with exit code 1") /\
  contains "1" "Command failed with exit code 1".
Proof.
  apply (proj2 (runCommand_resolves_iff_exit_code_zero compileFails "arduino-cli compile"
                  "/home/me/sketch" (demoWorld 0 None None)) 1).
  - lia.
  - reflexivity.
Defined.

(** The subprocesses of an upload, named by the command lines the
    operation builds. *)
Lemma upload_spawns_in_sequence :
  forall (cli dir : string) (spawn : string -> string -> SpawnOutcome) (w : World),
    let compile := compileCommand cli (config w) dir in
    let flash := uploadCommand cli (config w) dir in
    let w' := after (upload cli dir spawn w) in
    result (upload cli dir spawn w) = Normal tt /\
    spawned (events w') =
      (spawned (events w) ++
       (if (dir =? EmptyString)%string then []
        else if exitsZero (spawn compile dir) then [compile; flash]
        else [compile]))%list /\
    (forall w1, exitsZero (spawn compile dir) = true <->
                result (runCommand spawn compile dir w1) = Normal tt).
Proof.
  intros cli dir spawn w compile flash w'.
  assert (forall w1, exitsZero (spawn compile dir) = true <->
                     result (runCommand spawn compile dir w1) = Normal tt) as Hok.
  { intros w1. destruct (runCommand_spec spawn compile dir w1) as (w2 & -> & _).
    unfold exitsZero, result; simpl.
    destruct (spawnEnd (spawn compile dir)) as [[[| p | p]|] | e]; simpl;
      split; intros E; try reflexivity; discriminate. }
  split; [| split; [| exact Hok]]; subst w'.
  - unfold upload, getConfig, getCurrentDirectory, getArduinoCliPath. unfold_m; simpl.
    destruct (dir =? EmptyString)%string; [reflexivity |]. unfold tell; simpl.
    fold compile flash.
    match goal with
    | |- context [runCommand spawn compile dir ?w1] =>
        destruct (runCommand_spec spawn compile dir w1) as (w2 & -> & _)
    end.
    destruct (spawnEnd (spawn compile dir)) as [[[| p | p]|] | e]; try reflexivity.
    match goal with
    | |- context [runCommand spawn flash dir ?w1] =>
        destruct (runCommand_spec spawn flash dir w1) as (w3 & -> & _)
    end.
    destruct (spawnEnd (spawn flash dir)) as [[[| p | p]|] | e]; reflexivity.
  - unfold upload, getConfig, getCurrentDirectory, getArduinoCliPath. unfold_m; simpl.
    destruct (dir =? EmptyString)%string.
    + unfold showErrorMessage, tell, after; simpl.
      rewrite spawned_app. reflexivity.
    + unfold tell; simpl. fold compile flash. unfold exitsZero.
      match goal with
      | |- context [runCommand spawn compile dir ?w1] =>
          destruct (runCommand_spec spawn compile dir w1) as (w2 & -> & Hsp2)
      end.
      simpl in Hsp2. rewrite !spawned_app in Hsp2. simpl in Hsp2.
      rewrite !app_nil_r in Hsp2.
      destruct (spawnEnd (spawn compile dir)) as [[[| p | p]|] | e];
        try (unfold after; simpl; rewrite !spawned_app, Hsp2; simpl;
             rewrite ?app_nil_r; reflexivity).
      match goal with
      | |- context [runCommand spawn flash dir ?w1] =>
          destruct (runCommand_spec spawn flash dir w1) as (w3 & -> & Hsp3)
      end.
      simpl in Hsp3. rewrite !spawned_app, Hsp2 in Hsp3. simpl in Hsp3.
      rewrite !app_nil_r, <- app_assoc in Hsp3. simpl in Hsp3.
      destruct (spawnEnd (spawn flash dir)) as [[[| p | p]|] | e];
        unfold after; simpl; rewrite !spawned_app, Hsp3; simpl;
        rewrite ?app_nil_r; reflexivity.
Qed.

Lemma appendAll_execs (chunks : list string) (w : World) :
  execs (events (snd (appendAll chunks w))) = execs (events w).
Proof.
  revert w. induction chunks as [| c rest IH]; intros w; simpl; [reflexivity |].
  unfold bind, tell. simpl.
  destruct (appendAll_spec rest (emit (OutAppend c) w)) as (w' & Hrun & _).
  specialize (IH (emit (OutAppend c) w)). rewrite Hrun in *. simpl in *.
  rewrite IH, execs_app. simpl. apply app_nil_r.
Qed.

(** The command runner starts its subprocess with [spawn], never with [exec]. *)
Lemma runCommand_execs spawn (command cwd : string) (w : World) :
  execs (events (snd (runCommand spawn command cwd w))) = execs (events w).
Proof.
  unfold runCommand.
  match goal with
  | |- context [appendAll ?cs ?w1] =>
      pose proof (appendAll_execs cs w1) as H; destruct (appendAll cs w1) as [r w2]
  end.
  simpl in H. rewrite execs_app in H. simpl in H. rewrite app_nil_r in H.
  destruct (spawnEnd (spawn command cwd)) as [[[| q | q]|] | e]; exact H.
Qed.

Lemma upload_execs (cli dir : string) (spawn : string -> string -> SpawnOutcome) (w : World) :
  execs (events (after (upload cli dir spawn w))) = execs (events w).
Proof.
  unfold upload, getConfig, getCurrentDirectory, getArduinoCliPath. unfold_m; simpl.
  destruct (dir =? EmptyString)%string.
  - unfold showErrorMessage, tell, after; simpl. rewrite execs_app. apply app_nil_r.
  - unfold tell, showErrorMessage, showInformationMessage, tell; simpl.
    match goal with
    | |- context [runCommand spawn ?c dir ?w1] =>
        pose proof (runCommand_execs spawn c dir w1) as H1;
        destruct (runCommand spawn c dir w1) as [r1 w2]
    end.
    simpl in H1. rewrite !execs_app in H1. simpl in H1. rewrite !app_nil_r in H1.
    destruct r1 as [[] | e1]; unfold after; simpl;
      [| rewrite !execs_app, H1; simpl; rewrite ?app_nil_r; reflexivity].
    match goal with
    | |- context [runCommand spawn ?c dir ?w1] =>
        pose proof (runCommand_execs spawn c dir w1) as H2;
        destruct (runCommand spawn c dir w1) as [r2 w3]
    end.
    simpl in H2. rewrite !execs_app, H1 in H2. simpl in H2. rewrite !app_nil_r in H2.
    destruct r2 as [[] | e2]; simpl; rewrite !execs_app, H2; simpl;
      rewrite ?app_nil_r; reflexivity.
Qed.

(** C5. The upload operation performs at most two external invocations, both
    subprocesses started with [spawn] and nothing through [exec]: first the
    compile command line, then the upload command line.  When the compile
    run fails the upload command is never started; when it exits with code 0
    the upload command is started after it.  (Without a workspace folder
    nothing is started.)  The operation itself always resolves. *)
Theorem upload_compiles_then_uploads :
  forall (cli dir : string) (spawn : string -> string -> SpawnOutcome) (w : World),
    let fqbn := toStr (board (config w)) in
    let compile := (cli ++ " compile --fqbn " ++ fqbn ++ " " ++ dquote ++ dir ++ dquote)%string in
    let flash :=
      (cli ++ " upload -p " ++ toStr (port (config w)) ++ " --fqbn " ++ fqbn ++ " "
         ++ dquote ++ dir ++ dquote)%string in
    let w' := after (upload cli dir spawn w) in
    result (upload cli dir spawn w) = Normal tt /\
    spawned (events w') =
      (spawned (events w) ++
       (if (dir =? EmptyString)%string then []
        else if exitsZero (spawn compile dir) then [compile; flash]
        else [compile]))%list /\
    execs (events w') = execs (events w) /\
    (forall w1, exitsZero (spawn compile dir) = true <->
                result (runCommand spawn compile dir w1) = Normal tt).
Proof.
  intros cli dir spawn w fqbn compile flash w'.
  destruct (upload_spawns_in_sequence cli dir spawn w) as (Hres & Hsp & Hok).
  split; [exact Hres |]. split; [exact Hsp |]. split; [apply upload_execs | exact Hok].
Qed.

Lemma upload_compiles_then_uploads_witness :
  spawned (events (after (upload "arduino-cli" "/home/me/sketch" compileFails
                            (demoWorld 0 None None))))
    = [("arduino-cli compile --fqbn arduino:avr:uno "
          ++ dquote ++ "/home/me/sketch" ++ dquote)%string] /\
  spawned (events (after (upload "arduino-cli" "/home/me/sketch" uploadFails
                            (demoWorld 0 None None))))
    = [("arduino-cli compile --fqbn arduino:avr:uno "
          ++ dquote ++ "/home/me/sketch" ++ dquote)%string;
       ("arduino-cli upload -p /dev/ttyACM0 --fqbn arduino:avr:uno "
          ++ dquote ++ "/home/me/sketch" ++ dquote)%string].
Proof.
  split.
  - exact (proj1 (proj2 (upload_compiles_then_uploads "arduino-cli" "/home/me/sketch"
                           compileFails (demoWorld 0 None None)))).
  - exact (proj1 (proj2 (upload_compiles_then_uploads "arduino-cli" "/home/me/sketch"
                           uploadFails (demoWorld 0 None None)))).
Defined.

(** ** The join of the library lists *)

Lemma sameValueZero_eq (a b : value) : sameValueZero a b = true -> a = b.
Proof.
  destruct a, b; simpl; intros H; try discriminate; try reflexivity.
  - apply Bool.eqb_prop in H. congruence.
  - apply Z.eqb_eq in H. congruence.
  - apply String.eqb_eq in H. congruence.
Qed.

(** [m.has(k)]: some entry of the map has key [k]. *)
Lemma mapHas_In (k : value) (m : JsMap) :
  mapHas k m = true <-> exists k' v, In (k', v) m /\ sameValueZero k' k = true.
Proof.
  induction m as [| [k0 v0] rest IH]; simpl.
  - split; [discriminate | intros (k' & v & [] & _)].
  - destruct (sameValueZero k0 k) eqn:E.
    + split; [intros _; exists k0, v0; auto | reflexivity].
    + rewrite IH. split.
      * intros (k' & v & Hin & Hk). exists k', v. auto.
      * intros (k' & v & [Heq | Hin] & Hk); [| eauto].
        inversion Heq; subst. congruence.
Qed.

(** [m.get(k)] is [undefined] when [k] is no key of the map, and otherwise
    the value recorded with it. *)
Lemma mapGet_absent (k : value) (m : JsMap) :
  mapHas k m = false -> mapGet k m = VUndefined.
Proof.
  induction m as [| [k0 v0] rest IH]; simpl; [reflexivity |].
  destruct (sameValueZero k0 k); [discriminate | exact IH].
Qed.

Lemma mapGet_present (k : value) (m : JsMap) :
  mapHas k m = true -> exists k', In (k', mapGet k m) m /\ sameValueZero k' k = true.
Proof.
  induction m as [| [k0 v0] rest IH]; simpl; [discriminate |].
  destruct (sameValueZero k0 k) eqn:E.
  - intros _. exists k0. auto.
  - intros H. destruct (IH H) as (k' & Hin & Hk). exists k'. auto.
Qed.

(** [m.set(k, v)] followed by [m.get(k')]. *)
Lemma mapGet_mapSet (k k' v : value) (m : JsMap) :
  mapGet k' (mapSet k v m) = if sameValueZero k k' then v else mapGet k' m.
Proof.
  induction m as [| [k0 v0] rest IH]; simpl; [reflexivity |].
  destruct (sameValueZero k0 k) eqn:E0; simpl.
  - apply sameValueZero_eq in E0. subst k0.
    destruct (sameValueZero k k'); reflexivity.
  - rewrite IH.
    destruct (sameValueZero k0 k') eqn:E1; [| reflexivity].
    destruct (sameValueZero k k') eqn:E2; [| reflexivity].
    pose proof E1 as E1'.
    apply sameValueZero_eq in E1, E2. subst. congruence.
Qed.

Lemma mapHas_mapSet (k k' v : value) (m : JsMap) :
  mapHas k' (mapSet k v m) = (sameValueZero k k' || mapHas k' m)%bool.
Proof.
  induction m as [| [k0 v0] rest IH]; simpl.
  - destruct (sameValueZero k k'); reflexivity.
  - destruct (sameValueZero k0 k) eqn:E0; simpl.
    + apply sameValueZero_eq in E0. subst k0.
      destruct (sameValueZero k k'); reflexivity.
    + rewrite IH. destruct (sameValueZero k0 k'); [apply eq_sym, orb_true_r | reflexivity].
Qed.


(** Which names the outdated map holds: an entry counts only when both its
    name and its release version are truthy. *)
Lemma collectOutdated_has (entries : list value) :
  forall (m0 m : JsMap) (k : value),
    collectOutdated entries m0 = Normal m ->
    mapHas k m = (mapHas k m0 || existsb (namesOutdated k) entries)%bool.
Proof.
  induction entries as [| libEntry rest IH]; intros m0 m k; simpl.
  - intros H. inversion H. symmetry. apply orb_false_r.
  - unfold namesOutdated.
    destruct (getProp libEntry "library") as [libInfo | e]; simpl; [| discriminate].
    destruct (getPropOpt libInfo "name") as [libName | e]; simpl; [| discriminate].
    destruct (getProp libEntry "release") as [release | e]; simpl; [| discriminate].
    destruct (getPropOpt release "version") as [latestVersion | e]; simpl; [| discriminate].
    destruct (truthy libName && truthy latestVersion)%bool; simpl; [| apply IH].
    intros H. rewrite (IH _ _ _ H), mapHas_mapSet.
    destruct (sameValueZero libName k), (mapHas k m0); reflexivity.
Qed.

Lemma fetchLibraries_success cli exec w available installed outdated :
  result (getAvailableLibrariesStreaming exec cli w) = Normal available ->
  result (getInstalledLibraries exec cli w) = Normal installed ->
  result (getOutdatedLibraries exec cli w) = Normal outdated ->
  result (fetchLibraries cli exec w) = Normal (joinLibraries available installed outdated).
Proof.
  rewrite getAvailableLibrariesStreaming_result, getInstalledLibraries_result,
    getOutdatedLibraries_result.
  intros Ha Hi Ho. inversion Ho as [Ho'].
  destruct (fetch_unfold cli exec Libraries w) as (w1 & _ & _ & _ & H).
  simpl in H. rewrite H, Hi, Ha. reflexivity.
Qed.

(** C7. The joined library list has one entry per search result, in order
    and under the same name; the entry's installed flag holds iff the name is
    a key of the installed list, its update-available flag holds iff the name
    is a key of the outdated list, and its latest version is the version the
    outdated list records for the name, absent when there is none. *)
Theorem libraries_are_joined_by_name :
  forall (cli : string) (exec : string -> ExecOutcome) (w : World)
         (availableLibs : list AvailableLib) (installedLibs outdatedLibs : JsMap),
    result (getAvailableLibrariesStreaming exec cli w) = Normal availableLibs ->
    result (getInstalledLibraries exec cli w) = Normal installedLibs ->
    result (getOutdatedLibraries exec cli w) = Normal outdatedLibs ->
    exists libraries,
      result (fetchLibraries cli exec w) = Normal libraries /\
      List.length libraries = List.length availableLibs /\
      forall (i : nat) (lib : AvailableLib),
        nth_error availableLibs i = Some lib ->
        exists entry,
          nth_error libraries i = Some entry /\
          propOf "name" entry = name lib /\
          propOf "version" entry = version lib /\
          (propOf "installed" entry = VBool true <->
           exists k v, In (k, v) installedLibs /\ sameValueZero k (name lib) = true) /\
          (propOf "installed" entry = VBool false <->
           ~ exists k v, In (k, v) installedLibs /\ sameValueZero k (name lib) = true) /\
          (propOf "hasUpdate" entry = VBool true <->
           exists k v, In (k, v) outdatedLibs /\ sameValueZero k (name lib) = true) /\
          (propOf "hasUpdate" entry = VBool false <->
           ~ exists k v, In (k, v) outdatedLibs /\ sameValueZero k (name lib) = true) /\
          propOf "latestVersion" entry = mapGet (name lib) outdatedLibs /\
          (propOf "hasUpdate" entry = VBool true ->
           exists k, In (k, propOf "latestVersion" entry) outdatedLibs /\
                     sameValueZero k (name lib) = true) /\
          (propOf "hasUpdate" entry = VBool false ->
           propOf "latestVersion" entry = VUndefined).
Proof.
  intros cli exec w availableLibs installedLibs outdatedLibs Ha Hi Ho.
  exists (joinLibraries availableLibs installedLibs outdatedLibs).
  split; [apply fetchLibraries_success; assumption |].
  split; [apply length_map |].
  intros i lib Hnth.
  exists (joinLibrary installedLibs outdatedLibs lib).
  split; [unfold joinLibraries; rewrite nth_error_map, Hnth; reflexivity |].
  unfold joinLibrary, mkLibrary, propOf; simpl.
  rewrite <- !mapHas_In.
  destruct (mapHas (name lib) installedLibs) eqn:Hin;
    destruct (mapHas (name lib) outdatedLibs) eqn:Hout;
    repeat split; try congruence; try discriminate;
    try (intros _; apply mapGet_present; assumption);
    try (intros _; apply mapGet_absent; assumption).
Qed.

Lemma libraries_are_joined_by_name_witness :
  result (fetchLibraries "arduino-cli" toolUp (demoWorld 0 None None))
    = Normal [mkLibrary (VStr "Servo") (VStr "1.2.2") true true (VStr "1.2.2");
              mkLibrary (VStr "Stepper") (VStr "1.1.3") false false VUndefined].
Proof.
  destruct (libraries_are_joined_by_name "arduino-cli" toolUp (demoWorld 0 None None)
              [mkAvailable (VStr "Servo") (VStr "1.2.2");
               mkAvailable (VStr "Stepper") (VStr "1.1.3")]
              [(VStr "Servo", VStr "1.2.1")] [(VStr "Servo", VStr "1.2.2")]
              eq_refl eq_refl eq_refl) as (libraries & H & _).
  reflexivity.
Defined.

(** ** Loading the configuration *)

Arguments saveConfig : simpl never.
Arguments createDefaultConfig : simpl never.

Lemma saveConfig_config (w : World) :
  result (saveConfig w) = Normal tt /\ config (after (saveConfig w)) = config w.
Proof.
  unfold saveConfig, getConfig; unfold_m; unfold_fs; simpl.
  destruct (dirs w WorkspaceDir) eqn:Hd; run;
    destruct (readOnly w) eqn:Hro; run; split; reflexivity.
Qed.

Lemma lookupProp_missing (field : string) (props : list (string * value)) :
  ~ In field (map fst props) -> lookupProp field props = VUndefined.
Proof.
  induction props as [| [k v] rest IH]; simpl; intros Hnot; [reflexivity |].
  destruct (field =? k)%string eqn:E.
  - apply String.eqb_eq in E. subst. exfalso. apply Hnot. left. reflexivity.
  - apply IH. intros Hin. apply Hnot. right. exact Hin.
Qed.

(** C9. Loading the project-local configuration file overrides a field
    (board, port, baudrate) only with a truthy loaded value; a field that is
    missing, the empty string or the number 0 leaves the value held before
    unchanged. *)
Theorem loadConfig_overrides_only_with_truthy_fields :
  forall (configFileName : string) (w : World) (f : File) (loaded : value),
    files w ConfigPath = Some f ->
    data f = Json loaded ->
    let c := config (after (loadConfig configFileName w)) in
    board c = (if truthy (propOf "board" loaded)
               then propOf "board" loaded else board (config w)) /\
    port c = (if truthy (propOf "port" loaded)
              then propOf "port" loaded else port (config w)) /\
    baudrate c = (if truthy (propOf "baudrate" loaded)
                  then propOf "baudrate" loaded else baudrate (config w)) /\
    (forall field : string,
       propOf field loaded = VUndefined \/
       propOf field loaded = VStr EmptyString \/
       propOf field loaded = VNum 0 ->
       truthy (propOf field loaded) = false) /\
    (forall (field : string) (props : list (string * value)),
       loaded = VObj props ->
       ~ In field (map fst props) ->
       propOf field loaded = VUndefined).
Proof.
  intros configFileName w f loaded Hf Hd c. subst c.
  assert (forall w1, config (after (createDefaultConfig w1)) = config w1) as Hcatch.
  { intros w1. unfold createDefaultConfig; unfold_m; unfold_fs; simpl.
    match goal with
    | |- context [saveConfig ?w2] =>
        destruct (saveConfig_config w2) as [Hr Hc];
        unfold result, after in *; destruct (saveConfig w2) as [[[]|e'] w3];
        simpl in *; try discriminate; exact Hc
    end. }
  split; [| split; [| split; [| split]]].
  4: { intros field [-> | [-> | ->]]; reflexivity. }
  4: { intros field props -> Hnot. unfold propOf; simpl.
       apply lookupProp_missing, Hnot. }
  all: unfold loadConfig; unfold_m; unfold_fs; run; unfold propOf, js_or;
    destruct loaded as [| | b | n | s | l | ps]; simpl;
    try (unfold after in *; rewrite Hcatch; simpl; reflexivity);
    try reflexivity.
  all: repeat match goal with
         | |- context [if truthy ?v then _ else _] => destruct (truthy v)
         end; reflexivity.
Qed.

Lemma loadConfig_overrides_only_with_truthy_fields_witness :
  config (after (loadConfig ".arduino_config.json"
                   (mkWorld 0
                      (fun p => match p with
                                | ConfigPath =>
                                    Some (mkFile 0 (Json (VObj [("board", VStr "esp32:esp32:esp32");
                                                                ("port", VStr EmptyString);
                                                                ("baudrate", VNum 0)])))
                                | _ => None
                                end)
                      (fun _ => true) false demoConfig [])))
    = mkConfig (VStr "esp32:esp32:esp32") (VStr "/dev/ttyACM0") (VNum 115200).
Proof.
  pose proof (loadConfig_overrides_only_with_truthy_fields ".arduino_config.json"
                (mkWorld 0
                   (fun p => match p with
                             | ConfigPath =>
                                 Some (mkFile 0 (Json (VObj [("board", VStr "esp32:esp32:esp32");
                                                             ("port", VStr EmptyString);
                                                             ("baudrate", VNum 0)])))
                             | _ => None
                             end)
                   (fun _ => true) false demoConfig [])
                _ _ eq_refl eq_refl) as H.
  reflexivity.
Defined.

(** ** The outdated-libraries query *)

(** C10. A failure of the outdated-libraries query never propagates: the
    query resolves to the empty map, the fetch goes on without showing an
    error or entering its fallback, and every joined library has its
    update-available flag false and no latest version.  A failure of the
    installed-list or of the search query (the command errors, or its output
    is not JSON) does reject, with that error, and the fetch then runs its
    fallback: with the error of the installed-list query when that one
    fails, with the error of the search query when only that one fails. *)
Theorem outdated_query_failure_is_absorbed :
  forall (cli : string) (exec : string -> ExecOutcome) (w : World),
    (exists outdated, result (getOutdatedLibraries exec cli w) = Normal outdated) /\
    (outdatedQueryFails cli exec ->
       result (getOutdatedLibraries exec cli w) = Normal [] /\
       forall available installed,
         result (getAvailableLibrariesStreaming exec cli w) = Normal available ->
         result (getInstalledLibraries exec cli w) = Normal installed ->
         result (fetchLibraries cli exec w) = Normal (joinLibraries available installed []) /\
         errorsShown (events (after (fetchLibraries cli exec w))) = errorsShown (events w) /\
         Forall (fun entry => propOf "hasUpdate" entry = VBool false /\
                              propOf "latestVersion" entry = VUndefined)
                (joinLibraries available installed [])) /\
    (forall e,
       queryFailure (exec (cli ++ " lib list --format json")) = Some e ->
       result (getInstalledLibraries exec cli w) = Throw e /\
       fetchFallsBack cli exec w e) /\
    (forall e,
       queryFailure (exec (cli ++ " lib search --format json")) = Some e ->
       result (getAvailableLibrariesStreaming exec cli w) = Throw e /\
       exists e',
         fetchFallsBack cli exec w e' /\
         (e' = e \/ result (getInstalledLibraries exec cli w) = Throw e')).
Proof.
  intros cli exec w.
  assert (forall e, liveOutcome cli exec Libraries = Throw e -> fetchFallsBack cli exec w e)
    as Hfall.
  { intros e He.
    destruct (fetch_unfold cli exec Libraries w) as (w1 & Hs & _ & _ & H).
    rewrite He in H. simpl fetch in H. exists w1.
    split; [exact Hs |]. split; [exact H |].
    rewrite H. unfold fallback, showErrorMessage, showInformationMessage, tell, bind, ret; simpl.
    set (w2 := emit _ w1).
    destruct (loadCache_events Libraries w2) as (shown & Hev & _). simpl in Hev.
    unfold after in *.
    destruct (loadFromCache w2) as [[[l|]|e'] w']; simpl in *;
      rewrite Hev; subst w2; simpl; rewrite !errorsShown_app; simpl;
      rewrite ?in_app_iff; simpl; tauto. }
  split; [rewrite getOutdatedLibraries_result; eauto |].
  split; [| split].
  - intros Hfail.
    assert (outdatedOutcome cli exec = []) as Hout.
    { unfold outdatedQueryFails in Hfail. unfold outdatedOutcome.
      destruct (execResult (exec _)) as [[raw | v] | e]; simpl; tauto. }
    rewrite getOutdatedLibraries_result, Hout.
    split; [reflexivity |].
    intros available installed Ha Hi.
    split; [| split].
    + apply fetchLibraries_success; try assumption.
      rewrite getOutdatedLibraries_result, Hout. reflexivity.
    + rewrite getAvailableLibrariesStreaming_result in Ha.
      rewrite getInstalledLibraries_result in Hi.
      destruct (fetch_unfold cli exec Libraries w) as (w1 & _ & _ & (shown & Hev & Hno) & H).
      simpl in H. rewrite H, Hi, Ha. simpl.
      match goal with
      | |- context [saveToCache ?l w1] =>
          destruct (save_events Libraries l w1) as (shown' & Hev' & Hno')
      end.
      simpl in Hev'. unfold after in *. rewrite Hev', Hev, !errorsShown_app, Hno, Hno'.
      rewrite !app_nil_r. reflexivity.
    + unfold joinLibraries. apply Forall_map, Forall_forall. intros lib _.
      split; reflexivity.
  - intros e He.
    assert (installedOutcome cli exec = Throw e) as Hi.
    { unfold queryFailure in He. unfold installedOutcome.
      destruct (execResult (exec _)) as [[raw | v] | e0]; simpl in *;
        [injection He as <-; reflexivity | discriminate | injection He as <-; reflexivity]. }
    split; [rewrite getInstalledLibraries_result; exact Hi |].
    apply Hfall. simpl. rewrite Hi. reflexivity.
  - intros e He.
    assert (availableOutcome cli exec = Throw e) as Ha.
    { unfold queryFailure in He. unfold availableOutcome.
      destruct (execResult (exec _)) as [[raw | v] | e0]; simpl in *;
        [injection He as <-; reflexivity | discriminate | injection He as <-; reflexivity]. }
    split; [rewrite getAvailableLibrariesStreaming_result; exact Ha |].
    destruct (installedOutcome cli exec) as [installed | e'] eqn:Hi.
    + exists e. split; [| left; reflexivity].
      apply Hfall. simpl. rewrite Hi, Ha. reflexivity.
    + exists e'. split; [| right; rewrite getInstalledLibraries_result; exact Hi].
      apply Hfall. simpl. rewrite Hi. reflexivity.
Qed.

Lemma outdated_query_failure_is_absorbed_witness :
  result (fetchLibraries "arduino-cli" toolWithoutOutdated (demoWorld 0 None None))
    = Normal [mkLibrary (VStr "Servo") (VStr "1.2.2") true false VUndefined;
              mkLibrary (VStr "Stepper") (VStr "1.1.3") false false VUndefined] /\
  (result (getInstalledLibraries toolDown "arduino-cli" (demoWorld 0 None None))
     = Throw (Error "Command failed: arduino-cli: not found") /\
   fetchFallsBack "arduino-cli" toolDown (demoWorld 0 None None)
     (Error "Command failed: arduino-cli: not found")) /\
  result (getAvailableLibrariesStreaming toolWithoutSearch "arduino-cli"
            (demoWorld 0 None None))
    = Throw (SyntaxError "Unexpected token in JSON").
Proof.
  split; [| split].
  - refine (proj1 (proj2 (proj1 (proj2 (outdated_query_failure_is_absorbed "arduino-cli"
              toolWithoutOutdated (demoWorld 0 None None))) I)
              [mkAvailable (VStr "Servo") (VStr "1.2.2");
               mkAvailable (VStr "Stepper") (VStr "1.1.3")]
              [(VStr "Servo", VStr "1.2.1")] eq_refl eq_refl)).
  - exact (proj1 (proj2 (proj2 (outdated_query_failure_is_absorbed "arduino-cli" toolDown
                                  (demoWorld 0 None None))))
             (Error "Command failed: arduino-cli: not found") eq_refl).
  - exact (proj1 (proj2 (proj2 (proj2 (outdated_query_failure_is_absorbed "arduino-cli"
                                         toolWithoutSearch (demoWorld 0 None None))))
                    (SyntaxError "Unexpected token in JSON") eq_refl)).
Defined.

(** ** The configuration store *)

Lemma saveConfig_writable (w : World) :
  readOnly w = false ->
  saveConfig w =
    (Normal tt,
     setFiles (updFile ConfigPath (Some (configFileOf (config w) (now w))) (files w))
       (if dirs w WorkspaceDir then w else setDirs (updDir WorkspaceDir true (dirs w)) w)).
Proof.
  intros Hro. unfold saveConfig, getConfig; unfold_m; unfold_fs; simpl.
  destruct (dirs w WorkspaceDir) eqn:Hd; run; reflexivity.
Qed.

Lemma saveConfig_readOnly (w : World) :
  readOnly w = true ->
  exists e,
    saveConfig w = (Normal tt, emit (ErrorMsg ("Error saving config: " ++ errToString e)) w).
Proof.
  intros Hro. unfold saveConfig, getConfig; unfold_m; unfold_fs; simpl.
  destruct (dirs w WorkspaceDir) eqn:Hd; run; eexists; reflexivity.
Qed.

Lemma createDefaultConfig_unfold (w : World) :
  createDefaultConfig w =
    saveConfig (emit (InfoMsg "Config file not found. Creating with default settings.") w).
Proof. reflexivity. Qed.

Lemma createDefaultConfig_resolves (w : World) :
  exists w', createDefaultConfig w = (Normal tt, w').
Proof.
  rewrite createDefaultConfig_unfold.
  match goal with
  | |- context [saveConfig ?w1] =>
      destruct (saveConfig_config w1) as [Hr _]; unfold result in Hr;
      destruct (saveConfig w1) as [r w']; simpl in Hr; subst r; eauto
  end.
Qed.

Ltac default_config :=
  match goal with
  | |- context [createDefaultConfig ?w1] =>
      let w' := fresh "w'" in
      let H := fresh "H" in
      destruct (createDefaultConfig_resolves w1) as [w' H]; rewrite H
  end.

(** What [loadConfig] makes of each state of the project file. *)
Lemma loadConfig_unfold (configFileName : string) (w : World) :
  loadConfig configFileName w =
    match files w ConfigPath with
    | None => createDefaultConfig w
    | Some f =>
        match data f with
        | Garbled raw =>
            createDefaultConfig
              (emit (ErrorMsg ("Error loading config: "
                                 ++ errToString (SyntaxError "Unexpected token in JSON"))) w)
        | Json loaded =>
            match getProp loaded "board" with
            | Throw e =>
                createDefaultConfig
                  (emit (ErrorMsg ("Error loading config: " ++ errToString e)) w)
            | Normal _ =>
                (Normal tt,
                 emit (InfoMsg ("Config loaded from: " ++ configFileName))
                   (setConfig (overridden loaded (config w)) w))
            end
        end
    end.
Proof.
  unfold loadConfig; unfold_m; unfold_fs; simpl.
  destruct (files w ConfigPath) as [f|] eqn:Hf; run.
  - destruct (data f) as [raw | loaded] eqn:Hd; run.
    + reflexivity.
    + destruct loaded as [| | b | n | s | l | ps]; reflexivity.
  - default_config. reflexivity.
Qed.

Arguments readBack : simpl never.

Lemma jsonView_obj (ps : list (string * value)) :
  jsonView (VObj ps) = VObj (jsonProps ps).
Proof. reflexivity. Qed.

Lemma jsonProps_cons (k : string) (x : value) (rest : list (string * value)) :
  jsonProps ((k, x) :: rest) =
    match x with
    | VUndefined => jsonProps rest
    | _ => (k, jsonView x) :: jsonProps rest
    end.
Proof. destruct x; reflexivity. Qed.

Lemma jsonProps_keys (k : string) (ps : list (string * value)) :
  In k (map fst (jsonProps ps)) -> In k (map fst ps).
Proof.
  induction ps as [| [k0 x] rest IH]; [intros H; exact H |].
  rewrite jsonProps_cons.
  destruct x; simpl; intros H; try (destruct H as [H | H]; [left; exact H |]);
    right; apply IH; exact H.
Qed.

(** Reading a property back from what [JSON.stringify] wrote: an
    [undefined] property is gone, any other is there in its JSON form. *)
Lemma lookupProp_jsonProps (k : string) (ps : list (string * value)) :
  NoDup (map fst ps) ->
  lookupProp k (jsonProps ps) = readBack (lookupProp k ps).
Proof.
  induction ps as [| [k0 x] rest IH]; intros Hnd; [reflexivity |].
  inversion Hnd as [| ? ? Hnotin Hnd']; subst.
  rewrite jsonProps_cons. simpl lookupProp at 2.
  destruct (k =? k0)%string eqn:E.
  - apply String.eqb_eq in E. subst k0.
    assert (lookupProp k (jsonProps rest) = VUndefined) as Hgone.
    { apply lookupProp_missing. intros Hin. apply Hnotin, jsonProps_keys, Hin. }
    destruct x; simpl; rewrite ?String.eqb_refl; try reflexivity. exact Hgone.
  - destruct x; simpl; rewrite ?E; apply IH; exact Hnd'.
Qed.

Lemma js_or_same (v : value) : js_or v v = v.
Proof. unfold js_or. destruct (truthy v); reflexivity. Qed.

Lemma readBack_stable (x : value) : jsonView x = x -> readBack x = x.
Proof. intros H. destruct x; try exact H; reflexivity. Qed.

(** The fields of a saved configuration, read back. *)
Lemma propOf_saved_config (c : ArduinoConfig) :
  jsonView (board c) = board c ->
  jsonView (port c) = port c ->
  jsonView (baudrate c) = baudrate c ->
  propOf "board" (jsonView (configToValue c)) = board c /\
  propOf "port" (jsonView (configToValue c)) = port c /\
  propOf "baudrate" (jsonView (configToValue c)) = baudrate c.
Proof.
  intros Hb Hp Hr. unfold configToValue. rewrite jsonView_obj. unfold propOf, getProp.
  assert (NoDup (map fst [("board", board c); ("port", port c); ("baudrate", baudrate c)]))
    as Hnd.
  { simpl. repeat constructor; simpl; intuition discriminate. }
  rewrite !lookupProp_jsonProps by exact Hnd. simpl.
  repeat split; f_equal; apply readBack_stable; assumption.
Qed.

Lemma config_eta (c : ArduinoConfig) : mkConfig (board c) (port c) (baudrate c) = c.
Proof. destruct c; reflexivity. Qed.

(** X1. [loadConfig] never fails, whatever the configuration in memory and
    whatever the project file holds (absent, unparseable, or any JSON); and
    a field that is truthy before the call is truthy after it. *)
Theorem loadConfig_keeps_fields_truthy :
  forall (configFileName : string) (w : World),
    let c := config w in
    let c' := config (after (loadConfig configFileName w)) in
    result (loadConfig configFileName w) = Normal tt /\
    (truthy (board c) = true -> truthy (board c') = true) /\
    (truthy (port c) = true -> truthy (port c') = true) /\
    (truthy (baudrate c) = true -> truthy (baudrate c') = true).
Proof.
  intros name w c c'. subst c c'.
  assert (forall w1, config w1 = config w ->
                     result (createDefaultConfig w1) = Normal tt /\
                     config (after (createDefaultConfig w1)) = config w) as Hdef.
  { intros w1 Hc. rewrite createDefaultConfig_unfold.
    match goal with
    | |- context [saveConfig ?w2] => destruct (saveConfig_config w2) as [Hr Hcfg]
    end.
    split; [exact Hr |]. rewrite Hcfg. exact Hc. }
  assert (forall w1, config w1 = config w ->
                     result (createDefaultConfig w1) = Normal tt /\
                     (truthy (board (config w)) = true ->
                      truthy (board (config (after (createDefaultConfig w1)))) = true) /\
                     (truthy (port (config w)) = true ->
                      truthy (port (config (after (createDefaultConfig w1)))) = true) /\
                     (truthy (baudrate (config w)) = true ->
                      truthy (baudrate (config (after (createDefaultConfig w1)))) = true))
    as Hkeep.
  { intros w1 Hc. destruct (Hdef w1 Hc) as [Hr ->]. auto. }
  rewrite loadConfig_unfold.
  destruct (files w ConfigPath) as [f|]; [| apply Hkeep; reflexivity].
  destruct (data f) as [raw | loaded]; [apply Hkeep; reflexivity |].
  destruct (getProp loaded "board") as [b | e]; [| apply Hkeep; reflexivity].
  split; [reflexivity |].
  unfold after, overridden, js_or; simpl.
  destruct (truthy (propOf "board" loaded)) eqn:E1;
    destruct (truthy (propOf "port" loaded)) eqn:E2;
    destruct (truthy (propOf "baudrate" loaded)) eqn:E3; auto.
Qed.

Lemma loadConfig_keeps_fields_truthy_witness :
  truthy (baudrate (config (after (loadConfig ".arduino_config.json"
                                     (mkWorld 0
                                        (fun p =>
                                           match p with
                                           | ConfigPath =>
                                               Some (mkFile 0 (Json (VObj [("baudrate", VNum 0)])))
                                           | _ => None
                                           end)
                                        (fun _ => true) false demoConfig []))))) = true.
Proof.
  apply (proj2 (proj2 (proj2
           (loadConfig_keeps_fields_truthy ".arduino_config.json"
              (mkWorld 0
                 (fun p => match p with
                           | ConfigPath => Some (mkFile 0 (Json (VObj [("baudrate", VNum 0)])))
                           | _ => None
                           end)
                 (fun _ => true) false demoConfig []))))).
  reflexivity.
Defined.

(** X2. What [saveConfig] writes, [loadConfig] restores: over the same
    configuration the load changes nothing, and over any other one (a later
    session started from other defaults) it restores the saved one when all
    its fields are truthy. *)
Theorem saved_config_is_restored :
  forall (configFileName : string) (w w2 : World),
    readOnly w = false ->
    jsonView (board (config w)) = board (config w) ->
    jsonView (port (config w)) = port (config w) ->
    jsonView (baudrate (config w)) = baudrate (config w) ->
    files w2 ConfigPath = files (after (saveConfig w)) ConfigPath ->
    allTruthy (config w) = true \/ config w2 = config w ->
    config (after (loadConfig configFileName w2)) = config w.
Proof.
  intros name w w2 Hro Hb Hp Hr Hfile Hcase.
  rewrite (saveConfig_writable w Hro) in Hfile.
  unfold after, setFiles, updFile in Hfile. cbn [snd files path_eqb] in Hfile.
  rewrite loadConfig_unfold, Hfile. unfold configFileOf, JSON_stringify. cbn [data].
  destruct (propOf_saved_config (config w) Hb Hp Hr) as (Eb & Ep & Er).
  assert (exists b, getProp (jsonView (configToValue (config w))) "board" = Normal b) as [b Hget]
    by (unfold configToValue; rewrite jsonView_obj; simpl; eauto).
  rewrite Hget. unfold after, emit, setConfig. cbn [snd config].
  unfold overridden. rewrite Eb, Ep, Er.
  destruct Hcase as [Hall | Hsame].
  - unfold allTruthy in Hall.
    apply andb_true_iff in Hall. destruct Hall as [Hall Ht3].
    apply andb_true_iff in Hall. destruct Hall as [Ht1 Ht2].
    unfold js_or. rewrite Ht1, Ht2, Ht3. apply config_eta.
  - rewrite Hsame, !js_or_same. apply config_eta.
Qed.

Lemma saved_config_is_restored_witness :
  config (after (loadConfig ".arduino_config.json"
                   (setConfig (mkConfig (VStr "arduino:avr:uno") (VStr "COM3") (VNum 9600))
                      (after (saveConfig (demoWorld 0 None None))))))
    = demoConfig.
Proof.
  apply (saved_config_is_restored ".arduino_config.json" (demoWorld 0 None None)
           (setConfig (mkConfig (VStr "arduino:avr:uno") (VStr "COM3") (VNum 9600))
              (after (saveConfig (demoWorld 0 None None))))
           eq_refl eq_refl eq_refl eq_refl eq_refl).
  left. reflexivity.
Defined.

(** X3. A project file that cannot be used (it is not JSON, or it is the
    JSON [null]) never makes [loadConfig] fail and leaves the configuration
    held in memory as it was; one error notification names what went wrong
    with the file.  On a writable store the file is overwritten with that
    configuration; on a store that cannot be written the file stays as it
    was and a second error notification reports the failed save. *)
Theorem unreadable_config_is_overwritten :
  forall (configFileName : string) (w : World) (f : File),
    files w ConfigPath = Some f ->
    unreadableConfig f = true ->
    let w' := after (loadConfig configFileName w) in
    result (loadConfig configFileName w) = Normal tt /\
    config w' = config w /\
    exists e,
      cbind (JSON_parse (data f)) (fun loaded => getProp loaded "board") = Throw e /\
      (readOnly w = false ->
       files w' ConfigPath = Some (configFileOf (config w) (now w)) /\
       errorsShown (events w')
         = (errorsShown (events w)
              ++ [("Error loading config: " ++ errToString e)%string])%list) /\
      (readOnly w = true ->
       files w' = files w /\
       exists e',
         errorsShown (events w')
           = (errorsShown (events w)
                ++ [("Error loading config: " ++ errToString e)%string;
                    ("Error saving config: " ++ errToString e')%string])%list).
Proof.
  intros name w f Hf Hbad w'. subst w'.
  rewrite loadConfig_unfold, Hf. unfold unreadableConfig in Hbad.
  assert (forall e,
             let w1 := emit (ErrorMsg ("Error loading config: " ++ errToString e)) w in
             result (createDefaultConfig w1) = Normal tt /\
             config (after (createDefaultConfig w1)) = config w /\
             (readOnly w = false ->
              files (after (createDefaultConfig w1)) ConfigPath
                = Some (configFileOf (config w) (now w)) /\
              errorsShown (events (after (createDefaultConfig w1)))
                = (errorsShown (events w)
                     ++ [("Error loading config: " ++ errToString e)%string])%list) /\
             (readOnly w = true ->
              files (after (createDefaultConfig w1)) = files w /\
              exists e',
                errorsShown (events (after (createDefaultConfig w1)))
                  = (errorsShown (events w)
                       ++ [("Error loading config: " ++ errToString e)%string;
                           ("Error saving config: " ++ errToString e')%string])%list))
    as Hdef.
  { intros e w1. subst w1. rewrite createDefaultConfig_unfold.
    match goal with
    | |- context [saveConfig ?w2] => destruct (saveConfig_config w2) as [Hr Hcfg]
    end.
    split; [exact Hr |]. split; [rewrite Hcfg; reflexivity |]. split; intros Hro.
    - rewrite saveConfig_writable by exact Hro. unfold after; simpl.
      destruct (dirs w WorkspaceDir); simpl; (split; [reflexivity |]);
        rewrite !errorsShown_app; simpl; rewrite app_nil_r; reflexivity.
    - match goal with
      | |- context [saveConfig ?w2] =>
          destruct (saveConfig_readOnly w2) as [e' ->]; [exact Hro |]
      end.
      unfold after; simpl. split; [reflexivity |]. exists e'.
      rewrite !errorsShown_app; simpl. rewrite app_nil_r, <- app_assoc. reflexivity. }
  destruct (data f) as [raw | loaded].
  - destruct (Hdef (SyntaxError "Unexpected token in JSON")) as (H1 & H2 & H3 & H4).
    split; [exact H1 |]. split; [exact H2 |]. eexists. split; [reflexivity |].
    split; assumption.
  - destruct loaded; try discriminate; simpl getProp; cbv iota;
      match goal with
      | |- context [errToString ?e] =>
          destruct (Hdef e) as (H1 & H2 & H3 & H4);
          (split; [exact H1 |]); (split; [exact H2 |]);
          exists e; (split; [reflexivity |]); split; assumption
      end.
Qed.

Lemma unreadable_config_is_overwritten_witness :
  let garbled := fun p => match p with
                          | ConfigPath => Some (mkFile 0 (Garbled "{ board: "))
                          | _ => None
                          end in
  let w := mkWorld 5000 garbled (fun _ => true) false demoConfig [] in
  let locked := mkWorld 5000 garbled (fun _ => true) true demoConfig [] in
  files (after (loadConfig ".arduino_config.json" w)) ConfigPath
    = Some (configFileOf demoConfig 5000) /\
  files (after (loadConfig ".arduino_config.json" locked)) = garbled.
Proof.
  intros garbled w locked.
  destruct (unreadable_config_is_overwritten ".arduino_config.json" w
              (mkFile 0 (Garbled "{ board: ")) eq_refl eq_refl)
    as (_ & _ & e & _ & Hw & _).
  destruct (unreadable_config_is_overwritten ".arduino_config.json" locked
              (mkFile 0 (Garbled "{ board: ")) eq_refl eq_refl)
    as (_ & _ & e' & _ & _ & Hl).
  split; [exact (proj1 (Hw eq_refl)) | exact (proj1 (Hl eq_refl))].
Defined.

Lemma trimEnd_idempotent (s : string) : trimEnd (trimEnd s) = trimEnd s.
Proof.
  induction s as [| c r IH]; [reflexivity |].
  simpl. destruct (trimEnd r) as [| d r'] eqn:E.
  - destruct (isWhite c) eqn:Hc; simpl; [reflexivity | rewrite Hc; reflexivity].
  - change (trimEnd (String c (String d r'))) with
      (match trimEnd (String d r') with
       | EmptyString => if isWhite c then EmptyString else String c EmptyString
       | rest' => String c rest'
       end).
    rewrite IH. reflexivity.
Qed.

Lemma trimStart_head (s : string) :
  trimStart s = EmptyString \/
  exists c r, trimStart s = String c r /\ isWhite c = false.
Proof.
  induction s as [| c r IH]; [left; reflexivity |].
  simpl. destruct (isWhite c) eqn:Hc; [exact IH | right; eauto].
Qed.

Lemma trimEnd_head (c : ascii) (r : string) :
  isWhite c = false -> exists r', trimEnd (String c r) = String c r'.
Proof.
  intros Hc. simpl. destruct (trimEnd r); [rewrite Hc |]; eauto.
Qed.

(** Trimming removes all the white space at both ends: trimming again
    changes nothing. *)
Lemma trim_idempotent (s : string) : trim (trim s) = trim s.
Proof.
  unfold trim. destruct (trimStart_head s) as [E | (c & r & E & Hc)]; rewrite E.
  - reflexivity.
  - destruct (trimEnd_head c r Hc) as [r' E'].
    rewrite E'. simpl trimStart. rewrite Hc, <- E'. apply trimEnd_idempotent.
Qed.

(** X4. Every setter changes the configuration in memory and rewrites the
    project file with it at once; the board and the port are stored trimmed,
    so that trimming them again changes nothing. *)
Theorem setters_persist_at_once :
  forall (w : World) (s : string) (v : value),
    readOnly w = false ->
    let c := config w in
    let stored (set : M unit) (c' : ArduinoConfig) :=
      result (set w) = Normal tt /\
      config (after (set w)) = c' /\
      files (after (set w)) ConfigPath = Some (configFileOf c' (now w)) in
    stored (setBoard (VStr s)) (mkConfig (VStr (trim s)) (port c) (baudrate c)) /\
    stored (setPort (VStr s)) (mkConfig (board c) (VStr (trim s)) (baudrate c)) /\
    stored (setBaudrate v) (mkConfig (board c) (port c) v) /\
    trim (trim s) = trim s.
Proof.
  intros w s v Hro c stored. subst stored c.
  assert (forall c', readOnly (setConfig c' w) = false) as Hro' by (intros; exact Hro).
  repeat split; try apply trim_idempotent;
    unfold setBoard, setPort, setBaudrate, modifyConfig, showInformationMessage, tell;
    unfold_m; simpl;
    rewrite saveConfig_writable by apply Hro'; simpl;
    destruct (dirs w WorkspaceDir); reflexivity.
Qed.

Lemma setters_persist_at_once_witness :
  config (after (setBoard (VStr "  esp32:esp32:esp32 ") (demoWorld 0 None None)))
    = mkConfig (VStr "esp32:esp32:esp32") (VStr "/dev/ttyACM0") (VNum 115200).
Proof.
  exact (proj1 (proj2 (proj1 (setters_persist_at_once (demoWorld 0 None None)
                                "  esp32:esp32:esp32 " VNull eq_refl)))).
Defined.

(** X5. On a first start, with no project file, the configuration is the
    default settings and the project file is created holding them. *)
Theorem first_start_creates_the_project_file :
  forall (configFileName : string) (defaultBoard defaultPort defaultBaudrate : value)
         (w : World),
    files w ConfigPath = None ->
    readOnly w = false ->
    let start := newConfigManager configFileName defaultBoard defaultPort defaultBaudrate in
    let defaults := mkConfig defaultBoard defaultPort defaultBaudrate in
    result (start w) = Normal tt /\
    config (after (start w)) = defaults /\
    files (after (start w)) ConfigPath = Some (configFileOf defaults (now w)) /\
    errorsShown (events (after (start w))) = errorsShown (events w).
Proof.
  intros name db dp dr w Hnone Hro start defaults. subst start defaults.
  unfold newConfigManager, modifyConfig; unfold_m; simpl.
  rewrite loadConfig_unfold. simpl files. rewrite Hnone.
  rewrite createDefaultConfig_unfold, saveConfig_writable by exact Hro.
  unfold result, after; simpl.
  destruct (dirs w WorkspaceDir); simpl; repeat split;
    rewrite !errorsShown_app; simpl; apply app_nil_r.
Qed.

Lemma first_start_creates_the_project_file_witness :
  files (after (newConfigManager ".arduino_config.json"
                  (VStr "arduino:avr:uno") (VStr "/dev/ttyACM0") (VNum 115200)
                  (demoWorld 7 None None))) ConfigPath
    = Some (configFileOf demoConfig 7).
Proof.
  exact (proj1 (proj2 (proj2 (first_start_creates_the_project_file ".arduino_config.json"
                                (VStr "arduino:avr:uno") (VStr "/dev/ttyACM0") (VNum 115200)
                                (demoWorld 7 None None) eq_refl eq_refl)))).
Defined.

(** ** The cache, written and read back *)

Lemma liveFetchYields_outcome cli exec k w l :
  liveFetchYields cli exec k w l <-> liveOutcome cli exec k = Normal l.
Proof.
  destruct k; simpl.
  - rewrite getAvailableBoardsStreaming_result. tauto.
  - split.
    + intros (av & inst & outd & Hi & Ho & Ha & ->).
      rewrite getInstalledLibraries_result in Hi.
      rewrite getOutdatedLibraries_result in Ho.
      rewrite getAvailableLibrariesStreaming_result in Ha.
      rewrite Hi, Ha. simpl. inversion Ho. reflexivity.
    + intros H. rewrite getInstalledLibraries_result, getOutdatedLibraries_result,
        getAvailableLibrariesStreaming_result.
      destruct (installedOutcome cli exec) as [inst | e]; simpl in H; [| discriminate].
      destruct (availableOutcome cli exec) as [av | e]; simpl in H; [| discriminate].
      inversion H. exists av, inst, (outdatedOutcome cli exec). auto.
Qed.

Lemma save_writable k l w :
  readOnly w = false ->
  save k l w =
    (Normal tt,
     setFiles (updFile (cachePath k) (Some (cacheFileOf k l (now w))) (files w))
       (if dirs w StorageDir then w else setDirs (updDir StorageDir true (dirs w)) w)).
Proof.
  intros Hro. destruct k; simpl; unfold saveBoardsToCache, saveToCache;
    unfold_m; unfold_fs; simpl;
    destruct (dirs w StorageDir) eqn:Hd; run; reflexivity.
Qed.

Lemma save_readOnly k l w :
  readOnly w = true ->
  exists label e, save k l w = (Normal tt, emit (ConsoleError label e) w).
Proof.
  intros Hro. destruct k; simpl; unfold saveBoardsToCache, saveToCache;
    unfold_m; unfold_fs; simpl;
    destruct (dirs w StorageDir) eqn:Hd; run; eexists; eexists; reflexivity.
Qed.

(** A listing whose first step misses and whose live fetch succeeds. *)
Lemma getList_fetched cli exec k w l :
  result (loadCache k w) = Normal None ->
  liveFetchYields cli exec k w l ->
  exists w1,
    sameStore w w1 /\
    (exists shown, events w1 = (events w ++ shown)%list /\ errorsShown shown = []) /\
    getList cli exec k w = (Normal l, after (save k l w1)).
Proof.
  intros Hmiss Hlive. apply liveFetchYields_outcome in Hlive.
  rewrite getList_unfold.
  destruct (loadCache_store k w) as [Hs0 _].
  destruct (loadCache_events k w) as (shown0 & Hev0 & Hno0).
  unfold result, after in *.
  destruct (loadCache k w) as [[[l0|]|e] w0]; simpl in *; try discriminate.
  destruct (fetch_unfold cli exec k w0) as (w1 & Hs1 & _ & (shown1 & Hev1 & Hno1) & H).
  rewrite Hlive in H. exists w1.
  split; [apply sameStore_trans with w0; assumption |].
  split; [| exact H].
  exists (shown0 ++ shown1)%list. rewrite Hev1, Hev0, app_assoc, errorsShown_app, Hno0, Hno1.
  split; reflexivity.
Qed.



Lemma jsonView_isJson : forall v : value, isJson v = true -> jsonView v = v.
Proof.
  fix IH 1. intros [| | b | n | s | l | ps] H; try reflexivity; try discriminate.
  - simpl in *. f_equal.
    revert H. induction l as [| x l IHl]; intros H; [reflexivity |].
    simpl in *. apply andb_true_iff in H. destruct H as [Hx Hl].
    rewrite (IHl Hl). f_equal.
    pose proof (IH x Hx) as IHx.
    destruct x; try discriminate Hx; try reflexivity; exact IHx.
  - simpl in *. f_equal.
    revert H. induction ps as [| [k x] ps IHps]; intros H; [reflexivity |].
    simpl in *. apply andb_true_iff in H. destruct H as [Hx Hps].
    rewrite (IHps Hps).
    pose proof (IH x Hx) as IHx.
    destruct x; try discriminate Hx; try reflexivity; f_equal; f_equal; exact IHx.
Qed.

Lemma jsonElem_isJson (x : value) : isJson x = true -> jsonElem x = x.
Proof. intros H. destruct x; try discriminate; apply jsonView_isJson; exact H. Qed.

Lemma readBack_jsonOrUndefined (x : value) : jsonOrUndefined x = true -> readBack x = x.
Proof. intros H. destruct x; try reflexivity; apply jsonView_isJson; exact H. Qed.

Lemma isJson_lookupProp (k : string) (ps : list (string * value)) :
  forallb (fun kv => isJson (snd kv)) ps = true ->
  jsonOrUndefined (lookupProp k ps) = true.
Proof.
  induction ps as [| [k0 x] ps IH]; simpl; intros H; [reflexivity |].
  apply andb_true_iff in H. destruct H as [Hx Hps].
  destruct (k =? k0)%string; [| apply IH; exact Hps].
  destruct x; try discriminate; exact Hx.
Qed.

Lemma isJson_getProp (v x : value) (k : string) :
  jsonOrUndefined v = true -> getProp v k = Normal x -> jsonOrUndefined x = true.
Proof.
  destruct v; simpl; intros H E; inversion E; subst; try reflexivity.
  apply isJson_lookupProp. exact H.
Qed.

Lemma isJson_getPropOpt (v x : value) (k : string) :
  jsonOrUndefined v = true -> getPropOpt v k = Normal x -> jsonOrUndefined x = true.
Proof.
  destruct v; simpl; intros H E; inversion E; subst; try reflexivity.
  apply isJson_lookupProp. exact H.
Qed.

Lemma truthy_json (x : value) : jsonOrUndefined x = true -> truthy x = true -> isJson x = true.
Proof. destruct x; simpl; intros H T; try discriminate; exact H. Qed.

(** ** What the queries make of the tool's output *)

Lemma getProp_nullish (v : value) (k : string) :
  isNullish v = true -> exists e, getProp v k = Throw e.
Proof. destruct v; simpl; intros H; try discriminate; eauto. Qed.

Lemma getProp_propOf (v : value) (k : string) :
  isNullish v = false -> getProp v k = Normal (propOf k v).
Proof. unfold propOf. destruct v; simpl; intros H; try discriminate; reflexivity. Qed.

Lemma filterBoards_clean (raw : list value) :
  existsb isNullish raw = false ->
  filterBoards raw = Normal (filter wantedBoard raw).
Proof.
  induction raw as [| b rest IH]; simpl; intros H; [reflexivity |].
  apply orb_false_iff in H. destruct H as [Hb Hrest].
  rewrite !(getProp_propOf b _ Hb), (IH Hrest). unfold wantedBoard. simpl.
  destruct (truthy (propOf "fqbn" b)); simpl; [| reflexivity].
  destruct (truthy (propOf "name" b)); reflexivity.
Qed.

Lemma filterBoards_nullish (raw : list value) :
  existsb isNullish raw = true -> exists e, filterBoards raw = Throw e.
Proof.
  induction raw as [| b rest IH]; simpl; intros H; [discriminate |].
  destruct (isNullish b) eqn:Hb.
  - destruct (getProp_nullish b "fqbn" Hb) as [e ->]. simpl. eauto.
  - simpl in H. destruct (IH H) as [e He].
    rewrite !(getProp_propOf b _ Hb), He. simpl.
    destruct (truthy (propOf "fqbn" b)); simpl; eauto.
Qed.

Lemma mapBoards_clean (kept : list value) :
  existsb isNullish kept = false ->
  mapBoards kept = Normal (map toBoard kept).
Proof.
  induction kept as [| b rest IH]; simpl; intros H; [reflexivity |].
  apply orb_false_iff in H. destruct H as [Hb Hrest].
  rewrite !(getProp_propOf b _ Hb), (IH Hrest). reflexivity.
Qed.

Lemma existsb_filter {A} (p q : A -> bool) (l : list A) :
  existsb p l = false -> existsb p (filter q l) = false.
Proof.
  induction l as [| x l IH]; simpl; intros H; [reflexivity |].
  apply orb_false_iff in H. destruct H as [Hx Hl].
  destruct (q x); simpl; rewrite ?Hx; auto.
Qed.



Lemma parseBoards_inv (stdout : text) (l : list value) :
  parseBoards stdout = Normal l ->
  exists data raw,
    stdout = Json data /\ existsb isNullish raw = false /\
    (propOf "boards" data = VArr raw \/ raw = []) /\
    l = map toBoard (filter wantedBoard raw).
Proof.
  destruct stdout as [raw0 | data]; [discriminate |].
  unfold parseBoards. simpl JSON_parse. cbn [cbind].
  destruct (isNullish data) eqn:Hdata.
  { destruct (getProp_nullish data "boards" Hdata) as [e ->]. discriminate. }
  rewrite (getProp_propOf data "boards" Hdata). cbn [cbind]. unfold js_or.
  destruct (truthy (propOf "boards" data)) eqn:Ht.
  - destruct (propOf "boards" data) as [| | b | n | s | raw | ps] eqn:Hraw;
      try discriminate.
    cbn [asArray cbind]. intros H.
    destruct (existsb isNullish raw) eqn:Hn.
    + destruct (filterBoards_nullish raw Hn) as [e He]. rewrite He in H. discriminate.
    + rewrite (filterBoards_clean raw Hn) in H. cbn [cbind] in H.
      rewrite (mapBoards_clean _ (existsb_filter _ _ raw Hn)) in H.
      inversion H. exists data, raw. auto.
  - simpl. intros H. inversion H. exists data, []. auto.
Qed.

Lemma isJson_elements (data : value) (k : string) (raw : list value) :
  isJson data = true -> propOf k data = VArr raw -> forallb isJson raw = true.
Proof.
  intros Hd Hraw.
  assert (jsonOrUndefined (propOf k data) = true) as H.
  { unfold propOf. destruct (getProp data k) as [x | e] eqn:E; [| reflexivity].
    apply isJson_getProp with data k; [destruct data; try discriminate; exact Hd | exact E]. }
  rewrite Hraw in H. exact H.
Qed.

Lemma jsonOrUndefined_propOf (b : value) (k : string) :
  isJson b = true -> jsonOrUndefined (propOf k b) = true.
Proof.
  intros Hb. unfold propOf. destruct (getProp b k) as [x | e] eqn:E; [| reflexivity].
  apply isJson_getProp with b k; [destruct b; try discriminate; exact Hb | exact E].
Qed.

Lemma isJson_toBoard (b : value) :
  isJson b = true -> wantedBoard b = true -> isJson (toBoard b) = true.
Proof.
  intros Hb Hw. unfold wantedBoard in Hw. apply andb_true_iff in Hw. destruct Hw as [Hf Hn].
  pose proof (truthy_json _ (jsonOrUndefined_propOf b "fqbn" Hb) Hf) as Jf.
  pose proof (truthy_json _ (jsonOrUndefined_propOf b "name" Hb) Hn) as Jn.
  unfold toBoard, mkBoard. simpl. rewrite Jf, Jn. reflexivity.
Qed.

Lemma fetched_boards_are_json (stdout : text) (l : list value) :
  (forall data, stdout = Json data -> isJson data = true) ->
  parseBoards stdout = Normal l ->
  forallb isJson l = true.
Proof.
  intros Hjson H. destruct (parseBoards_inv stdout l H) as (data & raw & -> & _ & Hraw & ->).
  assert (forallb isJson raw = true) as Hall.
  { destruct Hraw as [Hraw | ->]; [| reflexivity].
    apply isJson_elements with data "boards"; [apply Hjson; reflexivity | exact Hraw]. }
  clear Hraw H Hjson. induction raw as [| b rest IH]; [reflexivity |].
  simpl in Hall. apply andb_true_iff in Hall. destruct Hall as [Hb Hrest].
  cbn [filter]. destruct (wantedBoard b) eqn:Hw; [| apply IH; exact Hrest].
  cbn [map forallb]. rewrite (isJson_toBoard b Hb Hw). apply IH. exact Hrest.
Qed.

Lemma map_jsonElem_isJson (l : list value) : forallb isJson l = true -> map jsonElem l = l.
Proof.
  induction l as [| x l IH]; simpl; intros H; [reflexivity |].
  apply andb_true_iff in H. destruct H as [Hx Hl].
  rewrite (jsonElem_isJson x Hx), (IH Hl). reflexivity.
Qed.

Lemma mapAvailable_clean (raw : list value) :
  existsb isNullish raw = false ->
  mapAvailable raw = Normal (map toAvailable raw).
Proof.
  induction raw as [| lib rest IH]; simpl; intros H; [reflexivity |].
  apply orb_false_iff in H. destruct H as [Hlib Hrest].
  rewrite !(getProp_propOf lib _ Hlib), (IH Hrest). reflexivity.
Qed.

Lemma mapAvailable_nullish (raw : list value) :
  existsb isNullish raw = true -> exists e, mapAvailable raw = Throw e.
Proof.
  induction raw as [| lib rest IH]; simpl; intros H; [discriminate |].
  destruct (isNullish lib) eqn:Hlib.
  - destruct (getProp_nullish lib "name" Hlib) as [e ->]. simpl. eauto.
  - simpl in H. destruct (IH H) as [e He].
    rewrite !(getProp_propOf lib _ Hlib), He. simpl. eauto.
Qed.

Lemma parseAvailable_inv (stdout : text) (available : list AvailableLib) :
  parseAvailable stdout = Normal available ->
  exists data raw,
    stdout = Json data /\ existsb isNullish raw = false /\
    (propOf "libraries" data = VArr raw \/ raw = []) /\
    available = map toAvailable raw.
Proof.
  destruct stdout as [raw0 | data]; [discriminate |].
  unfold parseAvailable. simpl JSON_parse. cbn [cbind].
  destruct (isNullish data) eqn:Hdata.
  { destruct (getProp_nullish data "libraries" Hdata) as [e ->]. discriminate. }
  rewrite (getProp_propOf data "libraries" Hdata). cbn [cbind]. unfold js_or.
  destruct (truthy (propOf "libraries" data)) eqn:Ht.
  - destruct (propOf "libraries" data) as [| | b | n | s | raw | ps] eqn:Hraw;
      try discriminate.
    cbn [asArray cbind]. intros H.
    destruct (existsb isNullish raw) eqn:Hn.
    + destruct (mapAvailable_nullish raw Hn) as [e He]. rewrite He in H. discriminate.
    + rewrite (mapAvailable_clean raw Hn) in H. inversion H. exists data, raw. auto.
  - simpl. intros H. inversion H. exists data, []. auto.
Qed.

Lemma isJson_chars (s : string) : forallb isJson (chars s) = true.
Proof. induction s as [| c s IH]; [reflexivity | exact IH]. Qed.

Lemma isJson_iterate (field : value) (entries : list value) :
  isJson field = true -> iterate field = Normal entries -> forallb isJson entries = true.
Proof.
  destruct field; simpl; intros H E; inversion E; subst;
    [apply isJson_chars | exact H].
Qed.

Lemma collectOutdated_json (entries : list value) :
  forall m0 m : JsMap,
    forallb isJson entries = true ->
    (forall k, jsonOrUndefined (mapGet k m0) = true) ->
    collectOutdated entries m0 = Normal m ->
    forall k, jsonOrUndefined (mapGet k m) = true.
Proof.
  induction entries as [| libEntry rest IH]; intros m0 m Hall H0; simpl.
  - intros E. inversion E. subst. exact H0.
  - simpl in Hall. apply andb_true_iff in Hall. destruct Hall as [He Hrest].
    assert (jsonOrUndefined libEntry = true) as He'
      by (destruct libEntry; try discriminate; exact He).
    destruct (getProp libEntry "library") as [libInfo | e]; simpl; [| discriminate].
    destruct (getPropOpt libInfo "name") as [libName | e]; simpl; [| discriminate].
    destruct (getProp libEntry "release") as [release | e] eqn:Er; simpl; [| discriminate].
    destruct (getPropOpt release "version") as [latestVersion | e] eqn:Ev; simpl;
      [| discriminate].
    destruct (truthy libName && truthy latestVersion)%bool;
      [| apply IH; assumption].
    apply IH; [exact Hrest |].
    intros k. rewrite mapGet_mapSet.
    destruct (sameValueZero libName k); [| apply H0].
    apply isJson_getPropOpt with release "version"; [| exact Ev].
    apply isJson_getProp with libEntry "release"; assumption.
Qed.

Lemma outdatedOutcome_json (cli : string) (exec : string -> ExecOutcome) :
  parsesToJson exec ->
  forall k, jsonOrUndefined (mapGet k (outdatedOutcome cli exec)) = true.
Proof.
  intros Hjson k. unfold outdatedOutcome.
  destruct (execResult (exec (cli ++ " lib outdated --format json"))) as [[raw | data] | e]
    eqn:Hout; simpl; try reflexivity.
  pose proof (Hjson _ _ Hout) as Hdata.
  unfold parseOutdated. simpl JSON_parse. cbn [cbind].
  destruct (getProp data "libraries") as [field | e] eqn:Hfield; simpl; [| reflexivity].
  destruct (truthy field) eqn:Ht; [| reflexivity].
  assert (isJson field = true) as Jf.
  { apply truthy_json; [| exact Ht].
    apply isJson_getProp with data "libraries"; [| exact Hfield].
    destruct data; try discriminate; exact Hdata. }
  destruct (iterate field) as [entries | e] eqn:Hit; simpl; [| reflexivity].
  destruct (collectOutdated entries []) as [m | e] eqn:Hc; [| reflexivity].
  apply (collectOutdated_json entries [] m); [| reflexivity | exact Hc].
  apply isJson_iterate with field; assumption.
Qed.

Lemma jsonOrUndefined_lookupProp (k : string) (ps : list (string * value)) :
  forallb (fun kv => jsonOrUndefined (snd kv)) ps = true ->
  jsonOrUndefined (lookupProp k ps) = true.
Proof.
  induction ps as [| [k0 x] ps IH]; simpl; intros H; [reflexivity |].
  apply andb_true_iff in H. destruct H as [Hx Hps].
  destruct (k =? k0)%string; [exact Hx | apply IH; exact Hps].
Qed.

(** A library entry read back from the cache agrees with the fetched one on
    every property. *)
Lemma library_entry_readBack (n v lv : value) (i u : bool) (field : string) :
  jsonOrUndefined n = true -> jsonOrUndefined v = true -> jsonOrUndefined lv = true ->
  propOf field (jsonElem (mkLibrary n v i u lv)) = propOf field (mkLibrary n v i u lv).
Proof.
  intros Hn Hv Hlv. unfold mkLibrary, jsonElem. rewrite jsonView_obj. unfold propOf, getProp.
  rewrite lookupProp_jsonProps
    by (simpl; repeat constructor; simpl; intuition discriminate).
  apply readBack_jsonOrUndefined, jsonOrUndefined_lookupProp.
  simpl. rewrite Hn, Hv, Hlv. reflexivity.
Qed.

(** X8. The copy of a fetched list that the cache serves agrees with the
    fetched list: board entries are returned unchanged, and library entries
    agree on every property (absent fields read as [undefined] in both). *)
Theorem cached_copy_agrees_with_the_fetched_list :
  forall (cli : string) (exec : string -> ExecOutcome) (k : kind) (w : World)
         (l : list value),
    parsesToJson exec ->
    liveFetchYields cli exec k w l ->
    Forall (fun x => forall field, propOf field (jsonElem x) = propOf field x) l /\
    (k = Boards -> map jsonElem l = l).
Proof.
  intros cli exec k w l Hjson Hlive. destruct k; simpl in Hlive.
  - assert (map jsonElem l = l) as Hsame.
    { rewrite getAvailableBoardsStreaming_result in Hlive. unfold boardsOutcome in Hlive.
      destruct (execResult (exec (cli ++ " board listall --format json"))) as [stdout | e]
        eqn:Hout; [| discriminate].
      simpl in Hlive. apply map_jsonElem_isJson.
      apply fetched_boards_are_json with stdout; [| exact Hlive].
      intros data ->. apply (Hjson _ _ Hout). }
    split; [| intros _; exact Hsame].
    clear - Hsame. induction l as [| x l IH]; [constructor |].
    simpl in Hsame. injection Hsame as Hx Hl.
    constructor; [intros field; rewrite Hx; reflexivity | exact (IH Hl)].
  - split; [| discriminate].
    destruct Hlive as (av & inst & outd & Hi & Ho & Ha & ->).
    rewrite getOutdatedLibraries_result in Ho. inversion Ho as [Ho']. clear Ho.
    rewrite getAvailableLibrariesStreaming_result in Ha. unfold availableOutcome in Ha.
    destruct (execResult (exec (cli ++ " lib search --format json"))) as [stdout | e]
      eqn:Hout; [| discriminate].
    simpl in Ha.
    destruct (parseAvailable_inv stdout av Ha) as (data & raw & -> & _ & Hraw & ->).
    assert (forallb isJson raw = true) as Hall.
    { destruct Hraw as [Hraw | ->]; [| reflexivity].
      apply isJson_elements with data "libraries"; [apply (Hjson _ _ Hout) | exact Hraw]. }
    unfold joinLibraries. rewrite map_map. apply Forall_map, Forall_forall.
    intros lib Hin field. unfold joinLibrary, toAvailable. cbn [name version].
    assert (isJson lib = true) as Hlib
      by (rewrite forallb_forall in Hall; apply Hall; exact Hin).
    apply library_entry_readBack.
    + apply jsonOrUndefined_propOf, Hlib.
    + apply jsonOrUndefined_propOf, Hlib.
    + apply outdatedOutcome_json, Hjson.
Qed.


Lemma cached_copy_agrees_with_the_fetched_list_witness :
  map jsonElem [mkBoard (VStr "Arduino Uno") (VStr "arduino:avr:uno") (VStr "Arduino Uno")]
    = [mkBoard (VStr "Arduino Uno") (VStr "arduino:avr:uno") (VStr "Arduino Uno")].
Proof.
  apply (cached_copy_agrees_with_the_fetched_list "arduino-cli" toolUp Boards
           (demoWorld 0 None None)
           [mkBoard (VStr "Arduino Uno") (VStr "arduino:avr:uno") (VStr "Arduino Uno")]).
  - intros command data. unfold toolUp.
    repeat match goal with
           | |- context [if ?c then _ else _] => destruct c
           end; simpl; intros H; inversion H; reflexivity.
  - reflexivity.
  - reflexivity.
Defined.

(** X9. On a store that cannot be written a listing still returns the list
    fetched live; no file changes and no error notification is shown. *)
Theorem read_only_store_still_lists :
  forall (cli : string) (exec : string -> ExecOutcome) (k : kind) (w : World)
         (l : list value),
    readOnly w = true ->
    result (loadCache k w) = Normal None ->
    liveFetchYields cli exec k w l ->
    let w' := after (getList cli exec k w) in
    result (getList cli exec k w) = Normal l /\
    files w' = files w /\
    errorsShown (events w') = errorsShown (events w).
Proof.
  intros cli exec k w l Hro Hmiss Hlive w'. subst w'.
  destruct (getList_fetched cli exec k w l Hmiss Hlive)
    as (w1 & (Hf & _ & Hr & _) & (shown & Hev & Hno) & Hget).
  rewrite Hget.
  destruct (save_readOnly k l w1) as (label & e & Hsave); [congruence |].
  rewrite Hsave. unfold result, after. simpl.
  repeat split; [exact Hf |].
  rewrite Hev, !errorsShown_app, Hno. simpl. rewrite !app_nil_r. reflexivity.
Qed.

Lemma read_only_store_still_lists_witness :
  let w := mkWorld 0 (fun _ => None) (fun _ => true) true demoConfig [] in
  result (getList "arduino-cli" toolUp Boards w)
    = Normal [mkBoard (VStr "Arduino Uno") (VStr "arduino:avr:uno") (VStr "Arduino Uno")] /\
  files (after (getList "arduino-cli" toolUp Boards w)) = files w /\
  errorsShown (events (after (getList "arduino-cli" toolUp Boards w))) = [].
Proof.
  intros w.
  exact (read_only_store_still_lists "arduino-cli" toolUp Boards w
           [mkBoard (VStr "Arduino Uno") (VStr "arduino:avr:uno") (VStr "Arduino Uno")]
           eq_refl eq_refl eq_refl).
Defined.

(** X10. A listing never fails.  Served from the cache it shows no error
    notification; after a cache miss it shows exactly one when the live
    fetch fails, naming the error the fetch failed with, and none when the
    live fetch succeeds. *)
Theorem listing_never_fails :
  forall (cli : string) (exec : string -> ExecOutcome) (k : kind) (w : World),
    let w' := after (getList cli exec k w) in
    (exists l, result (getList cli exec k w) = Normal l) /\
    (forall l,
       result (loadCache k w) = Normal (Some l) ->
       errorsShown (events w') = errorsShown (events w)) /\
    (result (loadCache k w) = Normal None ->
     (forall e,
        liveOutcome cli exec k = Throw e ->
        liveFetchFails cli exec k w /\
        errorsShown (events w') = (errorsShown (events w) ++ [fetchErrorText k e])%list) /\
     (forall l,
        liveOutcome cli exec k = Normal l ->
        ~ liveFetchFails cli exec k w /\
        errorsShown (events w') = errorsShown (events w))).
Proof.
  intros cli exec k w w'. subst w'. split; [| split].
  - destruct (getList_resolves cli exec k w) as (l & w' & H). rewrite H.
    exists l. reflexivity.
  - intros l Hhit. rewrite getList_unfold.
    destruct (loadCache_events k w) as (shown & Hev & Hno).
    unfold result, after in *.
    destruct (loadCache k w) as [[[l0|]|e] w0]; simpl in *; try discriminate.
    rewrite Hev, errorsShown_app, Hno. apply app_nil_r.
  - intros Hmiss. rewrite (getList_errors_miss cli exec k w Hmiss). split.
    + intros e He. rewrite He. split; [| reflexivity].
      apply liveFetchFails_outcome. eauto.
    + intros l Hl. rewrite Hl. split; [| apply app_nil_r].
      intros Hfail. apply liveFetchFails_outcome in Hfail.
      destruct Hfail as [e He]. congruence.
Qed.

Lemma listing_never_fails_witness :
  errorsShown (events (after (getList "arduino-cli" toolDown Boards (demoWorld 0 None None))))
    = ["Error fetching boards: Error: Command failed: arduino-cli: not found"].
Proof.
  exact (proj2 (proj1 (proj2 (proj2 (listing_never_fails "arduino-cli" toolDown Boards
                                       (demoWorld 0 None None)))
                         eq_refl)
                  (Error "Command failed: arduino-cli: not found") eq_refl)).
Defined.




Lemma collectOutdated_get (entries : list value) :
  forall (m0 m : JsMap) (k : value),
    collectOutdated entries m0 = Normal m ->
    mapGet k m = fold_left (recordOutdated k) entries (mapGet k m0).
Proof.
  induction entries as [| libEntry rest IH]; intros m0 m k H.
  - inversion H. reflexivity.
  - cbn [fold_left]. cbn [collectOutdated] in H.
    destruct (getProp libEntry "library") as [libInfo | e] eqn:E1; cbn [cbind] in H;
      [| discriminate].
    destruct (getPropOpt libInfo "name") as [libName | e] eqn:E2; cbn [cbind] in H;
      [| discriminate].
    destruct (getProp libEntry "release") as [release | e] eqn:E3; cbn [cbind] in H;
      [| discriminate].
    destruct (getPropOpt release "version") as [latestVersion | e] eqn:E4; cbn [cbind] in H;
      [| discriminate].
    assert (truthy latestVersion = true -> propOf "version" release = latestVersion) as Hv.
    { intros Ht. unfold propOf.
      destruct release; simpl in *; inversion E4; subst; try discriminate; reflexivity. }
    destruct (truthy libName && truthy latestVersion)%bool eqn:Ht.
    + rewrite (IH _ _ _ H), mapGet_mapSet. f_equal.
      unfold recordOutdated, namesOutdated. rewrite E1. cbn [cbind]. rewrite E2. cbn [cbind].
      rewrite E3. cbn [cbind]. rewrite E4. cbn [cbind]. rewrite Ht. cbn [andb].
      apply andb_true_iff in Ht. destruct Ht as [_ Ht].
      unfold propOf at 2. rewrite E3, (Hv Ht). reflexivity.
    + rewrite (IH _ _ _ H). f_equal.
      unfold recordOutdated, namesOutdated. rewrite E1. cbn [cbind]. rewrite E2. cbn [cbind].
      rewrite E3. cbn [cbind]. rewrite E4. cbn [cbind]. rewrite Ht. reflexivity.
Qed.

(** What the [try] block of the outdated query builds, when it completes. *)
Lemma parseOutdated_records :
  forall (data : value) (entries : list value) (m : JsMap) (k : value),
    propOf "libraries" data = VArr entries ->
    parseOutdated (Json data) = Normal m ->
    mapHas k m = existsb (namesOutdated k) entries /\
    mapGet k m = latestVersionOf k entries.
Proof.
  intros data entries m k Hfield. unfold parseOutdated. simpl JSON_parse. cbn [cbind].
  unfold propOf in Hfield.
  destruct (getProp data "libraries") as [field | e]; [| discriminate].
  subst field. cbn [cbind truthy iterate]. intros H.
  split.
  - rewrite (collectOutdated_has entries [] m k H). reflexivity.
  - rewrite (collectOutdated_get entries [] m k H). reflexivity.
Qed.

(** The loop of the outdated query throws exactly on a [null] (or
    [undefined]) element. *)
Lemma collectOutdated_total (entries : list value) :
  forall m0 : JsMap,
    if existsb isNullish entries
    then exists e, collectOutdated entries m0 = Throw e
    else exists m, collectOutdated entries m0 = Normal m.
Proof.
  induction entries as [| libEntry rest IH]; intros m0; cbn [existsb]; [eexists; reflexivity |].
  cbn [collectOutdated].
  destruct (isNullish libEntry) eqn:Hn; cbn [orb].
  - destruct (getProp_nullish libEntry "library" Hn) as [e ->]. eexists. reflexivity.
  - rewrite !(getProp_propOf libEntry _ Hn). cbn [cbind].
    assert (forall v f, exists x, getPropOpt v f = Normal x) as Hopt
      by (intros v f; destruct v; eexists; reflexivity).
    destruct (Hopt (propOf "library" libEntry) "name") as [libName ->].
    destruct (Hopt (propOf "release" libEntry) "version") as [latestVersion ->].
    cbn [cbind].
    destruct (truthy libName && truthy latestVersion)%bool; apply IH.
Qed.

(** X12. When the outdated query answers with JSON whose [libraries] field
    is an array, the query resolves with a map.  If no element of the array
    is [null], the map holds a name iff some element has that truthy name
    together with a truthy release version (an element without a release
    version records nothing), and it records the release version of the
    last such element.  If some element is [null], the exception is
    swallowed and the map is empty, whatever the other elements hold. *)
Theorem outdated_map_records_the_last_release :
  forall (cli : string) (exec : string -> ExecOutcome) (w : World)
         (data : value) (entries : list value),
    execResult (exec (cli ++ " lib outdated --format json")) = Normal (Json data) ->
    propOf "libraries" data = VArr entries ->
    exists m,
      result (getOutdatedLibraries exec cli w) = Normal m /\
      (existsb isNullish entries = false ->
       forall k,
         mapHas k m = existsb (namesOutdated k) entries /\
         mapGet k m = latestVersionOf k entries) /\
      (existsb isNullish entries = true -> m = []).
Proof.
  intros cli exec w data entries Hout Hfield.
  rewrite getOutdatedLibraries_result. unfold outdatedOutcome. rewrite Hout. cbn [cbind].
  assert (parseOutdated (Json data) = collectOutdated entries []) as Hparse.
  { unfold parseOutdated. simpl JSON_parse. cbn [cbind].
    unfold propOf in Hfield.
    destruct (getProp data "libraries") as [field | e]; [| discriminate].
    subst field. reflexivity. }
  pose proof (collectOutdated_total entries []) as Htotal.
  destruct (existsb isNullish entries).
  - destruct Htotal as [e He]. rewrite Hparse, He.
    exists []. split; [reflexivity |]. split; [discriminate | reflexivity].
  - destruct Htotal as [m Hm]. rewrite <- Hparse in Hm. rewrite Hm.
    exists m. split; [reflexivity |]. split; [| discriminate].
    intros _ k. exact (parseOutdated_records data entries m k Hfield Hm).
Qed.

Lemma outdated_map_records_the_last_release_witness :
  let servo := VObj [("library", VObj [("name", VStr "Servo")]);
                     ("release", VObj [("version", VStr "1.2.2")])] in
  let answers := fun entries (_ : string) =>
                   mkExec 0 (Normal (Json (VObj [("libraries", VArr entries)]))) in
  let w := demoWorld 0 None None in
  (exists m,
     result (getOutdatedLibraries
               (answers [servo; VObj [("library", VObj [("name", VStr "Stepper")])]])
               "arduino-cli" w) = Normal m /\
     mapGet (VStr "Servo") m = VStr "1.2.2" /\
     mapHas (VStr "Stepper") m = false) /\
  result (getOutdatedLibraries (answers [servo; VNull]) "arduino-cli" w) = Normal [].
Proof.
  intros servo answers w. split.
  - destruct (outdated_map_records_the_last_release "arduino-cli"
                (answers [servo; VObj [("library", VObj [("name", VStr "Stepper")])]]) w
                (VObj [("libraries",
                        VArr [servo; VObj [("library", VObj [("name", VStr "Stepper")])]])])
                [servo; VObj [("library", VObj [("name", VStr "Stepper")])]]
                eq_refl eq_refl) as (m & Hm & Hclean & _).
    exists m. split; [exact Hm |].
    split; [exact (proj2 (Hclean eq_refl (VStr "Servo")))
           | exact (proj1 (Hclean eq_refl (VStr "Stepper")))].
  - destruct (outdated_map_records_the_last_release "arduino-cli"
                (answers [servo; VNull]) w
                (VObj [("libraries", VArr [servo; VNull])]) [servo; VNull]
                eq_refl eq_refl) as (m & Hm & _ & Hnull).
    rewrite Hm, (Hnull eq_refl). reflexivity.
Defined.

(** ** Ports *)

Lemma takeNonWhite_idempotent (s : string) : takeNonWhite (takeNonWhite s) = takeNonWhite s.
Proof.
  induction s as [| c s IH]; [reflexivity |].
  simpl. destruct (isWhite c) eqn:Hc; [reflexivity |].
  simpl. rewrite Hc, IH. reflexivity.
Qed.

Lemma takeNonWhite_keeps_dev (line : string) :
  prefix "/dev/tty" line = true -> prefix "/dev/tty" (takeNonWhite line) = true.
Proof.
  intros H.
  repeat (destruct line as [| ?c line]; [discriminate H |];
          simpl in H;
          match type of H with
          | (if ?d then _ else _) = true =>
              destruct d as [E | E]; [subst | discriminate H]
          end; simpl).
  destruct line as [| a line]; simpl; [reflexivity | destruct (isWhite a); reflexivity].
Qed.

Lemma takeNonWhite_keeps_com (line : string) :
  prefix "COM" line = true -> prefix "COM" (takeNonWhite line) = true.
Proof.
  intros H.
  repeat (destruct line as [| ?c line]; [discriminate H |];
          simpl in H;
          match type of H with
          | (if ?d then _ else _) = true =>
              destruct d as [E | E]; [subst | discriminate H]
          end; simpl).
  destruct line as [| a line]; simpl; [reflexivity | destruct (isWhite a); reflexivity].
Qed.

Lemma parsePorts_spec (lines : list string) :
  Forall (fun p => looksLikePort p = true /\
                   exists line, In line lines /\ p = takeNonWhite line)
         (parsePorts lines).
Proof.
  induction lines as [| line rest IH]; simpl; [constructor |].
  assert (Forall (fun p => looksLikePort p = true /\
                           exists l, (line = l \/ In l rest) /\ p = takeNonWhite l)
                 (parsePorts rest)) as IH'.
  { eapply Forall_impl; [| exact IH].
    intros p (Hp & l & Hin & E). split; [exact Hp | exists l; auto]. }
  destruct (prefix "/dev/tty" line || prefix "COM" line)%bool eqn:Hpre; [| exact IH'].
  destruct (takeNonWhite line =? EmptyString)%string eqn:Hempty; [exact IH' |].
  constructor; [| exact IH'].
  split; [| exists line; auto].
  unfold looksLikePort. rewrite takeNonWhite_idempotent, String.eqb_refl, andb_true_r.
  apply orb_true_iff in Hpre. destruct Hpre as [H | H].
  - rewrite (takeNonWhite_keeps_dev line H). reflexivity.
  - rewrite (takeNonWhite_keeps_com line H). apply orb_true_r.
Qed.

(** The loop over the lines keeps every line that starts like a serial
    device: the test of the captured text never fails there. *)
Lemma parsePorts_listed (lines : list string) :
  parsePorts lines = map takeNonWhite (filter startsLikeDevice lines).
Proof.
  induction lines as [| line rest IH]; [reflexivity |].
  cbn [parsePorts filter]. unfold startsLikeDevice at 1.
  destruct (prefix "/dev/tty" line || prefix "COM" line)%bool eqn:Hpre; [| exact IH].
  assert ((takeNonWhite line =? EmptyString)%string = false) as ->.
  { apply orb_true_iff in Hpre. destruct Hpre as [H | H].
    - pose proof (takeNonWhite_keeps_dev line H) as Hk.
      destruct (takeNonWhite line); [discriminate Hk | reflexivity].
    - pose proof (takeNonWhite_keeps_com line H) as Hk.
      destruct (takeNonWhite line); [discriminate Hk | reflexivity]. }
  cbn [map]. rewrite IH. reflexivity.
Qed.

(** X13. Port detection rejects exactly when the 10 second timer fires.
    Otherwise it resolves, never with an empty list: with the ports the
    listing of the tool names, all of them and in the order of the listing
    (each the white-space-free start of a line that begins like a serial
    device), and with the 15 common ports only when the listing names none
    or the tool fails. *)
Theorem port_detection_never_comes_back_empty :
  forall (cli : string) (execPlain : string -> PlainOutcome) (w : World),
    let o := execPlain (cli ++ " board list") in
    let detected := result (getAvailablePorts cli execPlain w) in
    (10000 <= plainElapsed o -> detected = Throw portTimeout) /\
    (plainElapsed o < 10000 ->
     (forall e, plainResult o = Throw e -> detected = Normal getCommonPorts) /\
     (forall stdout,
        plainResult o = Normal stdout ->
        (listedPorts stdout = [] -> detected = Normal getCommonPorts) /\
        (listedPorts stdout <> [] -> detected = Normal (listedPorts stdout)))) /\
    (forall ports, detected = Normal ports -> ports <> []) /\
    (forall stdout, Forall (fun p => looksLikePort p = true) (listedPorts stdout)) /\
    List.length getCommonPorts = 15%nat.
Proof.
  intros cli execPlain w o detected. subst o detected.
  unfold getAvailablePorts, getArduinoCliPath, bind, ret, result. cbn [fst].
  split; [| split; [| split; [| split]]].
  - intros Ht. apply Z.leb_le in Ht. rewrite Ht. reflexivity.
  - intros Ht. apply Z.leb_gt in Ht. rewrite Ht. split.
    + intros e ->. reflexivity.
    + intros stdout ->. rewrite parsePorts_listed. unfold listedPorts.
      destruct (map takeNonWhite (filter startsLikeDevice (splitLines stdout)));
        split; intros H; try reflexivity; [destruct (H eq_refl) | discriminate H].
  - intros ports.
    destruct (10000 <=? plainElapsed (execPlain (cli ++ " board list"))); [discriminate |].
    destruct (plainResult (execPlain (cli ++ " board list"))) as [stdout | e]; cbn [fst].
    + destruct (parsePorts (splitLines stdout)) as [| q rest]; simpl;
        intros H; injection H as <-; discriminate.
    + intros H. injection H as <-. discriminate.
  - intros stdout. unfold listedPorts. rewrite <- parsePorts_listed.
    eapply Forall_impl; [| apply parsePorts_spec]. intros q [Hq _]. exact Hq.
  - reflexivity.
Qed.

Lemma port_detection_never_comes_back_empty_witness :
  result (getAvailablePorts "arduino-cli" portsUp (demoWorld 0 None None))
    = Normal ["/dev/ttyACM0"; "COM3"] /\
  result (getAvailablePorts "arduino-cli" portsDown (demoWorld 0 None None))
    = Normal getCommonPorts /\
  result (getAvailablePorts "arduino-cli" portsHang (demoWorld 0 None None))
    = Throw portTimeout.
Proof.
  pose proof (port_detection_never_comes_back_empty "arduino-cli" portsUp
                (demoWorld 0 None None)) as (_ & Hup & _).
  pose proof (port_detection_never_comes_back_empty "arduino-cli" portsDown
                (demoWorld 0 None None)) as (_ & Hdown & _).
  pose proof (port_detection_never_comes_back_empty "arduino-cli" portsHang
                (demoWorld 0 None None)) as (Hhang & _).
  split; [| split].
  - apply (proj2 (Hup eq_refl) boardListOutput eq_refl). discriminate.
  - exact (proj1 (Hdown eq_refl) _ eq_refl).
  - apply Hhang. discriminate.
Defined.

Lemma trimEnd_nonWhite (s : string) : takeNonWhite s = s -> trimEnd s = s.
Proof.
  induction s as [| c s IH]; [reflexivity |].
  simpl. destruct (isWhite c) eqn:Hc; [discriminate |].
  intros H. injection H as H. rewrite (IH H).
  destruct s; reflexivity.
Qed.

(** A string without white space is its own trimmed form. *)
Lemma trim_nonWhite (s : string) : takeNonWhite s = s -> trim s = s.
Proof.
  intros H. unfold trim.
  assert (trimStart s = s) as ->.
  { destruct s as [| c s]; [reflexivity |].
    simpl in *. destruct (isWhite c); [discriminate | reflexivity]. }
  apply trimEnd_nonWhite, H.
Qed.

Lemma getAvailablePorts_unfold cli execPlain w :
  getAvailablePorts cli execPlain w = (portsOutcome cli execPlain, afterPorts cli execPlain w).
Proof.
  unfold getAvailablePorts, portsOutcome, afterPorts, getArduinoCliPath, bind, ret. simpl.
  destruct (10000 <=? plainElapsed (execPlain (cli ++ " board list"))) eqn:Ht.
  - apply Z.leb_le in Ht. rewrite Z.min_l by exact Ht. reflexivity.
  - apply Z.leb_gt in Ht. rewrite Z.min_r by lia.
    destruct (plainResult (execPlain (cli ++ " board list"))) as [stdout | e]; simpl;
      [| reflexivity].
    destruct (parsePorts (splitLines stdout)); reflexivity.
Qed.

(** Every port that detection offers is a non-empty string without white
    space at its ends. *)
Lemma offered_ports_are_trimmed cli execPlain (ports : list string) :
  portsOutcome cli execPlain = Normal ports ->
  ports <> [] /\ Forall (fun p => trim p = p /\ p <> EmptyString) ports.
Proof.
  assert (Forall (fun p => trim p = p /\ p <> EmptyString) getCommonPorts) as Hcommon
    by (repeat constructor; discriminate).
  unfold portsOutcome.
  destruct (10000 <=? plainElapsed (execPlain (cli ++ " board list"))); [discriminate |].
  destruct (plainResult (execPlain (cli ++ " board list"))) as [stdout | e].
  - pose proof (parsePorts_spec (splitLines stdout)) as Hspec.
    destruct (parsePorts (splitLines stdout)) as [| p rest] eqn:Hp.
    + intros H. inversion H. split; [discriminate | exact Hcommon].
    + intros H. inversion H. subst ports. split; [discriminate |].
      eapply Forall_impl; [| exact Hspec].
      intros q (Hq & _). unfold looksLikePort in Hq.
      apply andb_true_iff in Hq. destruct Hq as [Hpre Hq].
      apply String.eqb_eq in Hq. split; [apply trim_nonWhite, Hq |].
      intros ->. apply orb_true_iff in Hpre. destruct Hpre; discriminate.
  - intros H. inversion H. split; [discriminate | exact Hcommon].
Qed.


(** X14. When the user picks a port from the list, exactly that port is
    stored in the configuration and written to the project file at once; a
    dismissed list leaves the configuration as it was. *)
Theorem select_port_stores_the_pick :
  forall (cli : string) (execPlain : string -> PlainOutcome) (w : World)
         (ports : list string) (i : nat) (p : string),
    readOnly w = false ->
    result (getAvailablePorts cli execPlain w) = Normal ports ->
    nth_error ports i = Some p ->
    let w' := after (selectPort cli execPlain (Some i) w) in
    result (selectPort cli execPlain (Some i) w) = Normal tt /\
    config w' = mkConfig (board (config w)) (VStr p) (baudrate (config w)) /\
    files w' ConfigPath = Some (configFileOf (config w') (now w')) /\
    config (after (selectPort cli execPlain None w)) = config w.
Proof.
  intros cli execPlain w ports i p Hro Hports Hnth w'. subst w'.
  rewrite getAvailablePorts_unfold in Hports. unfold result in Hports. simpl in Hports.
  destruct (offered_ports_are_trimmed cli execPlain ports Hports) as [Hne Hall].
  assert (trim p = p /\ p <> EmptyString) as [Htrim Hp].
  { rewrite Forall_forall in Hall. apply Hall. eapply nth_error_In. exact Hnth. }
  assert ((List.length ports =? 0)%nat = false) as Hlen
    by (destruct ports; [contradiction | reflexivity]).
  assert (truthy (VStr p) = true) as Htruthy
    by (simpl; destruct p; [contradiction | reflexivity]).
  unfold selectPort, showQuickPick, showInformationMessage, showErrorMessage, tell.
  unfold_m. simpl.
  rewrite !getAvailablePorts_unfold, Hports, Hlen. simpl. rewrite Hnth.
  change (negb (p =? EmptyString)%string) with (truthy (VStr p)). rewrite Htruthy.
  unfold setPort, js_trim, modifyConfig, showInformationMessage, tell. unfold_m. simpl.
  rewrite Htrim.
  rewrite saveConfig_writable by exact Hro. unfold result, after. simpl.
  destruct (dirs w WorkspaceDir); simpl; repeat split.
Qed.

Lemma select_port_stores_the_pick_witness :
  config (after (selectPort "arduino-cli" portsUp (Some 1%nat) (demoWorld 0 None None)))
    = mkConfig (VStr "arduino:avr:uno") (VStr "COM3") (VNum 115200).
Proof.
  exact (proj1 (proj2 (select_port_stores_the_pick "arduino-cli" portsUp
                         (demoWorld 0 None None) ["/dev/ttyACM0"; "COM3"] 1 "COM3"
                         eq_refl eq_refl eq_refl))).
Defined.

Ltac not_shown :=
  let Hbefore := fresh "Hbefore" in
  let Hin := fresh "Hin" in
  intros Hbefore Hin;
  repeat (rewrite errorsShown_app in Hin; simpl in Hin);
  repeat (rewrite in_app_iff in Hin; simpl in Hin);
  intuition (try discriminate).

(** X15. Selecting a port never fails and never reports that no port was
    found; when port detection times out, it shows that error alone and
    changes neither the configuration nor any file. *)
Theorem select_port_never_reports_no_ports :
  forall (cli : string) (execPlain : string -> PlainOutcome) (choice : option nat)
         (w : World),
    let w' := after (selectPort cli execPlain choice w) in
    result (selectPort cli execPlain choice w) = Normal tt /\
    (~ In "No connected COM ports found." (errorsShown (events w)) ->
     ~ In "No connected COM ports found." (errorsShown (events w'))) /\
    (10000 <= plainElapsed (execPlain (cli ++ " board list")) ->
     errorsShown (events w')
       = (errorsShown (events w)
            ++ [("Error getting ports: " ++ errToString portTimeout)%string])%list /\
     config w' = config w /\ files w' = files w).
Proof.
  intros cli execPlain choice w w'. subst w'.
  unfold selectPort, showQuickPick, showInformationMessage, showErrorMessage, tell.
  unfold_m. simpl. rewrite getAvailablePorts_unfold.
  destruct (portsOutcome cli execPlain) as [ports | e] eqn:Hports.
  - destruct (offered_ports_are_trimmed cli execPlain ports Hports) as [Hne Hall].
    assert ((List.length ports =? 0)%nat = false) as Hlen
      by (destruct ports; [contradiction | reflexivity]).
    rewrite Hlen.
    assert (10000 <= plainElapsed (execPlain (cli ++ " board list")) -> False) as Hnot.
    { intros Ht. apply Z.leb_le in Ht. unfold portsOutcome in Hports.
      rewrite Ht in Hports. discriminate. }
    destruct (match choice with Some i => nth_error ports i | None => None end)
      as [p |] eqn:Hpick; simpl.
    + assert (In p ports) as Hin
        by (destruct choice as [i |]; [eapply nth_error_In; exact Hpick | discriminate]).
      rewrite Forall_forall in Hall. destruct (Hall p Hin) as [Htrim Hp].
      change (negb (p =? EmptyString)%string) with (truthy (VStr p)).
      assert (truthy (VStr p) = true) as ->
        by (simpl; destruct p; [contradiction | reflexivity]).
      unfold setPort, js_trim, modifyConfig, showInformationMessage, tell. unfold_m. simpl.
      match goal with
      | |- context [saveConfig ?w1] =>
          destruct (readOnly w) eqn:Hro;
          [ destruct (saveConfig_readOnly w1 Hro) as [e He]; rewrite He
          | rewrite (saveConfig_writable w1 Hro) ]
      end; unfold result, after; simpl.
      * split; [reflexivity |]. split; [| intros Ht; destruct (Hnot Ht)].
        not_shown.
      * split; [reflexivity |]. split; [| intros Ht; destruct (Hnot Ht)].
        destruct (dirs w WorkspaceDir); simpl; not_shown.
    + unfold result, after; simpl.
      split; [reflexivity |]. split; [| intros Ht; destruct (Hnot Ht)].
      not_shown.
  - unfold result, after; simpl.
    assert (e = portTimeout) as ->.
    { unfold portsOutcome in Hports.
      destruct (10000 <=? plainElapsed (execPlain (cli ++ " board list")));
        [inversion Hports; reflexivity |].
      destruct (plainResult (execPlain (cli ++ " board list"))) as [stdout | e'];
        [destruct (parsePorts (splitLines stdout)) |]; discriminate. }
    split; [reflexivity |].
    split; [not_shown |].
    intros _. rewrite !errorsShown_app. simpl. rewrite !app_nil_r. repeat split.
Qed.

Lemma select_port_never_reports_no_ports_witness :
  errorsShown (events (after (selectPort "arduino-cli" portsHang (Some 0%nat)
                                (demoWorld 0 None None))))
    = ["Error getting ports: Error: Port detection timeout - arduino-cli took too long to respond"].
Proof.
  apply (proj2 (proj2 (select_port_never_reports_no_ports "arduino-cli" portsHang
                         (Some 0%nat) (demoWorld 0 None None)))).
  simpl. lia.
Defined.

(** ** Compile and upload *)

Lemma infosShown_app (xs ys : list Event) :
  infosShown (xs ++ ys) = (infosShown xs ++ infosShown ys)%list.
Proof.
  induction xs as [| x xs IH]; simpl; [reflexivity |].
  destruct x; simpl; rewrite ?IH; reflexivity.
Qed.

Lemma appendAll_quiet (chunks : list string) (w : World) :
  errorsShown (events (snd (appendAll chunks w))) = errorsShown (events w) /\
  infosShown (events (snd (appendAll chunks w))) = infosShown (events w).
Proof.
  revert w. induction chunks as [| c rest IH]; intros w; simpl; [split; reflexivity |].
  unfold bind, tell. simpl.
  destruct (IH (emit (OutAppend c) w)) as [He Hi].
  destruct (appendAll_spec rest (emit (OutAppend c) w)) as (w' & Hrun & _).
  rewrite Hrun in *. simpl in *. rewrite He, Hi, errorsShown_app, infosShown_app. simpl.
  rewrite !app_nil_r. split; reflexivity.
Qed.

(** A subprocess run shows no notification. *)
Lemma runCommand_frame spawn (command cwd : string) (w : World) :
  exists w',
    runCommand spawn command cwd w =
      (match spawnEnd (spawn command cwd) with
       | Closed (Some 0) => Normal tt
       | Closed code => Throw (Error ("Command failed with exit code " ++ showCode code))
       | Failed error => Throw error
       end, w') /\
    spawned (events w') = (spawned (events w) ++ [command])%list /\
    errorsShown (events w') = errorsShown (events w) /\
    infosShown (events w') = infosShown (events w).
Proof.
  destruct (runCommand_spec spawn command cwd w) as (w' & Hrun & Hsp).
  exists w'. split; [exact Hrun |]. split; [exact Hsp |].
  unfold runCommand in Hrun.
  match type of Hrun with
  | context [appendAll ?cs ?w1] =>
      destruct (appendAll_quiet cs w1) as [He Hi];
      destruct (appendAll cs w1) as [r w2]
  end.
  simpl in He, Hi.
  assert (w' = w2) as ->
    by (destruct (spawnEnd (spawn command cwd)) as [[[| q | q]|] | e];
        inversion Hrun; reflexivity).
  rewrite He, Hi, errorsShown_app, infosShown_app. simpl. rewrite !app_nil_r.
  split; reflexivity.
Qed.

Ltac run_command spawn :=
  match goal with
  | |- context [runCommand spawn ?c ?d ?w1] =>
      let w2 := fresh "w2" in
      let Hrun := fresh "Hrun" in
      let Hsp := fresh "Hsp" in
      let He := fresh "He" in
      let Hi := fresh "Hi" in
      destruct (runCommand_frame spawn c d w1) as (w2 & Hrun & Hsp & He & Hi);
      rewrite Hrun; clear Hrun;
      simpl in Hsp, He, Hi;
      repeat rewrite spawned_app in Hsp;
      repeat rewrite errorsShown_app in He;
      repeat rewrite infosShown_app in Hi;
      simpl in Hsp, He, Hi;
      repeat rewrite app_nil_r in Hsp;
      repeat rewrite app_nil_r in He;
      repeat rewrite app_nil_r in Hi
  end.

(** X16. A code check spawns exactly one subprocess, the compile command
    that an upload starts with; it announces success when the compiler exits
    with code 0 and otherwise shows one error that names the exit code. *)
Theorem check_runs_the_compile_step_alone :
  forall (cli dir : string) (spawn : string -> string -> SpawnOutcome) (w : World),
    (dir =? EmptyString)%string = false ->
    let compile := compileCommand cli (config w) dir in
    let w' := after (check cli dir spawn w) in
    result (check cli dir spawn w) = Normal tt /\
    spawned (events w') = (spawned (events w) ++ [compile])%list /\
    (exitsZero (spawn compile dir) = true ->
     infosShown (events w')
       = (infosShown (events w) ++ ["Arduino code check completed successfully!"])%list /\
     errorsShown (events w') = errorsShown (events w)) /\
    (forall c : Z,
       c <> 0 ->
       spawnEnd (spawn compile dir) = Closed (Some c) ->
       errorsShown (events w')
         = (errorsShown (events w) ++ [("Code check failed: " ++ exitCodeText c)%string])%list /\
       infosShown (events w') = infosShown (events w)).
Proof.
  intros cli dir spawn w Hdir compile w'. subst w'.
  unfold check, getConfig, getCurrentDirectory, getArduinoCliPath. unfold_m. simpl.
  rewrite Hdir. unfold tell, showInformationMessage, showErrorMessage. simpl.
  fold compile. unfold exitsZero. run_command spawn.
  destruct (spawnEnd (spawn compile dir)) as [[[| q | q]|] | e];
    unfold result, after; simpl;
    rewrite ?spawned_app, ?errorsShown_app, ?infosShown_app; simpl;
    rewrite ?app_nil_r, ?Hsp, ?He, ?Hi;
    (split; [reflexivity |]); (split; [reflexivity |]);
    (split; [intros H; try discriminate H; split; reflexivity |]);
    intros c Hc Hend; inversion Hend; subst; try contradiction; split; reflexivity.
Qed.

Lemma check_runs_the_compile_step_alone_witness :
  errorsShown (events (after (check "arduino-cli" "/home/me/sketch" compileFails
                                (demoWorld 0 None None))))
    = ["Code check failed: Error: Command failed with exit code 1"].
Proof.
  apply (proj2 (proj2 (proj2 (check_runs_the_compile_step_alone "arduino-cli"
                                "/home/me/sketch" compileFails (demoWorld 0 None None)
                                eq_refl))) 1).
  - lia.
  - reflexivity.
Defined.

(** X17. An upload announces success only when both the compile and the
    upload step exit with code 0; when either step ends with another exit
    code it shows one error that names that code, and no success. *)
Theorem upload_reports_the_failed_step :
  forall (cli dir : string) (spawn : string -> string -> SpawnOutcome) (w : World),
    (dir =? EmptyString)%string = false ->
    let compile := compileCommand cli (config w) dir in
    let flash := uploadCommand cli (config w) dir in
    let w' := after (upload cli dir spawn w) in
    (exitsZero (spawn compile dir) = true ->
     exitsZero (spawn flash dir) = true ->
     infosShown (events w')
       = (infosShown (events w) ++ ["Arduino upload completed successfully!"])%list /\
     errorsShown (events w') = errorsShown (events w)) /\
    (forall c : Z,
       c <> 0 ->
       spawnEnd (spawn compile dir) = Closed (Some c) \/
       (exitsZero (spawn compile dir) = true /\
        spawnEnd (spawn flash dir) = Closed (Some c)) ->
       errorsShown (events w')
         = (errorsShown (events w) ++ [("Upload failed: " ++ exitCodeText c)%string])%list /\
       infosShown (events w') = infosShown (events w)).
Proof.
  intros cli dir spawn w Hdir compile flash w'. subst w'.
  unfold upload, getConfig, getCurrentDirectory, getArduinoCliPath. unfold_m. simpl.
  rewrite Hdir. unfold tell, showInformationMessage, showErrorMessage. simpl.
  fold compile flash. unfold exitsZero. run_command spawn.
  destruct (spawnEnd (spawn compile dir)) as [[[| q | q]|] | e].
  - (* the compile step passed *)
    run_command spawn.
    repeat rewrite errorsShown_app in He0. repeat rewrite infosShown_app in Hi0.
    simpl in He0, Hi0. repeat rewrite app_nil_r in He0. repeat rewrite app_nil_r in Hi0.
    destruct (spawnEnd (spawn flash dir)) as [[[| q | q]|] | e];
      unfold after; simpl;
      rewrite ?errorsShown_app, ?infosShown_app; simpl;
      rewrite ?app_nil_r, ?He0, ?Hi0, ?He, ?Hi;
      (split; [intros H1 H2; try discriminate H2; split; reflexivity |]);
      intros c Hc [Hend | [_ Hend]]; inversion Hend; subst; try contradiction;
      split; reflexivity.
  - unfold after; simpl; rewrite ?errorsShown_app, ?infosShown_app; simpl;
      rewrite ?app_nil_r, ?He, ?Hi.
    split; [intros H; discriminate H |].
    intros c Hc [Hend | [H _]]; [| discriminate H].
    inversion Hend; subst. split; reflexivity.
  - unfold after; simpl; rewrite ?errorsShown_app, ?infosShown_app; simpl;
      rewrite ?app_nil_r, ?He, ?Hi.
    split; [intros H; discriminate H |].
    intros c Hc [Hend | [H _]]; [| discriminate H].
    inversion Hend; subst. split; reflexivity.
  - unfold after; simpl; rewrite ?errorsShown_app, ?infosShown_app; simpl;
      rewrite ?app_nil_r, ?He, ?Hi.
    split; [intros H; discriminate H |].
    intros c Hc [Hend | [H _]]; [discriminate Hend | discriminate H].
  - unfold after; simpl; rewrite ?errorsShown_app, ?infosShown_app; simpl;
      rewrite ?app_nil_r, ?He, ?Hi.
    split; [intros H; discriminate H |].
    intros c Hc [Hend | [H _]]; [discriminate Hend | discriminate H].
Qed.

Lemma upload_reports_the_failed_step_witness :
  errorsShown (events (after (upload "arduino-cli" "/home/me/sketch" uploadFails
                                (demoWorld 0 None None))))
    = ["Upload failed: Error: Command failed with exit code 2"].
Proof.
  apply (proj2 (upload_reports_the_failed_step "arduino-cli" "/home/me/sketch" uploadFails
                  (demoWorld 0 None None) eq_refl) 2).
  - lia.
  - right. split; reflexivity.
Defined.

(** ** Selecting a board *)

Lemma save_frame k l w :
  config (after (save k l w)) = config w /\
  readOnly (after (save k l w)) = readOnly w /\
  files (after (save k l w)) ConfigPath = files w ConfigPath.
Proof.
  destruct (readOnly w) eqn:Hro.
  - destruct (save_readOnly k l w Hro) as (label & e & ->). unfold after; simpl. auto.
  - rewrite (save_writable k l w Hro). unfold after; simpl.
    destruct (dirs w StorageDir); destruct k; simpl; auto.
Qed.

(** A listing touches neither the configuration nor the project file. *)
Lemma getList_frame cli exec k w :
  config (after (getList cli exec k w)) = config w /\
  readOnly (after (getList cli exec k w)) = readOnly w /\
  files (after (getList cli exec k w)) ConfigPath = files w ConfigPath.
Proof.
  rewrite getList_unfold.
  destruct (loadCache_store k w) as [(Hf0 & _ & Hr0 & Hc0) _].
  destruct (loadCache_resolves k w) as (r & w0 & Hload).
  rewrite Hload in *. unfold after in *. simpl in *.
  destruct r as [l |]; simpl; [rewrite Hf0; auto |].
  destruct (fetch_unfold cli exec k w0) as (w1 & (Hf1 & _ & Hr1 & Hc1) & _ & _ & H).
  rewrite H. destruct (liveOutcome cli exec k) as [l | e].
  - destruct (save_frame k l w1) as (Hc & Hr & Hf). unfold after in *. simpl.
    rewrite Hc, Hr, Hf, Hc1, Hr1, Hf1, Hc0, Hr0, Hf0. auto.
  - destruct (fallback_after k e w1) as [(Hf2 & _ & Hr2 & Hc2) _]. unfold after in *.
    rewrite Hc2, Hr2, Hf2, Hc1, Hr1, Hf1, Hc0, Hr0, Hf0. auto.
Qed.

(** X18. When the user picks a board from the list, its [fqbn], trimmed, is
    stored as the board of the configuration and written to the project file
    at once; a dismissed list leaves the configuration as it was. *)
Theorem select_board_stores_the_pick :
  forall (cli : string) (exec : string -> ExecOutcome) (w : World)
         (boards : list value) (i : nat) (b : value) (s : string),
    readOnly w = false ->
    result (getAvailableBoards cli exec w) = Normal boards ->
    nth_error boards i = Some b ->
    truthy b = true ->
    getProp b "fqbn" = Normal (VStr s) ->
    let w' := after (selectBoard cli exec (Some i) w) in
    result (selectBoard cli exec (Some i) w) = Normal tt /\
    config w' = mkConfig (VStr (trim s)) (port (config w)) (baudrate (config w)) /\
    files w' ConfigPath = Some (configFileOf (config w') (now w')) /\
    config (after (selectBoard cli exec None w)) = config w.
Proof.
  intros cli exec w boards i b s Hro Hboards Hnth Hb Hfqbn w'. subst w'.
  destruct (getList_frame cli exec Boards w) as (Hc & Hr & _). simpl in Hc, Hr.
  assert ((List.length boards =? 0)%nat = false) as Hlen
    by (destruct boards; [destruct i; discriminate | reflexivity]).
  unfold selectBoard, showQuickPick, showErrorMessage, tell. unfold_m.
  unfold result, after in *.
  destruct (getAvailableBoards cli exec w) as [r w1]. simpl in *. subst r.
  rewrite Hlen, Hnth, Hb, Hfqbn. simpl.
  unfold setBoard, js_trim, modifyConfig, showInformationMessage, tell. unfold_m. simpl.
  rewrite saveConfig_writable by (simpl; congruence). simpl.
  rewrite Hc. destruct (dirs w1 WorkspaceDir); simpl; repeat split; exact Hc.
Qed.

Lemma select_board_stores_the_pick_witness :
  config (after (selectBoard "arduino-cli" toolDown (Some 6%nat) (demoWorld 0 None None)))
    = mkConfig (VStr "esp32:esp32:esp32") (VStr "/dev/ttyACM0") (VNum 115200).
Proof.
  exact (proj1 (proj2 (select_board_stores_the_pick "arduino-cli" toolDown
                         (demoWorld 0 None None) getCommonBoards 6
                         (mkBoard (VStr "ESP32 Dev Module") (VStr "esp32:esp32:esp32")
                            (VStr "ESP32 Dev Module"))
                         "esp32:esp32:esp32" eq_refl eq_refl eq_refl eq_refl eq_refl))).
Defined.

(** X19. A picked entry whose [fqbn] is not a string (one read from a cache
    file that holds such an entry) changes neither the configuration nor the
    project file; one error is shown and the operation still resolves. *)
Theorem select_board_rejects_a_malformed_entry :
  forall (cli : string) (exec : string -> ExecOutcome) (w : World)
         (boards : list value) (i : nat) (b v : value),
    result (getAvailableBoards cli exec w) = Normal boards ->
    nth_error boards i = Some b ->
    truthy b = true ->
    getProp b "fqbn" = Normal v ->
    (forall s, v <> VStr s) ->
    let w' := after (selectBoard cli exec (Some i) w) in
    result (selectBoard cli exec (Some i) w) = Normal tt /\
    config w' = config w /\
    files w' ConfigPath = files w ConfigPath /\
    exists e,
      js_trim v = Throw e /\
      errorsShown (events w')
        = (errorsShown (events (after (getAvailableBoards cli exec w)))
             ++ [("Error selecting board: " ++ errToString e)%string])%list.
Proof.
  intros cli exec w boards i b v Hboards Hnth Hb Hfqbn Hv w'. subst w'.
  destruct (getList_frame cli exec Boards w) as (Hc & _ & Hf). simpl in Hc, Hf.
  assert ((List.length boards =? 0)%nat = false) as Hlen
    by (destruct boards; [destruct i; discriminate | reflexivity]).
  assert (exists e, js_trim v = Throw e) as [e He].
  { destruct v; simpl; eauto. destruct (Hv s eq_refl). }
  unfold selectBoard, showQuickPick, showErrorMessage, tell. unfold_m.
  unfold result, after in *.
  destruct (getAvailableBoards cli exec w) as [r w1]. simpl in *. subst r.
  rewrite Hlen, Hnth, Hb, Hfqbn. simpl.
  unfold setBoard. unfold_m. rewrite He. simpl.
  repeat split; try assumption.
  exists e. split; [reflexivity |]. rewrite errorsShown_app. reflexivity.
Qed.

Lemma select_board_rejects_a_malformed_entry_witness :
  let oddCache := mkFile 0 (Json (VObj [("boards", VArr [VObj [("name", VStr "Odd");
                                                               ("fqbn", VNum 7)]])])) in
  config (after (selectBoard "arduino-cli" toolDown (Some 0%nat)
                   (demoWorld 1000 (Some oddCache) None)))
    = demoConfig.
Proof.
  intros oddCache.
  exact (proj1 (proj2 (select_board_rejects_a_malformed_entry "arduino-cli" toolDown
                         (demoWorld 1000 (Some oddCache) None)
                         [VObj [("name", VStr "Odd"); ("fqbn", VNum 7)]] 0
                         (VObj [("name", VStr "Odd"); ("fqbn", VNum 7)]) (VNum 7)
                         eq_refl eq_refl eq_refl eq_refl
                         (fun s H => eq_ind (VNum 7)
                                       (fun x => match x with VNum _ => True | _ => False end)
                                       I (VStr s) H)))).
Defined.

(** ** The library manager *)

Lemma getLibraries_hit cli exec w f cached l :
  files w LibsCachePath = Some f ->
  now w - mtime f <= cacheExpiration ->
  data f = Json cached ->
  validCache "libraries" cached = Normal (Some l) ->
  getLibraries cli exec w = (Normal l, emit (InfoMsg (loadingNotice l)) w).
Proof.
  intros H Hage Hd Hv.
  assert ((now w - mtime f >? cacheExpiration) = false) as Hb
    by (apply not_true_is_false; intros E; apply Z.gtb_lt in E; lia).
  unfold getLibraries, loadFromCache, showInformationMessage, tell, loadingNotice.
  unfold_m; unfold_fs; run. reflexivity.
Qed.

(** The pick list has one item per library, in the order of the list. *)
Lemma libraryItems_nth im um am ar l :
  forall items i lib,
    libraryItems im um am ar l = Normal items ->
    nth_error l i = Some lib ->
    isNullish lib = false /\
    exists item, nth_error items i = Some item /\ itemLibrary item = lib.
Proof.
  induction l as [| x l IH]; intros items i lib Hitems Hnth; [destruct i; discriminate |].
  simpl in Hitems.
  destruct (libraryItem im um am ar x) as [item |] eqn:Hx; [| discriminate].
  destruct (libraryItems im um am ar l) as [rest |] eqn:Hl; [| discriminate].
  simpl in Hitems. injection Hitems as <-.
  destruct i as [| i]; simpl in *.
  - injection Hnth as ->. split.
    + destruct lib; try reflexivity; discriminate.
    + exists item. split; [reflexivity |].
      unfold libraryItem in Hx. destruct lib; try discriminate; simpl in Hx;
        repeat match type of Hx with
               | context [if ?c then _ else _] => destruct c; simpl in Hx
               end; injection Hx as <-; reflexivity.
  - exact (IH rest i lib eq_refl Hnth).
Qed.

Lemma handleLibraryAction_done cli exec lib reopen w out :
  isNullish lib = false ->
  execResult (exec (installCommand cli lib)) = Normal out ->
  handleLibraryAction cli exec lib reopen w
    = (Normal tt,
       snd (reopen (emit (InfoMsg (doneNotice lib)) (installed_world cli exec lib w)))).
Proof.
  intros Hlib Hout.
  unfold handleLibraryAction, libraryAction, getArduinoCliPath, libRunCommand, runExec,
    showInformationMessage, tell, installed_world, doneNotice, startNotice.
  unfold installCommand in *. unfold_m.
  rewrite !(getProp_propOf lib _ Hlib). cbn [cbind fst snd].
  destruct (truthy (propOf "installed" lib)); cbn [andb cbind fst snd];
    destruct (truthy (propOf "hasUpdate" lib)); cbn [andb cbind fst snd String.eqb Ascii.eqb];
    rewrite Hout; reflexivity.
Qed.

Lemma handleLibraryAction_failed cli exec lib reopen w e :
  isNullish lib = false ->
  execResult (exec (installCommand cli lib)) = Throw e ->
  handleLibraryAction cli exec lib reopen w
    = (Normal tt, emit (ErrorMsg (failedNotice lib e)) (installed_world cli exec lib w)).
Proof.
  intros Hlib Hout.
  unfold handleLibraryAction, libraryAction, getArduinoCliPath, libRunCommand, runExec,
    showInformationMessage, showErrorMessage, tell, installed_world, failedNotice, startNotice.
  unfold installCommand in *. unfold_m.
  rewrite !(getProp_propOf lib _ Hlib). cbn [cbind fst snd].
  destruct (truthy (propOf "installed" lib)); cbn [andb cbind fst snd];
    destruct (truthy (propOf "hasUpdate" lib)); cbn [andb cbind fst snd String.eqb Ascii.eqb];
    rewrite Hout; reflexivity.
Qed.

Lemma openLibraryManagerOnce_pick cli exec im um am ar w l items i lib reopen :
  cacheServes w (now w) l ->
  libraryItems im um am ar l = Normal items ->
  nth_error l i = Some lib ->
  openLibraryManagerOnce cli exec im um am ar (Some i) reopen w
    = handleLibraryAction cli exec lib reopen (emit (InfoMsg (loadingNotice l)) w).
Proof.
  intros (f & cached & Hf & Hage & Hd & Hv) Hitems Hnth.
  destruct (libraryItems_nth im um am ar l items i lib Hitems Hnth)
    as (Hlib & item & Hitem & <-).
  assert ((List.length l =? 0)%nat = false) as Hlen
    by (destruct l; [destruct i; discriminate | reflexivity]).
  unfold openLibraryManagerOnce, showQuickPick. unfold_m.
  rewrite (getLibraries_hit cli exec w f cached l Hf Hage Hd Hv).
  rewrite Hlen, Hitems. cbn [cbind fst snd]. rewrite Hitem.
  set (w1 := emit _ w).
  destruct (truthy (propOf "installed" (itemLibrary item))) eqn:Hi;
    [destruct (truthy (propOf "hasUpdate" (itemLibrary item))) eqn:Hu |].
  all: destruct (execResult (exec (installCommand cli (itemLibrary item)))) as [out | e] eqn:Hout.
  all: try (rewrite (handleLibraryAction_done cli exec _ reopen w1 out Hlib Hout); reflexivity).
  all: rewrite (handleLibraryAction_failed cli exec _ reopen w1 e Hlib Hout); reflexivity.
Qed.

Lemma openLibraryManagerOnce_dismissed cli exec im um am ar w l items reopen :
  cacheServes w (now w) l ->
  l <> [] ->
  libraryItems im um am ar l = Normal items ->
  openLibraryManagerOnce cli exec im um am ar None reopen w
    = (Normal tt, emit (InfoMsg (loadingNotice l)) w).
Proof.
  intros (f & cached & Hf & Hage & Hd & Hv) Hl Hitems.
  assert ((List.length l =? 0)%nat = false) as Hlen
    by (destruct l; [destruct Hl | ]; reflexivity).
  unfold openLibraryManagerOnce, showQuickPick. unfold_m.
  rewrite (getLibraries_hit cli exec w f cached l Hf Hage Hd Hv).
  rewrite Hlen, Hitems. reflexivity.
Qed.

(** X20. Installing a library from the manager does not touch the cache:
    while the cache file is fresh the manager reopens with the very list it
    showed before, the install is the only command handed to the tool, and
    no error is shown. *)
Theorem install_reopens_the_cached_list :
  forall (cli : string) (exec : string -> ExecOutcome) (im um am ar : string)
         (w : World) (l : list value) (items : list PickItem) (i : nat) (lib : value)
         (out : text),
    cacheServes w (now w + execElapsed (exec (installCommand cli lib))) l ->
    0 <= execElapsed (exec (installCommand cli lib)) ->
    libraryItems im um am ar l = Normal items ->
    nth_error l i = Some lib ->
    execResult (exec (installCommand cli lib)) = Normal out ->
    let w' := after (openLibraryManager cli exec im um am ar [Some i] w) in
    result (openLibraryManager cli exec im um am ar [Some i] w) = Normal tt /\
    execs (events w') = (execs (events w) ++ [installCommand cli lib])%list /\
    files w' = files w /\
    errorsShown (events w') = errorsShown (events w) /\
    infosShown (events w')
      = (infosShown (events w)
           ++ [loadingNotice l; startNotice lib; doneNotice lib; loadingNotice l])%list.
Proof.
  intros cli exec im um am ar w l items i lib out Hcache Hpos Hitems Hnth Hout w'.
  subst w'.
  destruct (libraryItems_nth im um am ar l items i lib Hitems Hnth) as (Hlib & _).
  assert (l <> []) as Hl by (intros ->; destruct i; discriminate).
  assert (cacheServes w (now w) l) as Hnow.
  { destruct Hcache as (f & cached & Hf & Hage & Hd & Hv).
    exists f, cached. repeat split; try assumption. lia. }
  cbn [openLibraryManager].
  rewrite (openLibraryManagerOnce_pick cli exec im um am ar w l items i lib _
             Hnow Hitems Hnth).
  rewrite (handleLibraryAction_done cli exec lib _ _ out Hlib Hout).
  rewrite (openLibraryManagerOnce_dismissed cli exec im um am ar _ l items _);
    [| exact Hcache | exact Hl | exact Hitems].
  unfold result, after, installed_world, emit, setNow. cbn [fst snd events files now].
  rewrite !execs_app, !errorsShown_app, !infosShown_app. cbn [execs errorsShown infosShown].
  rewrite !app_nil_r, <- !app_assoc. repeat split.
Qed.

Lemma install_reopens_the_cached_list_witness :
  execs (events (after (openLibraryManager "arduino-cli" toolInstalls "+" "^" "-" ">"
                          [Some 0%nat]
                          (demoWorld 1000 None (Some (cacheFileAt Libraries 0))))))
    = ["arduino-cli lib install " ++ dquote ++ "Servo" ++ dquote]%string.
Proof.
  refine (proj1 (proj2 (install_reopens_the_cached_list "arduino-cli" toolInstalls
                          "+" "^" "-" ">"
                          (demoWorld 1000 None (Some (cacheFileAt Libraries 0)))
                          [servoEntry] _ 0 servoEntry (Garbled "Downloading Servo@1.2.1...")
                          _ _ eq_refl eq_refl eq_refl))).
  - exists (cacheFileAt Libraries 0), (VObj [("libraries", VArr [servoEntry]);
                                             ("timestamp", VNum 0)]).
    repeat split. vm_compute. discriminate.
  - vm_compute. discriminate.
Defined.

(** X21. When the install command fails, one error naming the action and the
    library is shown, the manager is not opened again, whatever the user
    would have picked next, and the operation still resolves. *)
Theorem failed_install_ends_the_session :
  forall (cli : string) (exec : string -> ExecOutcome) (im um am ar : string)
         (w : World) (l : list value) (items : list PickItem) (i : nat) (lib : value)
         (e : JsError) (rest : list (option nat)),
    cacheServes w (now w) l ->
    libraryItems im um am ar l = Normal items ->
    nth_error l i = Some lib ->
    execResult (exec (installCommand cli lib)) = Throw e ->
    let w' := after (openLibraryManager cli exec im um am ar (Some i :: rest) w) in
    result (openLibraryManager cli exec im um am ar (Some i :: rest) w) = Normal tt /\
    execs (events w') = (execs (events w) ++ [installCommand cli lib])%list /\
    files w' = files w /\
    errorsShown (events w') = (errorsShown (events w) ++ [failedNotice lib e])%list /\
    infosShown (events w')
      = (infosShown (events w) ++ [loadingNotice l; startNotice lib])%list.
Proof.
  intros cli exec im um am ar w l items i lib e rest Hcache Hitems Hnth Hout w'.
  subst w'.
  destruct (libraryItems_nth im um am ar l items i lib Hitems Hnth) as (Hlib & _).
  cbn [openLibraryManager].
  rewrite (openLibraryManagerOnce_pick cli exec im um am ar w l items i lib _
             Hcache Hitems Hnth).
  rewrite (handleLibraryAction_failed cli exec lib _ _ e Hlib Hout).
  unfold result, after, installed_world, emit, setNow. cbn [fst snd events files now].
  rewrite !execs_app, !errorsShown_app, !infosShown_app. cbn [execs errorsShown infosShown].
  rewrite !app_nil_r, <- !app_assoc. repeat split.
Qed.

Lemma failed_install_ends_the_session_witness :
  errorsShown (events (after (openLibraryManager "arduino-cli" toolDown "+" "^" "-" ">"
                                [Some 0%nat; Some 0%nat]
                                (demoWorld 1000 None (Some (cacheFileAt Libraries 0))))))
    = [("Failed to reinstall library " ++ dquote ++ "Servo" ++ dquote
          ++ ": Error: Command failed: arduino-cli: not found")%string].
Proof.
  refine (proj1 (proj2 (proj2 (proj2
            (failed_install_ends_the_session "arduino-cli" toolDown "+" "^" "-" ">"
               (demoWorld 1000 None (Some (cacheFileAt Libraries 0)))
               [servoEntry] _ 0 servoEntry
               (Error "Command failed: arduino-cli: not found") [Some 0%nat]
               _ eq_refl eq_refl eq_refl))))).
  exists (cacheFileAt Libraries 0), (VObj [("libraries", VArr [servoEntry]);
                                           ("timestamp", VNum 0)]).
  repeat split. vm_compute. discriminate.
Defined.
